(** * Image viewer: the edit / undo pipeline of [appImageViewer1O.py] and the
      camera glue of [appImageViewer2O.py]

    The program keeps one image in three representations (a [QPixmap] that
    is displayed, a [QImage] for pixel access and a numpy array for OpenCV)
    and a one-slot undo buffer [prevPixmap].  This development embeds the
    methods of [MainWindow] that touch this state as functions on a record
    of the instance attributes, and proves the properties the specification
    states about them. *)

From Stdlib Require Import ZArith List Bool Lia.
From Stdlib Require String.
Import ListNotations.
Open Scope Z_scope.

(** ** Python exceptions *)

Inductive exn : Type :=
| IndexError
| ValueError
| UnboundLocalError
| Cv2Error.                (* cv2.error *)

Inductive result (A : Type) : Type :=
| Ok (a : A)
| Raise (e : exn).

Arguments Ok {A} a.
Arguments Raise {A} e.

Definition bind {A B : Type} (m : result A) (k : A -> result B) : result B :=
  match m with
  | Ok a => k a
  | Raise e => Raise e
  end.

Notation "x <- m ;; k" := (bind m (fun x => k))
  (at level 61, m at next level, right associativity).

(** ** Qt value types

    Pixel content is a row-major list of [QRgb] values ([0xAARRGGBB]).
    The pixel format of a [QImage] is not modelled: two images are equal
    when they have the same size and the same colours. *)

Module Qt.

Definition QRgb := Z.

Definition qRed (v : QRgb) : Z := Z.land (Z.shiftr v 16) 255.
Definition qGreen (v : QRgb) : Z := Z.land (Z.shiftr v 8) 255.
Definition qBlue (v : QRgb) : Z := Z.land v 255.
Definition qAlpha (v : QRgb) : Z := Z.land (Z.shiftr v 24) 255.

Definition qRgba (r g b a : Z) : QRgb :=
  Z.lor (Z.shiftl (Z.land a 255) 24)
    (Z.lor (Z.shiftl (Z.land r 255) 16)
       (Z.lor (Z.shiftl (Z.land g 255) 8) (Z.land b 255))).

(** [QRect(x, y, w, h)]: [topLeft()] is [(x, y)], [width()] is [w]. *)
Record QRect : Type := mkRect {
  rect_x : Z;
  rect_y : Z;
  rect_width : Z;
  rect_height : Z
}.

Record QPixmap : Type := mkPixmap {
  pm_width : Z;
  pm_height : Z;
  pm_data : list QRgb
}.

(** [QPixmap()] *)
Definition null_pixmap : QPixmap := mkPixmap 0 0 [].

Definition pm_isNull (p : QPixmap) : bool :=
  (pm_width p <=? 0) || (pm_height p <=? 0).

Record QImage : Type := mkImage {
  img_width : Z;
  img_height : Z;
  img_data : list QRgb
}.

(** [QImage()] *)
Definition null_image : QImage := mkImage 0 0 [].

Definition img_isNull (i : QImage) : bool :=
  (img_width i <=? 0) || (img_height i <=? 0).

(** [QPixmap.toImage()] and [QPixmap.fromImage(image)] keep size and colours. *)
Definition toImage (p : QPixmap) : QImage :=
  mkImage (pm_width p) (pm_height p) (pm_data p).

Definition fromImage (i : QImage) : QPixmap :=
  mkPixmap (img_width i) (img_height i) (img_data i).

(** [QImage.allGray()]: every pixel has equal red, green and blue. *)
Definition allGray (i : QImage) : bool :=
  forallb (fun v => (qRed v =? qGreen v) && (qGreen v =? qBlue v)) (img_data i).

(** The pixels of the [cw] x [ch] window with top-left corner [(x0, y0)] of
    a raster that is [pw] pixels wide. *)
Definition window (pw : Z) (data : list QRgb) (x0 y0 cw ch : Z) : list QRgb :=
  flat_map
    (fun r => firstn (Z.to_nat cw)
                (skipn (Z.to_nat ((y0 + Z.of_nat r) * pw + x0)) data))
    (seq 0 (Z.to_nat ch)).

(** [QPixmap.copy(x, y, w, h)].  Qt returns a null pixmap for a null one,
    the whole pixmap for an empty rectangle, and otherwise the part of the
    rectangle that lies inside the pixmap (the rectangle is intersected
    with [QRect(0, 0, width(), height())]; an empty intersection is the
    null rectangle, for which the raster backend returns the whole
    image). *)
Definition pm_copy (p : QPixmap) (x y w h : Z) : QPixmap :=
  if pm_isNull p then null_pixmap
  else if (w <=? 0) || (h <=? 0) then p
  else
    let x0 := Z.max 0 x in
    let y0 := Z.max 0 y in
    let x1 := Z.min (pm_width p) (x + w) in
    let y1 := Z.min (pm_height p) (y + h) in
    if (x1 <=? x0) || (y1 <=? y0) then p
    else mkPixmap (x1 - x0) (y1 - y0)
           (window (pm_width p) (pm_data p) x0 y0 (x1 - x0) (y1 - y0)).

(** The view transform.  [scaleUpFactor] is [np.sqrt(2.0)]; the transform
    is kept as the sequence of scalings applied to the identity. *)
Inductive factor : Type :=
| ScaleUpFactor            (* self.scaleUpFactor *)
| InvScaleUpFactor.        (* 1.0/self.scaleUpFactor *)

Inductive QTransform : Type :=
| Identity
| Scaled (sx sy : factor) (t : QTransform).

End Qt.
Export Qt.

(** ** numpy arrays

    An array is its shape and its elements in row-major order. *)

Module Np.

Record ndarray : Type := mkArr {
  shape : list nat;
  data : list Z
}.

(** [np.array([])]: one dimension, no element. *)
Definition empty_array : ndarray := mkArr [0%nat] [].

Definition ndim (A : ndarray) : nat := length (shape A).

(** [A.size] *)
Definition size (A : ndarray) : nat := fold_right Nat.mul 1%nat (shape A).

(** [A.shape[i]] *)
Definition shape_at (A : ndarray) (i : nat) : result nat :=
  match nth_error (shape A) i with
  | Some n => Ok n
  | None => Raise IndexError
  end.

(** Number of elements per pixel: the product of [shape[2:]]. *)
Definition depth (A : ndarray) : nat :=
  fold_right Nat.mul 1%nat (skipn 2 (shape A)).

Definition rows (A : ndarray) : nat := nth 0 (shape A) 0%nat.
Definition cols (A : ndarray) : nat := nth 1 (shape A) 0%nat.

(** [A[r, c, k]], with the trailing axes flattened into [k]. *)
Definition at3 (A : ndarray) (r c k : nat) : Z :=
  nth ((r * cols A + c) * depth A + k) (data A) 0.

(** [A[:, c, k]] and [A[r, :, k]] *)
Definition column_chan (A : ndarray) (c k : nat) : list Z :=
  map (fun r => at3 A r c k) (seq 0 (rows A)).

Definition row_chan (A : ndarray) (r k : nat) : list Z :=
  map (fun c => at3 A r c k) (seq 0 (cols A)).

(** [A[:, c]] and [A[r, :]] *)
Definition column_all (A : ndarray) (c : nat) : list Z :=
  flat_map (fun r => map (fun k => at3 A r c k) (seq 0 (depth A)))
    (seq 0 (rows A)).

Definition row_all (A : ndarray) (r : nat) : list Z :=
  flat_map (fun c => map (fun k => at3 A r c k) (seq 0 (depth A)))
    (seq 0 (cols A)).

(** [.max()]: numpy raises [ValueError] on an array without elements. *)
Definition amax (l : list Z) : result Z :=
  match l with
  | [] => Raise ValueError
  | x :: t => Ok (fold_left Z.max t x)
  end.

Definition amin (l : list Z) : result Z :=
  match l with
  | [] => Raise ValueError
  | x :: t => Ok (fold_left Z.min t x)
  end.

(** [A[r0:r1, c0:c1]] (and [A[r0:r1, c0:c1, :]]) for bounds that are not
    negative: a slice is clipped to the array. *)
Definition slice2 (A : ndarray) (r0 r1 c0 c1 : nat) : ndarray :=
  let ra := Nat.min r0 (rows A) in
  let rb := Nat.min r1 (rows A) in
  let ca := Nat.min c0 (cols A) in
  let cb := Nat.min c1 (cols A) in
  mkArr ((rb - ra)%nat :: (cb - ca)%nat :: skipn 2 (shape A))
    (flat_map
       (fun r => flat_map
                   (fun c => map (fun k => at3 A r c k) (seq 0 (depth A)))
                   (seq ca (cb - ca)))
       (seq ra (rb - ra))).

(** [A[:, :, 0]] *)
Definition chan0 (A : ndarray) : ndarray :=
  mkArr [rows A; cols A]
    (flat_map (fun r => map (fun c => at3 A r c 0) (seq 0 (cols A)))
       (seq 0 (rows A))).

(** [A[:, :, [0, 1, 2]]]: the first three indices of the third axis; the
    axes after it are kept, their [inner] elements following each other
    in the data. *)
Definition chans012 (A : ndarray) : ndarray :=
  let inner := fold_right Nat.mul 1%nat (skipn 3 (shape A)) in
  mkArr (rows A :: cols A :: 3%nat :: skipn 3 (shape A))
    (flat_map
       (fun r => flat_map
                   (fun c => map (fun k => at3 A r c k) (seq 0 (3 * inner)))
                   (seq 0 (cols A)))
       (seq 0 (rows A))).

End Np.
Export Np.

(** ** External libraries

    OpenCV, the floating-point part of numpy and the helper module
    [files.myImageTools] are not part of the sources; the viewer is
    parametrised over them.  Floating-point arrays ([CV_32F] images, filter
    kernels) are values of the abstract types [farray] and [kernel].

    A field named after a function the Edit menu calls gives the value of
    a call that returns; the field with the suffix [_error] gives the
    exception the call raises instead, if it raises.  The functions only
    the Homework menu calls give a [result]. *)

Inductive ColorConversion : Type :=
| COLOR_BGR2GRAY
| COLOR_BGRA2GRAY
| COLOR_GRAY2BGR
| COLOR_BGR2RGBA.

Inductive ThresholdType : Type :=
| THRESH_BINARY
| THRESH_OTSU.

Class Libs : Type := {
  farray : Type;
  kernel : Type;
  (** files.myImageTools *)
  np2qimage : ndarray -> QImage;
  qimage2np : QImage -> ndarray;
  smoothFilter : Z -> kernel;
  (** [len(h)] *)
  kernel_len : kernel -> Z;
  (** cv2 *)
  cv2_cvtColor : ndarray -> ColorConversion -> ndarray;
  (** [cv2.Sobel(B, ddepth=cv2.CV_32F, dx, dy, ksize)] *)
  cv2_Sobel : ndarray -> Z -> Z -> Z -> farray;
  (** [cv2.sepFilter2D(B, ddepth=-1, kernelX, kernelY)] *)
  cv2_sepFilter2D : farray -> kernel -> kernel -> farray;
  (** [cv2.filter2D(B, ddepth=cv2.CV_16S, kernel=h).astype(np.float32)] *)
  cv2_filter2D : ndarray -> kernel -> farray;
  (** second component of [cv2.threshold(B, thresh, maxval=255, type)] *)
  cv2_threshold : ndarray -> Z -> ThresholdType -> ndarray;
  (** [cv2.resize(B, (newWidth, newHight), interpolation=cv2.INTER_LINEAR)] *)
  cv2_resize : ndarray -> Z -> Z -> ndarray;
  (** the exception, if any, of [cv2.cvtColor], of [cv2.threshold] and of
      [cv2.resize] with the arguments above *)
  cv2_cvtColor_error : ndarray -> ColorConversion -> option exn;
  cv2_threshold_error : ndarray -> Z -> ThresholdType -> option exn;
  cv2_resize_error : ndarray -> Z -> Z -> option exn;
  (** the exception, if any, of the calls [tryEdges(valK, valS)] makes on
      the array before it displays the result ([cv2.Sobel], the numpy
      operations, [smoothFilter], [cv2.sepFilter2D]) *)
  edges_error : ndarray -> Z -> Z -> option exn;
  (** the same for [tryFilter(h, valS)] *)
  filter_error : ndarray -> kernel -> Z -> option exn;
  (** [cv2.resize(B, (0, 0), fx=max_dim/m, fy=max_dim/m)] for the larger
      side [m] of [B] *)
  cv2_resize_max : ndarray -> Z -> nat -> result ndarray;
  (** [img] after [cv2.circle(img, (x, y), 5, (0, 0, 255), 1)] drew into
      it *)
  cv2_circle : ndarray -> Z -> Z -> result ndarray;
  (** [img] after [cv2.line(img, (x1, y1), (x2, y2), (0, 0, 255), 2)] drew
      into it *)
  cv2_line : ndarray -> Z * Z -> Z * Z -> result ndarray;
  (** [cv2.dilate(cv2.cornerHarris(np.float32(gray_image), blockSize=2,
      ksize=3, k=0.04), None)] *)
  cv2_harris : ndarray -> result farray;
  (** For the Harris response [R]: the rows [y] of [range(R.shape[0])],
      each with [R[y, x] > 0.01 * R.max()] for [x] in
      [range(R.shape[1])] *)
  harris_above : farray -> result (list (list bool));
  (** For a gray image: [cv2.HoughLines(cv2.Canny(gray, 50, 150,
      apertureSize=3), 1, np.pi/180, 200)], no line for [None], each line
      given by the end points [(x1, y1)], [(x2, y2)] the loop of
      [drawlines] computes from [rho] and [theta] *)
  hough_segments : ndarray -> result (list ((Z * Z) * (Z * Z)));
  (** numpy on floats *)
  (** [np.sqrt(1 + np.power(Eh, 2) + np.power(Ev, 2))] *)
  np_magnitude : farray -> farray -> farray;
  (** [np.floor(B * (255/np.max(B))).astype(np.uint8)] *)
  np_scale_uint8 : farray -> ndarray;
  (** [B.astype(np.float32)] *)
  np_astype_float32 : ndarray -> farray;
  (** [B - np.min(B)] *)
  np_sub_min : farray -> farray
}.

(** ** The main window of [appImageViewer1O.py] *)

Inductive Title : Type :=
| TitleApp                 (* self.appFileName *)
| TitleFile                (* f"{self.appFileName} : {fName}" *)
| TitleCropped
| TitleBlackFrame
| TitleResized
| TitleGray
| TitleEdge
| TitleFiltered
| TitleBinary
| TitlePrevious
| TitleHarris
| TitleLines
| TitleCamera
| TitleCameraError.

Inductive StatusText : Type :=
| StatusOpen                       (* 'Open image to display it.' *)
| StatusNoPixmap                   (* 'No pixmap (image) on scene.' *)
| StatusSize (w h : Z).            (* f"pixmap: (w,h) = ({w},{h})" *)

(** Which actions of the Scale and Edit menus are enabled. *)
Record MenuItems : Type := mkMenu {
  qaSaveFileDlg : bool;
  qaClearImage : bool;
  qaScaleOne : bool;
  qaScaleUp : bool;
  qaScaleDown : bool;
  qaCrop : bool;
  qaToGray : bool;
  qaToEdges : bool;
  qaFilter : bool;
  qaToBinary : bool;
  qaUndoLast : bool
}.

Record MainWindow : Type := mkMainWindow {
  pixmap : QPixmap;
  prevPixmap : QPixmap;
  image : QImage;
  isAllGray : bool;
  npImage : ndarray;
  cropActive : bool;
  curItem : option QPixmap;          (* the QGraphicsPixmapItem on the scene *)
  sceneRect : Z * Z;                 (* scene.setSceneRect(0, 0, w, h) *)
  viewTransform : QTransform;        (* self.view.transform() *)
  rubberBandActive : bool;           (* self.view.rubberBandActive *)
  mouseTracking : bool;              (* self.view.hasMouseTracking() *)
  status : StatusText;
  windowTitle : Title;
  menu : MenuItems
}.

Definition set_pixmap (s : MainWindow) (p : QPixmap) : MainWindow :=
  mkMainWindow p (prevPixmap s) (image s) (isAllGray s) (npImage s)
    (cropActive s) (curItem s) (sceneRect s) (viewTransform s)
    (rubberBandActive s) (mouseTracking s) (status s) (windowTitle s) (menu s).

Definition set_prevPixmap (s : MainWindow) (p : QPixmap) : MainWindow :=
  mkMainWindow (pixmap s) p (image s) (isAllGray s) (npImage s)
    (cropActive s) (curItem s) (sceneRect s) (viewTransform s)
    (rubberBandActive s) (mouseTracking s) (status s) (windowTitle s) (menu s).

Definition set_image (s : MainWindow) (i : QImage) : MainWindow :=
  mkMainWindow (pixmap s) (prevPixmap s) i (isAllGray s) (npImage s)
    (cropActive s) (curItem s) (sceneRect s) (viewTransform s)
    (rubberBandActive s) (mouseTracking s) (status s) (windowTitle s) (menu s).

Definition set_isAllGray (s : MainWindow) (b : bool) : MainWindow :=
  mkMainWindow (pixmap s) (prevPixmap s) (image s) b (npImage s)
    (cropActive s) (curItem s) (sceneRect s) (viewTransform s)
    (rubberBandActive s) (mouseTracking s) (status s) (windowTitle s) (menu s).

Definition set_npImage (s : MainWindow) (A : ndarray) : MainWindow :=
  mkMainWindow (pixmap s) (prevPixmap s) (image s) (isAllGray s) A
    (cropActive s) (curItem s) (sceneRect s) (viewTransform s)
    (rubberBandActive s) (mouseTracking s) (status s) (windowTitle s) (menu s).

Definition set_cropActive (s : MainWindow) (b : bool) : MainWindow :=
  mkMainWindow (pixmap s) (prevPixmap s) (image s) (isAllGray s) (npImage s)
    b (curItem s) (sceneRect s) (viewTransform s)
    (rubberBandActive s) (mouseTracking s) (status s) (windowTitle s) (menu s).

(** [self.curItem = QGraphicsPixmapItem(p)], put on the scene in place of
    the previous item. *)
Definition set_curItem (s : MainWindow) (p : QPixmap) : MainWindow :=
  mkMainWindow (pixmap s) (prevPixmap s) (image s) (isAllGray s) (npImage s)
    (cropActive s) (Some p) (sceneRect s) (viewTransform s)
    (rubberBandActive s) (mouseTracking s) (status s) (windowTitle s) (menu s).

(** [self.scene.setSceneRect(0, 0, w, h)] *)
Definition setSceneRect (s : MainWindow) (w h : Z) : MainWindow :=
  mkMainWindow (pixmap s) (prevPixmap s) (image s) (isAllGray s) (npImage s)
    (cropActive s) (curItem s) (w, h) (viewTransform s)
    (rubberBandActive s) (mouseTracking s) (status s) (windowTitle s) (menu s).

Definition set_viewTransform (s : MainWindow) (t : QTransform) : MainWindow :=
  mkMainWindow (pixmap s) (prevPixmap s) (image s) (isAllGray s) (npImage s)
    (cropActive s) (curItem s) (sceneRect s) t
    (rubberBandActive s) (mouseTracking s) (status s) (windowTitle s) (menu s).

Definition set_rubberBandActive (s : MainWindow) (b : bool) : MainWindow :=
  mkMainWindow (pixmap s) (prevPixmap s) (image s) (isAllGray s) (npImage s)
    (cropActive s) (curItem s) (sceneRect s) (viewTransform s)
    b (mouseTracking s) (status s) (windowTitle s) (menu s).

Definition set_mouseTracking (s : MainWindow) (b : bool) : MainWindow :=
  mkMainWindow (pixmap s) (prevPixmap s) (image s) (isAllGray s) (npImage s)
    (cropActive s) (curItem s) (sceneRect s) (viewTransform s)
    (rubberBandActive s) b (status s) (windowTitle s) (menu s).

Definition set_status (s : MainWindow) (t : StatusText) : MainWindow :=
  mkMainWindow (pixmap s) (prevPixmap s) (image s) (isAllGray s) (npImage s)
    (cropActive s) (curItem s) (sceneRect s) (viewTransform s)
    (rubberBandActive s) (mouseTracking s) t (windowTitle s) (menu s).

Definition setWindowTitle (s : MainWindow) (t : Title) : MainWindow :=
  mkMainWindow (pixmap s) (prevPixmap s) (image s) (isAllGray s) (npImage s)
    (cropActive s) (curItem s) (sceneRect s) (viewTransform s)
    (rubberBandActive s) (mouseTracking s) (status s) t (menu s).

Definition set_menu (s : MainWindow) (m : MenuItems) : MainWindow :=
  mkMainWindow (pixmap s) (prevPixmap s) (image s) (isAllGray s) (npImage s)
    (cropActive s) (curItem s) (sceneRect s) (viewTransform s)
    (rubberBandActive s) (mouseTracking s) (status s) (windowTitle s) m.

(** The window [__init__] builds when no file name is given. *)
Definition init_menu : MenuItems :=
  mkMenu false false false false false false false false false false false.

Definition initial : MainWindow :=
  mkMainWindow null_pixmap null_pixmap null_image false empty_array false
    None (0, 0) Identity false true StatusOpen TitleApp init_menu.

Definition setMenuItems (s : MainWindow) : MainWindow :=
  let pixmapOK :=
    negb (pm_isNull (pixmap s))
    && match curItem s with Some _ => true | None => false end in
  set_menu s
    (mkMenu pixmapOK pixmapOK pixmapOK pixmapOK pixmapOK
       (pixmapOK && negb (cropActive s))
       (pixmapOK && negb (isAllGray s))
       (pixmapOK && isAllGray s)
       (pixmapOK && isAllGray s)
       (pixmapOK && isAllGray s)
       (negb (pm_isNull (prevPixmap s)))).

(** [setIsAllGray()] with the default argument [value=-1]. *)
Definition setIsAllGray (s : MainWindow) : MainWindow :=
  setMenuItems
    (set_isAllGray s
       (if negb (img_isNull (image s)) then allGray (image s) else false)).

Definition scaleOne (s : MainWindow) : MainWindow :=
  if negb (pm_isNull (pixmap s)) then set_viewTransform s Identity else s.

Definition scaleUp (s : MainWindow) : MainWindow :=
  if negb (pm_isNull (pixmap s))
  then set_viewTransform s (Scaled ScaleUpFactor ScaleUpFactor (viewTransform s))
  else s.

Definition scaleDown (s : MainWindow) : MainWindow :=
  if negb (pm_isNull (pixmap s))
  then set_viewTransform s
         (Scaled InvScaleUpFactor InvScaleUpFactor (viewTransform s))
  else s.

Definition cropStart (s : MainWindow) : MainWindow :=
  setMenuItems (set_rubberBandActive (set_cropActive s true) true).

(** *** Moving one representation into the others *)

(** Display [self.pixmap] on the scene and copy it to [self.image] and to
    [self.npImage]. *)
Definition pixmap2image2np `{Libs} (s : MainWindow) : MainWindow :=
  let s := set_curItem s (pixmap s) in
  let (w, h) := (pm_width (pixmap s), pm_height (pixmap s)) in
  let s := setSceneRect s w h in
  let s := set_image s (toImage (pixmap s)) in
  let s := setIsAllGray s in
  let s := set_npImage s (qimage2np (image s)) in
  let s :=
    if isAllGray s && (ndim (npImage s) =? 3)%nat
    then set_npImage s (chan0 (npImage s))
    else s in
  let s := set_status s (StatusSize w h) in
  scaleOne s.

(** Copy the array [B] to [self.image] and to [self.pixmap]; when
    [numpyAlso] is true [self.npImage] is set to [B].  (The argument is an
    [ndarray] by its type, so the [isinstance] test always passes.) *)
Definition np2image2pixmap `{Libs} (s : MainWindow) (B : ndarray)
    (numpyAlso : bool) : MainWindow :=
  let s := set_image s (np2qimage B) in
  let s :=
    if negb (img_isNull (image s)) then
      let s := set_pixmap s (fromImage (image s)) in
      let s := set_curItem s (pixmap s) in
      setSceneRect s (pm_width (pixmap s)) (pm_height (pixmap s))
    else s in
  let s := if numpyAlso then set_npImage s B else s in
  setIsAllGray s.

(** *** Edit menu: crop *)

(** [(len(A.shape) == 3) and (A.shape[2] >= 3)] *)
Definition is_color (A : ndarray) : bool :=
  (ndim A =? 3)%nat && (3 <=? nth 2 (shape A) 0)%nat.

(** [(sl(0).max() > 0) or (sl(1).max() > 0) or (sl(2).max() > 0)] *)
Definition bright_color (sl : nat -> list Z) : result bool :=
  m0 <- amax (sl 0%nat) ;;
  (if 0 <? m0 then Ok true
   else m1 <- amax (sl 1%nat) ;;
        (if 0 <? m1 then Ok true
         else m2 <- amax (sl 2%nat) ;; Ok (0 <? m2))).

(** [(l.max() > 0)] *)
Definition bright_gray (l : list Z) : result bool :=
  m <- amax l ;; Ok (0 <? m).

(** [for i in idxs: if bright(i): break else: n += 1], started with
    [n = acc]. *)
Fixpoint count_black (bright : nat -> result bool) (idxs : list nat)
    (acc : nat) : result nat :=
  match idxs with
  | [] => Ok acc
  | i :: rest =>
      b <- bright i ;;
      (if b : bool then Ok acc else count_black bright rest (S acc))
  end.

(** The four loops of the special case of [cropEnd]: the numbers
    [(left, right, top, bottom)] of black columns and rows at the borders
    of [A]. *)
Definition black_frame (A : ndarray) : result (nat * nat * nat * nat) :=
  if is_color A then
    let bright_col := fun c => bright_color (column_chan A c) in
    let bright_row := fun r => bright_color (row_chan A r) in
    left_ <- count_black bright_col (seq 0 (cols A)) 0 ;;
    right_ <- count_black bright_col (rev (seq 0 (cols A))) 0 ;;
    top_ <- count_black bright_row (seq 0 (rows A)) 0 ;;
    bottom_ <- count_black bright_row (rev (seq 0 (rows A))) 0 ;;
    Ok (left_, right_, top_, bottom_)
  else
    let bright_col := fun c => bright_gray (column_all A c) in
    let bright_row := fun r => bright_gray (row_all A r) in
    n1 <- shape_at A 1 ;;
    left_ <- count_black bright_col (seq 0 n1) 0 ;;
    right_ <- count_black bright_col (rev (seq 0 n1)) 0 ;;
    n0 <- shape_at A 0 ;;
    top_ <- count_black bright_row (seq 0 n0) 0 ;;
    bottom_ <- count_black bright_row (rev (seq 0 n0)) 0 ;;
    Ok (left_, right_, top_, bottom_).

(** Crop the current pixmap using the rubber band rectangle; a small
    rectangle triggers the special case that cuts a black frame. *)
Definition cropEnd `{Libs} (s : MainWindow) (rectangle : QRect)
    : result MainWindow :=
  if negb (cropActive s) then Ok s
  else
    let s := set_cropActive s false in
    let (w, h) := (rect_width rectangle, rect_height rectangle) in
    if (5 <? w) && (5 <? h) then
      let s := set_prevPixmap s (pixmap s) in
      let s := set_pixmap s
                 (pm_copy (prevPixmap s) (rect_x rectangle) (rect_y rectangle)
                    w h) in
      let s := pixmap2image2np s in
      let s := setWindowTitle s TitleCropped in
      Ok (setMenuItems s)
    else
      let A := npImage s in
      f <- black_frame A ;;
      let '(left_, right_, top_, bottom_) := f in
      let w := Z.of_nat (cols A) - Z.of_nat left_ - Z.of_nat right_ in
      let h := Z.of_nat (rows A) - Z.of_nat top_ - Z.of_nat bottom_ in
      if (0 <? Nat.max (Nat.max left_ right_) (Nat.max top_ bottom_))%nat then
        if (w <=? 0) || (h <=? 0) then Ok (setMenuItems s)
        else
          let s := set_prevPixmap s (pixmap s) in
          (* B = A[top:top+w, left:left+w].copy() in both branches *)
          let B := slice2 A top_ (top_ + Z.to_nat w) left_ (left_ + Z.to_nat w) in
          let s := np2image2pixmap s B true in
          let s := setWindowTitle s TitleBlackFrame in
          let s := setIsAllGray s in
          Ok (setMenuItems s)
      else Ok (setMenuItems s).

(** *** Edit menu: the dialogs

    A dialog is shown by [d.getValues()]; while it is open it may call the
    preview method of the main window any number of times.  One run of a
    dialog is the previews it asked for, the values it returned and
    [d.result()]. *)

Record EdgeRun : Type := mkEdgeRun {
  edge_previews : list (Z * Z);      (* calls tryEdges(valK, valS) *)
  edge_values : Z * Z;               (* (valK, valS) *)
  edge_result : bool                 (* d.result() *)
}.

Record FilterRun `{Libs} : Type := mkFilterRun {
  filter_previews : list (kernel * Z);   (* calls tryFilter(h, valS) *)
  filter_values : kernel * Z;            (* (h, valS) *)
  filter_result : bool
}.

Record ThresholdRun : Type := mkThresholdRun {
  threshold_previews : list Z;       (* calls tryBinary(t) *)
  threshold_value : Z;               (* t *)
  threshold_result : bool
}.

Record ResizeRun : Type := mkResizeRun {
  resize_values : Z * Z;             (* (newWidth, newHight) *)
  resize_result : bool
}.

Definition resizeImage `{Libs} (s : MainWindow) (d : ResizeRun) : MainWindow :=
  let B := npImage s in
  let oldPixmap := prevPixmap s in
  let s := set_prevPixmap s (pixmap s) in
  let (newWidth, newHight) := resize_values d in
  let s :=
    if resize_result d then
      let B := cv2_resize B newWidth newHight in
      let s := np2image2pixmap s B true in
      let (w, h) := (pm_width (pixmap s), pm_height (pixmap s)) in
      let s := setSceneRect s w h in
      let s := set_status s (StatusSize w h) in
      setWindowTitle s TitleResized
    else set_prevPixmap s oldPixmap in
  setMenuItems s.

Definition toGray `{Libs} (s : MainWindow) : result MainWindow :=
  if is_color (npImage s) then
    let s := set_prevPixmap s (pixmap s) in
    let channels := nth 2 (shape (npImage s)) 0%nat in
    (* B is bound only for 3 or 4 channels *)
    B <- (if (channels =? 4)%nat
          then Ok (cv2_cvtColor (npImage s) COLOR_BGRA2GRAY)
          else if (channels =? 3)%nat
               then Ok (cv2_cvtColor (npImage s) COLOR_BGR2GRAY)
               else Raise UnboundLocalError) ;;
    let s := np2image2pixmap s B true in
    let s := setWindowTitle s TitleGray in
    Ok (setMenuItems s)
  else Ok (setMenuItems s).

Definition tryEdges `{Libs} (s : MainWindow) (valK valS : Z) : MainWindow :=
  let B := npImage s in
  let Eh := cv2_Sobel B 0 1 valK in
  let Ev := cv2_Sobel B 1 0 valK in
  let B := np_magnitude Eh Ev in
  let B :=
    if 1 <? valS then
      let a := smoothFilter valS in cv2_sepFilter2D B a a
    else B in
  let B := np_scale_uint8 B in
  np2image2pixmap s B false.   (* note: self.npImage is not updated *)

Definition toEdges `{Libs} (s : MainWindow) (d : EdgeRun) : MainWindow :=
  let B := npImage s in
  let oldPixmap := prevPixmap s in
  let s := set_prevPixmap s (pixmap s) in
  let s := fold_left (fun s v => tryEdges s (fst v) (snd v))
             (edge_previews d) s in
  let (valK, valS) := edge_values d in
  let s :=
    if edge_result d then
      let Eh := cv2_Sobel B 0 1 valK in
      let Ev := cv2_Sobel B 1 0 valK in
      let B := np_magnitude Eh Ev in
      let B :=
        if 1 <? valS then
          let a := smoothFilter valS in cv2_sepFilter2D B a a
        else B in
      let B := np_scale_uint8 B in
      let s := np2image2pixmap s B true in
      setWindowTitle s TitleEdge
    else
      let s := set_pixmap s (prevPixmap s) in   (* restore *)
      let s := pixmap2image2np s in
      set_prevPixmap s oldPixmap in
  setMenuItems s.

Definition tryFilter `{Libs} (s : MainWindow) (h : kernel) (valS : Z)
    : MainWindow :=
  let B :=
    if 1 <? kernel_len h then cv2_filter2D (npImage s) h
    else np_astype_float32 (npImage s) in
  let B :=
    if 1 <? valS then
      let a := smoothFilter valS in cv2_sepFilter2D B a a
    else B in
  let B := np_sub_min B in
  let B := np_scale_uint8 B in
  np2image2pixmap s B false.   (* note: self.npImage is not updated *)

Definition filterImage `{Libs} (s : MainWindow) (d : FilterRun) : MainWindow :=
  let B := npImage s in
  let oldPixmap := prevPixmap s in
  let s := set_prevPixmap s (pixmap s) in
  let s := fold_left (fun s v => tryFilter s (fst v) (snd v))
             (filter_previews d) s in
  let (h, valS) := filter_values d in
  let s :=
    if filter_result d then
      let B :=
        if 1 <? kernel_len h then cv2_filter2D B h
        else np_astype_float32 (npImage s) in
      let B :=
        if 1 <? valS then
          let a := smoothFilter valS in cv2_sepFilter2D B a a
        else B in
      let B := np_sub_min B in
      let B := np_scale_uint8 B in
      let s := np2image2pixmap s B true in
      setWindowTitle s TitleFiltered
    else
      let s := set_pixmap s (prevPixmap s) in   (* restore *)
      let s := pixmap2image2np s in
      set_prevPixmap s oldPixmap in
  setMenuItems s.

Definition tryBinary `{Libs} (s : MainWindow) (t : Z) : MainWindow :=
  let B := npImage s in
  let B :=
    if t <? 2 then cv2_threshold B 1 THRESH_OTSU
    else cv2_threshold B t THRESH_BINARY in
  np2image2pixmap s B false.   (* note: self.npImage is not updated *)

Definition toBinary `{Libs} (s : MainWindow) (d : ThresholdRun) : MainWindow :=
  let B := npImage s in
  let oldPixmap := prevPixmap s in
  let s := set_prevPixmap s (pixmap s) in
  let s := fold_left tryBinary (threshold_previews d) s in
  let t := threshold_value d in
  let s :=
    if threshold_result d then
      let B :=
        if t <? 2 then cv2_threshold B 1 THRESH_OTSU
        else cv2_threshold B t THRESH_BINARY in
      let s := np2image2pixmap s B true in
      setWindowTitle s TitleBinary
    else
      let s := set_pixmap s (prevPixmap s) in   (* restore *)
      let s := pixmap2image2np s in
      set_prevPixmap s oldPixmap in
  setMenuItems s.

(** Undo the last edit operation.  [QPixmap.swap] exchanges the contents of
    the two pixmap objects; when both attributes name the same object the
    two values are equal and stay so, as with the exchange of values
    here. *)
Definition undoLast `{Libs} (s : MainWindow) : MainWindow :=
  let (w, h) := (pm_width (prevPixmap s), pm_height (prevPixmap s)) in
  let s :=
    if (0 <? w) && (0 <? h) then
      let s := set_prevPixmap (set_pixmap s (prevPixmap s)) (pixmap s) in
      let s := pixmap2image2np s in
      setWindowTitle s TitlePrevious
    else s in
  setMenuItems s.

(** *** Homework menu *)

(** A block of statements that may raise.  Run on a window it gives the
    window as the block leaves it and the value of the block or the
    exception that ended it: an attribute assigned before the exception
    keeps its new value. *)
Definition block (A : Type) : Type := MainWindow -> MainWindow * result A.

Definition ret {A : Type} (a : A) : block A := fun s => (s, Ok a).

Definition and_then {A B : Type} (m : block A) (k : A -> block B) : block B :=
  fun s =>
    match m s with
    | (s', Ok a) => k a s'
    | (s', Raise e) => (s', Raise e)
    end.

(** An expression that does not assign. *)
Definition eval {A : Type} (r : result A) : block A := fun s => (s, r).

(** [self.x] *)
Definition attr {A : Type} (f : MainWindow -> A) : block A :=
  fun s => (s, Ok (f s)).

(** [self.x = ...] *)
Definition assign (f : MainWindow -> MainWindow) : block unit :=
  fun s => (f s, Ok tt).

Notation "x <~ m ;; k" := (and_then m (fun x => k))
  (at level 61, m at next level, right associativity).

(** [cv2.cvtColor(A, code)] *)
Definition cvtColor `{Libs} (A : ndarray) (code : ColorConversion)
    : result ndarray :=
  match cv2_cvtColor_error A code with
  | Some e => Raise e
  | None => Ok (cv2_cvtColor A code)
  end.

(** [max(l)]: [ValueError] on an empty sequence. *)
Definition py_max (l : list nat) : result nat :=
  match l with
  | [] => Raise ValueError
  | _ => Ok (fold_right Nat.max 0%nat l)
  end.

(** The inner loop of [detectCornersHarris] over one row [y] of the Harris
    response, from column [x] on: a circle for every response above the
    threshold while fewer than 1000 were drawn, [break] otherwise.  A
    circle that raises is reported and not counted. *)
Fixpoint corners_row `{Libs} (y x : Z) (row : list bool)
    (st : ndarray * nat) : ndarray * nat :=
  match row with
  | [] => st
  | above :: rest =>
      if above then
        if (snd st <? 1000)%nat
        then corners_row y (x + 1) rest
               match cv2_circle (fst st) x y with
               | Ok img => (img, S (snd st))
               | Raise _ => st          (* except Exception as e: print *)
               end
        else st
      else corners_row y (x + 1) rest st
  end.

Fixpoint corners_rows `{Libs} (y : Z) (response : list (list bool))
    (st : ndarray * nat) : ndarray * nat :=
  match response with
  | [] => st
  | row :: rest => corners_rows (y + 1) rest (corners_row y 0 row st)
  end.

(** The [try] block of [detectCornersHarris].  ([self.npImage] is an
    array by its type, so the first test never returns.) *)
Definition detect_try `{Libs} : block unit :=
  let max_dim := 1000%nat in
  A <~ attr npImage ;;
  m <~ eval (py_max (firstn 2 (shape A))) ;;
  _ <~ (if (max_dim <? m)%nat then
          B <~ eval (cv2_resize_max A (Z.of_nat max_dim) m) ;;
          _ <~ assign (fun s => set_npImage s B) ;;
          (* the message shows shape[1] and shape[0] *)
          _ <~ eval (shape_at B 1) ;;
          _ <~ eval (shape_at B 0) ;;
          ret tt
        else ret tt) ;;
  A <~ attr npImage ;;
  gray_image <~ eval
    (if (ndim A =? 3)%nat && (nth 2 (shape A) 0 =? 3)%nat
     then cvtColor A COLOR_BGR2GRAY
     else if (ndim A =? 3)%nat && (nth 2 (shape A) 0 =? 4)%nat
          then cvtColor A COLOR_BGRA2GRAY
          else Ok A) ;;
  harris_response <~ eval (cv2_harris gray_image) ;;
  _ <~ (if (ndim A =? 2)%nat then
          B <~ eval (cvtColor A COLOR_GRAY2BGR) ;;
          assign (fun s => set_npImage s B)
        else ret tt) ;;
  above <~ eval (harris_above harris_response) ;;
  (* cv2.circle draws into self.npImage *)
  _ <~ assign (fun s =>
         set_npImage s (fst (corners_rows 0 above (npImage s, 0%nat)))) ;;
  _ <~ assign (fun s => np2image2pixmap s (npImage s) false) ;;
  _ <~ assign (fun s => setWindowTitle s TitleHarris) ;;
  assign setMenuItems.

(** [except Exception as e] only prints: the window stays as the block
    left it. *)
Definition detectCornersHarris `{Libs} (s : MainWindow) : MainWindow :=
  fst (detect_try s).

(** The loop of [drawlines] over the lines found. *)
Fixpoint draw_lines `{Libs} (lines : list ((Z * Z) * (Z * Z)))
    (img_bgr : ndarray) : result ndarray :=
  match lines with
  | [] => Ok img_bgr
  | line :: rest =>
      img_bgr <- cv2_line img_bgr (fst line) (snd line) ;;
      draw_lines rest img_bgr
  end.

(** Nothing is assigned before the last two statements, and no exception
    is handled: an exception leaves the window as it was. *)
Definition drawlines `{Libs} (s : MainWindow) : result MainWindow :=
  let img := npImage s in
  gray <- cvtColor img COLOR_BGR2GRAY ;;
  lines <- hough_segments gray ;;
  img_bgr <- cvtColor gray COLOR_GRAY2BGR ;;
  img_bgr <- draw_lines lines img_bgr ;;
  let s := np2image2pixmap s img_bgr false in
  Ok (setWindowTitle s TitleLines).

(** ** The main window of [appImageViewer2O.py]: camera acquisition

    The calls into the vendor SDK are recorded, oldest first, in [sdk]. *)

Inductive ExposureCmd : Type :=
| IS_EXPOSURE_CMD_GET_EXPOSURE_DEFAULT
| IS_EXPOSURE_CMD_GET_EXPOSURE_RANGE_MIN
| IS_EXPOSURE_CMD_GET_EXPOSURE_RANGE_MAX
| IS_EXPOSURE_CMD_GET_EXPOSURE
| IS_EXPOSURE_CMD_SET_EXPOSURE.

Inductive FocusCmd : Type :=
| FDT_CMD_GET_CAPABILITIES
| FOC_CMD_SET_ENABLE_AUTOFOCUS
| FOC_CMD_GET_AUTOFOCUS_STATUS.

Inductive SdkCall : Type :=
| CamInit                          (* self.cam.init() *)
| CamSetColormode                  (* self.cam.set_colormode(IS_CM_BGR8_PACKED) *)
| CamSetAoi (x y w h : Z)          (* self.cam.set_aoi(x, y, w, h) *)
| CamAlloc (n : Z)                 (* self.cam.alloc(n) *)
| CamFreezeVideo                   (* self.cam.freeze_video(True) *)
| IsWaitForNextImage               (* ueye.is_WaitForNextImage(...) *)
| ImageUnlock                      (* image_data.unlock() *)
| IsSetFrameRate                   (* ueye.is_SetFrameRate(...) *)
| IsExposure (c : ExposureCmd)     (* ueye.is_Exposure(...) *)
| IsFocus (c : FocusCmd)           (* ueye.is_Focus(...) *)
| CamExit.                         (* self.cam.exit() *)

Record CameraMenu : Type := mkCameraMenu {
  qaCameraOn : bool;
  qaCameraInfo : bool;
  qaGetOneImage : bool;
  qaGetOneImageV2 : bool;
  qaCameraOff : bool
}.

Record MainWindow2 : Type := mkMainWindow2 {
  base : MainWindow;                 (* the inherited attributes *)
  cam : bool;                        (* a Camera object is held in self.cam *)
  camOn : bool;
  cameraMenu : CameraMenu;
  sdk : list SdkCall
}.

Definition set_base (s : MainWindow2) (b : MainWindow) : MainWindow2 :=
  mkMainWindow2 b (cam s) (camOn s) (cameraMenu s) (sdk s).

Definition set_cam (s : MainWindow2) (c : bool) : MainWindow2 :=
  mkMainWindow2 (base s) c (camOn s) (cameraMenu s) (sdk s).

Definition set_camOn (s : MainWindow2) (b : bool) : MainWindow2 :=
  mkMainWindow2 (base s) (cam s) b (cameraMenu s) (sdk s).

Definition set_cameraMenu (s : MainWindow2) (m : CameraMenu) : MainWindow2 :=
  mkMainWindow2 (base s) (cam s) (camOn s) m (sdk s).

Definition call (s : MainWindow2) (c : SdkCall) : MainWindow2 :=
  mkMainWindow2 (base s) (cam s) (camOn s) (cameraMenu s) (sdk s ++ [c]).

(** What the camera answers to one capture: whether
    [ueye.is_WaitForNextImage] returned [IS_SUCCESS], and the array
    [image_data.as_1d_image()]. *)
Record CaptureReply : Type := mkCaptureReply {
  retVal_success : bool;
  tempBilde : ndarray
}.

Section Camera.

(** [ueyeOK]: whether the import of the SDK succeeded. *)
Variable ueyeOK : bool.

Context `{Libs}.

Definition setMenuItems2 (s : MainWindow2) : MainWindow2 :=
  let s := set_base s (setMenuItems (base s)) in
  set_cameraMenu s
    (mkCameraMenu (ueyeOK && negb (camOn s)) (ueyeOK && camOn s)
       (ueyeOK && camOn s) (ueyeOK && camOn s) (ueyeOK && camOn s)).

(** The window [__init__] builds when no file name is given. *)
Definition initial2 : MainWindow2 :=
  setMenuItems2
    (mkMainWindow2 (set_npImage initial empty_array) false false
       (mkCameraMenu false false false false false) []).

(** Copy an image from camera memory to [self.npImage].  The second
    component is the exception that left the method, if any. *)
Definition copy_image (s : MainWindow2) (tempBilde : ndarray)
    : MainWindow2 * option exn :=
  match amin (data tempBilde), amax (data tempBilde) with
  | Ok lo, Ok hi =>
      if negb (lo =? hi) then
        (* tempBilde[:,:,[0,1,2]] *)
        if (3 <=? ndim tempBilde)%nat && (3 <=? nth 2 (shape tempBilde) 0)%nat
        then
          let s := set_base s (set_npImage (base s) (chans012 tempBilde)) in
          (call s ImageUnlock, None)
        else (s, Some IndexError)
      else
        let s := set_base s (set_npImage (base s) empty_array) in
        (call s ImageUnlock, None)
  | Raise e, _ => (s, Some e)
  | _, Raise e => (s, Some e)
  end.

Definition cameraOn (s : MainWindow2) : MainWindow2 :=
  if ueyeOK && negb (camOn s) then
    let s := set_cam s true in
    let s := call s CamInit in
    let s := call s CamSetColormode in
    let s := call s (CamSetAoi 0 0 720 1280) in
    let s := call s (CamAlloc 3) in
    let s := set_camOn s true in
    setMenuItems2 s
  else s.

Definition printCameraInfo (s : MainWindow2) : MainWindow2 :=
  if ueyeOK && camOn s then
    let s := call s IsSetFrameRate in
    let s := call s (IsExposure IS_EXPOSURE_CMD_GET_EXPOSURE_DEFAULT) in
    let s := call s (IsExposure IS_EXPOSURE_CMD_GET_EXPOSURE_RANGE_MIN) in
    let s := call s (IsExposure IS_EXPOSURE_CMD_GET_EXPOSURE_RANGE_MAX) in
    let s := call s (IsFocus FDT_CMD_GET_CAPABILITIES) in
    let s := call s (IsFocus FOC_CMD_SET_ENABLE_AUTOFOCUS) in
    let s := call s (IsFocus FOC_CMD_GET_AUTOFOCUS_STATUS) in
    let s := call s (IsExposure IS_EXPOSURE_CMD_GET_EXPOSURE) in
    let s := call s (IsExposure IS_EXPOSURE_CMD_SET_EXPOSURE) in
    call s (IsExposure IS_EXPOSURE_CMD_GET_EXPOSURE)
  else s.

(** The statements of [getOneImage] under its guard; [getOneImageV2] has
    the same statements after its early [return]. *)
Definition capture (s : MainWindow2) (r : CaptureReply)
    : MainWindow2 * option exn :=
  let s := set_base s (set_mouseTracking (base s) false) in
  let s := call s CamFreezeVideo in
  let s := call s IsWaitForNextImage in
  let after :=
    if retVal_success r then
      match copy_image s (tempBilde r) with
      | (s, Some e) => (s, Some e)
      | (s, None) =>
          let b := base s in
          let b :=
            if (0 <? size (npImage b))%nat then
              let b := set_image b (np2qimage (npImage b)) in
              if negb (img_isNull (image b)) then
                let b := set_pixmap b (fromImage (image b)) in
                let b := set_curItem b (pixmap b) in
                let b := setSceneRect b (pm_width (pixmap b))
                           (pm_height (pixmap b)) in
                let b := setWindowTitle b TitleCamera in
                let b := set_status b
                           (StatusSize (pm_width (pixmap b))
                              (pm_height (pixmap b))) in
                let b := scaleOne b in
                set_mouseTracking b true
              else set_pixmap b null_pixmap
            else set_pixmap (set_image b null_image) null_pixmap in
          (set_base s b, None)
      end
    else (set_base s (setWindowTitle (base s) TitleCameraError), None) in
  match after with
  | (s, Some e) => (s, Some e)
  | (s, None) =>
      let s := set_base s (setIsAllGray (base s)) in
      (setMenuItems2 s, None)
  end.

Definition getOneImageV2 (s : MainWindow2) (r : CaptureReply)
    : MainWindow2 * option exn :=
  if negb (ueyeOK && camOn s) then (s, None) else capture s r.

Definition getOneImage (s : MainWindow2) (r : CaptureReply)
    : MainWindow2 * option exn :=
  if ueyeOK && camOn s then capture s r else (s, None).

Definition cameraOff (s : MainWindow2) : MainWindow2 :=
  if ueyeOK && camOn s then
    let s := call s CamExit in
    let s := set_camOn s false in
    setMenuItems2 s
  else s.

(** The actions of the Camera menu and a session of them; an exception
    that leaves a slot ends the session. *)
Inductive CameraAction : Type :=
| DoCameraOn
| DoPrintCameraInfo
| DoGetOneImage (r : CaptureReply)
| DoGetOneImageV2 (r : CaptureReply)
| DoCameraOff.

Definition step (s : MainWindow2) (a : CameraAction)
    : MainWindow2 * option exn :=
  match a with
  | DoCameraOn => (cameraOn s, None)
  | DoPrintCameraInfo => (printCameraInfo s, None)
  | DoGetOneImage r => getOneImage s r
  | DoGetOneImageV2 r => getOneImageV2 s r
  | DoCameraOff => (cameraOff s, None)
  end.

Fixpoint run (s : MainWindow2) (actions : list CameraAction)
    : MainWindow2 * option exn :=
  match actions with
  | [] => (s, None)
  | a :: rest =>
      match step s a with
      | (s', None) => run s' rest
      | (s', Some e) => (s', Some e)
      end
  end.

End Camera.

(** A record of SDK calls is sound when the camera is initialised only
    while off, and every other call (capture, settings, exit) happens while
    it is on.  [on] is the state of the camera before the calls. *)
Fixpoint sdk_sound (on : bool) (calls : list SdkCall) : bool :=
  match calls with
  | [] => true
  | CamInit :: rest => negb on && sdk_sound true rest
  | CamExit :: rest => on && sdk_sound false rest
  | _ :: rest => on && sdk_sound on rest
  end.

(** Whether the camera is on after the calls. *)
Fixpoint sdk_on (on : bool) (calls : list SdkCall) : bool :=
  match calls with
  | [] => on
  | CamInit :: rest => sdk_on true rest
  | CamExit :: rest => sdk_on false rest
  | _ :: rest => sdk_on on rest
  end.

(** Calls that neither switch the camera on nor off. *)
Definition plain (c : SdkCall) : bool :=
  match c with
  | CamInit | CamExit => false
  | _ => true
  end.

(** The record of SDK calls is sound and agrees with [camOn]. *)
Definition camera_inv (s : MainWindow2) : Prop :=
  sdk_sound false (sdk s) = true /\ sdk_on false (sdk s) = camOn s.

(** ** A reference instance of the libraries

    Used to run the viewer on concrete images.  The conversions between
    arrays and images and the colour conversions follow the libraries (a
    2-D array is a gray image, a 3-D array holds B, G, R and possibly A;
    OpenCV's gray value is [(1868 B + 9617 G + 4899 R + 8192) >> 14],
    Otsu's threshold is computed in exact arithmetic); OpenCV raises
    [cv2.error] for an image without elements or with a number of
    channels the function does not take.  The filters are simple
    stand-ins: the Harris response is that of a flat image (0 everywhere)
    and no line is found. *)

Module Reference.

(** The elements of pixel [(r, c)]. *)
Definition px (A : ndarray) (r c : nat) : list Z :=
  map (fun k => at3 A r c k) (seq 0 (depth A)).

Definition pixels (A : ndarray) : list (list Z) :=
  flat_map (fun r => map (fun c => px A r c) (seq 0 (cols A)))
    (seq 0 (rows A)).

Definition rgb_of_pixel (p : list Z) : QRgb :=
  match p with
  | [v] => qRgba v v v 255
  | [b; g; r] => qRgba r g b 255
  | [b; g; r; a] => qRgba r g b a
  | _ => 0
  end.

(** Modelled from the spec: [np2qimage] of [files.myImageTools], which is
    not among the sources; "the fixed pixmap/QImage/numpy conversion".  A
    2-D array becomes a gray image, a 3-D array with 3 or 4 channels a
    colour image, anything else the null image. *)
Definition ref_np2qimage (A : ndarray) : QImage :=
  if (2 <=? ndim A)%nat && (ndim A <=? 3)%nat
     && (0 <? rows A)%nat && (0 <? cols A)%nat
     && ((depth A =? 1)%nat || (depth A =? 3)%nat || (depth A =? 4)%nat)
  then mkImage (Z.of_nat (cols A)) (Z.of_nat (rows A))
         (map rgb_of_pixel (pixels A))
  else null_image.

(** Modelled from the spec: [qimage2np] of [files.myImageTools], which is
    not among the sources; the array of the B, G, R, A values of the
    pixels. *)
Definition ref_qimage2np (i : QImage) : ndarray :=
  mkArr [Z.to_nat (img_height i); Z.to_nat (img_width i); 4%nat]
    (flat_map (fun v => [qBlue v; qGreen v; qRed v; qAlpha v]) (img_data i)).

Definition gray_of_pixel (p : list Z) : Z :=
  match p with
  | b :: g :: r :: _ => Z.shiftr (1868 * b + 9617 * g + 4899 * r + 8192) 14
  | _ => 0
  end.

Definition ref_cvtColor (A : ndarray) (code : ColorConversion) : ndarray :=
  match code with
  | COLOR_BGR2GRAY | COLOR_BGRA2GRAY =>
      mkArr [rows A; cols A] (map gray_of_pixel (pixels A))
  | COLOR_GRAY2BGR =>
      mkArr [rows A; cols A; 3%nat]
        (flat_map (fun p => let v := nth 0 p 0 in [v; v; v]) (pixels A))
  | COLOR_BGR2RGBA =>
      mkArr [rows A; cols A; 4%nat]
        (flat_map (fun p => [nth 2 p 0; nth 1 p 0; nth 0 p 0; 255])
           (pixels A))
  end.

(** Whether the array is an image with elements whose number of channels
    is among [wanted]: a 2-D array has one channel, a 3-D array as many as
    its last axis is long.  (The viewer holds no other array with
    elements; none is taken here.) *)
Definition has_channels (A : ndarray) (wanted : list nat) : bool :=
  (0 <? size A)%nat
  && (((ndim A =? 2)%nat && existsb (Nat.eqb 1) wanted)
      || ((ndim A =? 3)%nat && existsb (Nat.eqb (nth 2 (shape A) 0%nat)) wanted)).

Definition ref_cvtColor_error (A : ndarray) (code : ColorConversion)
    : option exn :=
  let wanted :=
    match code with
    | COLOR_GRAY2BGR => [1%nat]
    | _ => [3%nat; 4%nat]
    end in
  if has_channels A wanted then None else Some Cv2Error.

(** Otsu's threshold of 8-bit values.  With [n1] and [s1] the number and
    the sum of the values up to level [i], and [n] and [total] those of
    all values, the variance between the two classes is
    [(n * s1 - n1 * total)^2 / (n^2 * n1 * (n - n1))]; the threshold is the
    first level at which it is largest, 0 if no level splits the
    values. *)
Definition otsu (vals : list Z) : Z :=
  let n := Z.of_nat (length vals) in
  let total := fold_right Z.add 0 vals in
  let step (acc : Z * Z * (Z * Z) * Z) (i : Z) : Z * Z * (Z * Z) * Z :=
    let '(n1, s1, (num, den), best) := acc in
    let h := Z.of_nat (count_occ Z.eq_dec vals i) in
    let n1 := n1 + h in
    let s1 := s1 + i * h in
    if (n1 =? 0) || (n1 =? n) then (n1, s1, (num, den), best)
    else
      let num' := (n * s1 - n1 * total) * (n * s1 - n1 * total) in
      let den' := n1 * (n - n1) in
      if num * den' <? num' * den then (n1, s1, (num', den'), i)
      else (n1, s1, (num, den), best) in
  snd (fold_left step (map Z.of_nat (seq 0 256)) (0, 0, (0, 1), 0)).

Definition ref_threshold (A : ndarray) (t : Z) (ty : ThresholdType)
    : ndarray :=
  let t := match ty with THRESH_BINARY => t | THRESH_OTSU => otsu (data A) end in
  mkArr (shape A) (map (fun v => if t <? v then 255 else 0) (data A)).

(** [THRESH_OTSU] takes a single-channel image only. *)
Definition ref_threshold_error (A : ndarray) (t : Z) (ty : ThresholdType)
    : option exn :=
  match ty with
  | THRESH_BINARY => if (0 <? size A)%nat then None else Some Cv2Error
  | THRESH_OTSU => if has_channels A [1%nat] then None else Some Cv2Error
  end.

(** Nearest-neighbour resampling to [w] x [h]. *)
Definition ref_resize (A : ndarray) (w h : Z) : ndarray :=
  let (nw, nh) := (Z.to_nat w, Z.to_nat h) in
  mkArr (nh :: nw :: skipn 2 (shape A))
    (flat_map
       (fun r => flat_map
                   (fun c => px A (r * rows A / nh) (c * cols A / nw))
                   (seq 0 nw))
       (seq 0 nh)).

Definition ref_resize_error (A : ndarray) (w h : Z) : option exn :=
  if (0 <? size A)%nat && (0 <? w) && (0 <? h) then None else Some Cv2Error.

Definition ref_resize_max (A : ndarray) (max_dim : Z) (m : nat)
    : result ndarray :=
  let w := Z.of_nat (cols A) * max_dim / Z.of_nat m in
  let h := Z.of_nat (rows A) * max_dim / Z.of_nat m in
  match ref_resize_error A w h with
  | Some e => Raise e
  | None => Ok (ref_resize A w h)
  end.

(** Paint pixel [(x, y)] with the colour [(0, 0, 255)]. *)
Definition ref_dot (A : ndarray) (x y : Z) : ndarray :=
  mkArr (shape A)
    (flat_map
       (fun r => flat_map
                   (fun c =>
                      if (Z.of_nat r =? y) && (Z.of_nat c =? x)
                      then firstn (depth A) [0; 0; 255; 0] else px A r c)
                   (seq 0 (cols A)))
       (seq 0 (rows A))).

(** The Harris response of a flat image of the size of [A]. *)
Definition ref_harris (A : ndarray) : result ndarray :=
  if has_channels A [1%nat]
  then Ok (mkArr [rows A; cols A] (repeat 0 (rows A * cols A)))
  else Raise Cv2Error.

(** [R[y, x] > 0.01 * R.max()], that is [100 * R[y, x] > R.max()]. *)
Definition ref_harris_above (R : ndarray) : result (list (list bool)) :=
  top <- amax (data R) ;;
  Ok (map (fun y => map (fun x => top <? 100 * at3 R y x 0) (seq 0 (cols R)))
        (seq 0 (rows R))).

#[export] Instance RefLibs : Libs := {|
  farray := ndarray;
  kernel := list Z;
  np2qimage := ref_np2qimage;
  qimage2np := ref_qimage2np;
  smoothFilter := fun len => repeat 1 (Z.to_nat len);
  kernel_len := fun h => Z.of_nat (length h);
  cv2_cvtColor := ref_cvtColor;
  cv2_Sobel := fun B _ _ _ => B;
  cv2_sepFilter2D := fun B _ _ => B;
  cv2_filter2D := fun B _ => B;
  cv2_threshold := ref_threshold;
  cv2_resize := ref_resize;
  cv2_cvtColor_error := ref_cvtColor_error;
  cv2_threshold_error := ref_threshold_error;
  cv2_resize_error := ref_resize_error;
  edges_error :=
    fun A _ _ => if (0 <? size A)%nat then None else Some Cv2Error;
  filter_error :=
    fun A h _ =>
      if (0 <? size A)%nat then None
      else Some (if (1 <? length h)%nat then Cv2Error else ValueError);
  cv2_resize_max := ref_resize_max;
  cv2_circle := fun A x y => Ok (ref_dot A x y);
  cv2_line := fun A p _ => Ok (ref_dot A (fst p) (snd p));
  cv2_harris := ref_harris;
  harris_above := ref_harris_above;
  hough_segments := fun _ => Ok [];
  np_magnitude := fun Eh _ => Eh;
  np_scale_uint8 := fun B => B;
  np_astype_float32 := fun B => B;
  np_sub_min := fun B => B
|}.

(** A 2 x 2 colour picture (blue, green / red, white) as a pixmap. *)
Definition colour_pixmap : QPixmap :=
  mkPixmap 2 2
    [qRgba 0 0 255 255; qRgba 0 255 0 255;
     qRgba 255 0 0 255; qRgba 255 255 255 255].

(** The window after the file with that picture was opened. *)
Definition opened (p : QPixmap) : MainWindow :=
  setMenuItems
    (pixmap2image2np (setWindowTitle (set_pixmap initial p) TitleFile)).

(** An 8 x 8 gray ramp. *)
Definition ramp_pixmap : QPixmap :=
  mkPixmap 8 8
    (map (fun n => let v := Z.of_nat n in qRgba v v v 255) (seq 0 64)).

(** A gray picture, 2 wide and 4 high, whose first row is black. *)
Definition framed_pixmap : QPixmap :=
  mkPixmap 2 4
    (map (fun v => qRgba v v v 255) [0; 0; 200; 200; 200; 200; 200; 200]).

(** The window after the colour picture was opened and turned to gray. *)
Definition grayed : MainWindow :=
  match toGray (opened colour_pixmap) with
  | Ok s => s
  | Raise _ => initial
  end.

(** The window after the colour picture was opened and "Lines" was
    chosen. *)
Definition lined : MainWindow :=
  match drawlines (opened colour_pixmap) with
  | Ok s => s
  | Raise _ => initial
  end.

End Reference.

(** ** What the properties are stated with *)

Section Specification.

Context `{Libs}.

(** The array [pixmap2image2np] derives from an image: [qimage2np], of
    which only the first channel is kept for a gray image. *)
Definition array_of (i : QImage) : ndarray :=
  let A := qimage2np i in
  if (negb (img_isNull i) && allGray i) && (ndim A =? 3)%nat
  then chan0 A else A.

(** The three representations have the same width and height. *)
Definition same_size (s : MainWindow) : Prop :=
  img_width (image s) = pm_width (pixmap s)
  /\ img_height (image s) = pm_height (pixmap s)
  /\ Z.of_nat (cols (npImage s)) = pm_width (pixmap s)
  /\ Z.of_nat (rows (npImage s)) = pm_height (pixmap s).

(** The three representations have the same content, up to the conversions
    between them: the pixmap is the image, and the image is the array (as
    [np2qimage] shows it) or the array is the image (as [pixmap2image2np]
    reads it). *)
Definition same_content (s : MainWindow) : Prop :=
  pixmap s = fromImage (image s)
  /\ (image s = np2qimage (npImage s) \/ npImage s = array_of (image s)).

Definition in_sync (s : MainWindow) : Prop :=
  same_size s /\ same_content s.

(** The state [pixmap2image2np] leaves the representations in. *)
Definition read_from_pixmap (s : MainWindow) : Prop :=
  image s = toImage (pixmap s) /\ npImage s = array_of (image s).

(** What is assumed of [files.myImageTools]: an image has the width and
    height of the array it was made from, and an array those of the
    image. *)
Definition conversions_keep_size : Prop :=
  (forall B, img_isNull (np2qimage B) = false ->
     img_width (np2qimage B) = Z.of_nat (cols B)
     /\ img_height (np2qimage B) = Z.of_nat (rows B))
  /\ (forall i, img_isNull i = false ->
        Z.of_nat (cols (qimage2np i)) = img_width i
        /\ Z.of_nat (rows (qimage2np i)) = img_height i).

(** The attributes a preview must not touch. *)
Definition preview_frame (s s' : MainWindow) : Prop :=
  npImage s' = npImage s
  /\ prevPixmap s' = prevPixmap s
  /\ cropActive s' = cropActive s
  /\ viewTransform s' = viewTransform s
  /\ rubberBandActive s' = rubberBandActive s
  /\ mouseTracking s' = mouseTracking s
  /\ status s' = status s
  /\ windowTitle s' = windowTitle s.

(** The four attributes that hold images. *)
Definition same_images (s s' : MainWindow) : Prop :=
  pixmap s' = pixmap s
  /\ image s' = image s
  /\ npImage s' = npImage s
  /\ prevPixmap s' = prevPixmap s.

(** The arrays the edit operations compute. *)
Definition gray_array (A : ndarray) : ndarray :=
  if (nth 2 (shape A) 0 =? 4)%nat
  then cv2_cvtColor A COLOR_BGRA2GRAY
  else cv2_cvtColor A COLOR_BGR2GRAY.

Definition edge_array (A : ndarray) (valK valS : Z) : ndarray :=
  let B := np_magnitude (cv2_Sobel A 0 1 valK) (cv2_Sobel A 1 0 valK) in
  np_scale_uint8
    (if 1 <? valS
     then cv2_sepFilter2D B (smoothFilter valS) (smoothFilter valS)
     else B).

Definition filtered_array (A : ndarray) (h : kernel) (valS : Z) : ndarray :=
  let B := if 1 <? kernel_len h then cv2_filter2D A h
           else np_astype_float32 A in
  np_scale_uint8
    (np_sub_min
       (if 1 <? valS
        then cv2_sepFilter2D B (smoothFilter valS) (smoothFilter valS)
        else B)).

Definition binary_array (A : ndarray) (t : Z) : ndarray :=
  if t <? 2 then cv2_threshold A 1 THRESH_OTSU
  else cv2_threshold A t THRESH_BINARY.

Definition lines_array (A : ndarray) : result ndarray :=
  gray <- cvtColor A COLOR_BGR2GRAY ;;
  lines <- hough_segments gray ;;
  img_bgr <- cvtColor gray COLOR_GRAY2BGR ;;
  draw_lines lines img_bgr.

(** What an edit leaves in the four image attributes when it commits the
    array [B]: image and array are [B], the pixmap is made from the image
    when the image is valid, and the undo slot holds the pixmap [p] that
    was current before. *)
Definition committed (B : ndarray) (p : QPixmap) (s' : MainWindow) : Prop :=
  image s' = np2qimage B
  /\ (img_isNull (np2qimage B) = false -> pixmap s' = fromImage (np2qimage B))
  /\ npImage s' = B
  /\ prevPixmap s' = p.

(** What a cancelled dialog leaves: pixmap and undo slot as before the
    call, image and array read again from the pixmap. *)
Definition restored (s s' : MainWindow) : Prop :=
  pixmap s' = pixmap s
  /\ prevPixmap s' = prevPixmap s
  /\ image s' = toImage (pixmap s)
  /\ npImage s' = array_of (toImage (pixmap s))
  /\ cropActive s' = cropActive s.

End Specification.

(** ** File menu, mouse and menu actions of [appImageViewer1O.py] *)

(** [self.curItem = None] *)
Definition clear_curItem (s : MainWindow) : MainWindow :=
  mkMainWindow (pixmap s) (prevPixmap s) (image s) (isAllGray s) (npImage s)
    (cropActive s) None (sceneRect s) (viewTransform s)
    (rubberBandActive s) (mouseTracking s) (status s) (windowTitle s) (menu s).

(** Removes the current pixmap item from the scene if it exists.  The
    assignment [self.prevPixmap = self.pixmap] makes both attributes name
    one [QPixmap] object. *)
Definition removePixmapItem (s : MainWindow) : MainWindow :=
  let s :=
    match curItem s with
    | Some _ => clear_curItem (set_prevPixmap s (pixmap s))
    | None => s
    end in
  let s := setWindowTitle s TitleApp in
  let s := set_status s StatusNoPixmap in
  setMenuItems s.

(** The window after [openFile], and whether its title is the error
    message ["MainWindow.openFile: error for file ..."]. *)
Record Opened : Type := mkOpened {
  opened_window : MainWindow;
  open_error : bool
}.

(** [openFile(fName)].  [loaded] is the pixmap the file holds (a null
    pixmap when it cannot be read).  [QPixmap.load] fills the pixmap
    object in place, so it also changes [prevPixmap] when that attribute
    names the same object: [same_object] says whether it does when the
    method is entered, and [removePixmapItem] makes it so when an item is
    on the scene. *)
Definition openFile `{Libs} (s : MainWindow) (same_object : bool)
    (fName : String.string) (loaded : QPixmap) : Opened :=
  if String.eqb fName String.EmptyString then mkOpened (setMenuItems s) false
  else
    let same_object :=
      match curItem s with Some _ => true | None => same_object end in
    let s := removePixmapItem s in
    (* self.pixmap.load(fName) *)
    let s := set_pixmap s loaded in
    let s := if same_object then set_prevPixmap s loaded else s in
    if pm_isNull (pixmap s) then mkOpened (setMenuItems s) true
    else
      let s := setWindowTitle s TitleFile in
      let s := pixmap2image2np s in
      mkOpened (setMenuItems s) false.

(** [MyGraphicsView.mouseReleaseEvent]: with the rubber band active, a
    release of the left button hides the band, clears [rubberBandActive]
    and emits the normalized rectangle of the drag, in scene coordinates,
    to [cropEnd].  [rectangle] is that rectangle. *)
Definition mouseReleaseEvent `{Libs} (s : MainWindow) (leftButton : bool)
    (rectangle : QRect) : result MainWindow :=
  if leftButton && rubberBandActive s
  then cropEnd (set_rubberBandActive s false) rectangle
  else Ok s.

(** The actions a user can trigger, with what the environment answers
    (the file content, the dialog run, the dragged rectangle). *)
Inductive Action `{Libs} : Type :=
| ActOpenFile (same_object : bool) (fName : String.string) (loaded : QPixmap)
| ActClearImage
| ActScaleOne
| ActScaleUp
| ActScaleDown
| ActCropStart
| ActMouseRelease (leftButton : bool) (rectangle : QRect)
| ActResize (d : ResizeRun)
| ActToGray
| ActToEdges (d : EdgeRun)
| ActFilter (d : FilterRun)
| ActToBinary (d : ThresholdRun)
| ActUndoLast
| ActDetectCorners
| ActLines.

(** Whether the menu item of an action is enabled.  [setMenuItems] handles
    the items below; 'Open file', 'Resize image' and the Homework menu are
    never disabled, and the mouse is no menu item. *)
Definition enabled `{Libs} (s : MainWindow) (a : Action) : bool :=
  match a with
  | ActClearImage => qaClearImage (menu s)
  | ActScaleOne => qaScaleOne (menu s)
  | ActScaleUp => qaScaleUp (menu s)
  | ActScaleDown => qaScaleDown (menu s)
  | ActCropStart => qaCrop (menu s)
  | ActToGray => qaToGray (menu s)
  | ActToEdges _ => qaToEdges (menu s)
  | ActFilter _ => qaFilter (menu s)
  | ActToBinary _ => qaToBinary (menu s)
  | ActUndoLast => qaUndoLast (menu s)
  | ActOpenFile _ _ _ | ActMouseRelease _ _ | ActResize _
  | ActDetectCorners | ActLines => true
  end.

Fixpoint first_error (l : list (option exn)) : option exn :=
  match l with
  | [] => None
  | Some e :: _ => Some e
  | None :: rest => first_error rest
  end.

(** The exception of the first library call of an Edit-menu method that
    raises, if one does.  The previews run in the dialog and work, like
    the call after an accepted dialog, on the array the method found in
    [self.npImage]. *)
Definition library_error `{Libs} (s : MainWindow) (a : Action)
    : option exn :=
  let B := npImage s in
  match a with
  | ActResize d =>
      if resize_result d
      then cv2_resize_error B (fst (resize_values d)) (snd (resize_values d))
      else None
  | ActToGray =>
      if is_color B then
        if (nth 2 (shape B) 0 =? 4)%nat
        then cv2_cvtColor_error B COLOR_BGRA2GRAY
        else if (nth 2 (shape B) 0 =? 3)%nat
             then cv2_cvtColor_error B COLOR_BGR2GRAY
             else None
      else None
  | ActToEdges d =>
      first_error
        (map (fun v => edges_error B (fst v) (snd v))
           (edge_previews d
            ++ (if edge_result d then [edge_values d] else [])))
  | ActFilter d =>
      first_error
        (map (fun v => filter_error B (fst v) (snd v))
           (filter_previews d
            ++ (if filter_result d then [filter_values d] else [])))
  | ActToBinary d =>
      first_error
        (map (fun t => if t <? 2 then cv2_threshold_error B 1 THRESH_OTSU
                       else cv2_threshold_error B t THRESH_BINARY)
           (threshold_previews d
            ++ (if threshold_result d then [threshold_value d] else [])))
  | _ => None
  end.

(** One action of the user.  Nothing happens when its menu item is
    disabled; an exception of a library call ends the method. *)
Definition perform `{Libs} (s : MainWindow) (a : Action)
    : result MainWindow :=
  if negb (enabled s a) then Ok s
  else
    match library_error s a with
    | Some e => Raise e
    | None =>
        match a with
        | ActOpenFile same_object fName loaded =>
            Ok (opened_window (openFile s same_object fName loaded))
        | ActClearImage => Ok (removePixmapItem s)
        | ActScaleOne => Ok (scaleOne s)
        | ActScaleUp => Ok (scaleUp s)
        | ActScaleDown => Ok (scaleDown s)
        | ActCropStart => Ok (cropStart s)
        | ActMouseRelease leftButton rectangle =>
            mouseReleaseEvent s leftButton rectangle
        | ActResize d => Ok (resizeImage s d)
        | ActToGray => toGray s
        | ActToEdges d => Ok (toEdges s d)
        | ActFilter d => Ok (filterImage s d)
        | ActToBinary d => Ok (toBinary s d)
        | ActUndoLast => Ok (undoLast s)
        | ActDetectCorners => Ok (detectCornersHarris s)
        | ActLines => drawlines s
        end
    end.

(** A session: the actions one after the other, until one raises. *)
Fixpoint session `{Libs} (s : MainWindow) (actions : list Action)
    : result MainWindow :=
  match actions with
  | [] => Ok s
  | a :: rest => s' <- perform s a ;; session s' rest
  end.

(** What the mouse read-out and the menus rely on: a valid image is as
    large as the pixmap unless the pixmap is null, [isAllGray] and the
    menu are up to date, and the rubber band is active exactly while a
    crop is. *)
Definition image_fits (s : MainWindow) : Prop :=
  img_isNull (image s) = false ->
  pm_isNull (pixmap s) = true
  \/ (img_width (image s) = pm_width (pixmap s)
      /\ img_height (image s) = pm_height (pixmap s)).

Definition gray_current (s : MainWindow) : Prop :=
  isAllGray s = negb (img_isNull (image s)) && allGray (image s).

Definition menu_current (s : MainWindow) : Prop :=
  menu s = menu (setMenuItems s).

Definition window_ok (s : MainWindow) : Prop :=
  image_fits s /\ gray_current s /\ menu_current s
  /\ rubberBandActive s = cropActive s.

(** Whether column [c] (row [r]) counts as not black in the special case
    of [cropEnd]: the first three channels are looked at for a colour
    array, all elements otherwise. *)
Definition bright_column (A : ndarray) (c : nat) : result bool :=
  if is_color A then bright_color (column_chan A c)
  else bright_gray (column_all A c).

Definition bright_row (A : ndarray) (r : nat) : result bool :=
  if is_color A then bright_color (row_chan A r)
  else bright_gray (row_all A r).

(** [n] is the length of the run of black entries at the start of
    [idxs]: the run is black, and it ends at a bright entry or at the end
    of [idxs]. *)
Definition black_run (bright : nat -> result bool) (idxs : list nat)
    (n : nat) : Prop :=
  (n <= length idxs)%nat
  /\ (forall i, (i < n)%nat -> bright (nth i idxs 0%nat) = Ok false)
  /\ ((n < length idxs)%nat -> bright (nth n idxs 0%nat) = Ok true).

(** ** The Dice menu of [appImageViewer2O.py] *)

(** [range(0, n, step)] *)
Definition range_step (n step : nat) : list nat :=
  map (fun q => (q * step)%nat) (seq 0 ((n + step - 1) / step)).

(** [A[r0:r1, c0:c1] = v], in place: every element in the rows
    [r0 .. r1-1] and the columns [c0 .. c1-1], whatever its further
    indices.  Element [idx] of the row-major data lies in row
    [idx / (columns * depth)] and in column [(idx / depth) mod columns]. *)
Definition assign_block (A : ndarray) (r0 r1 c0 c1 : nat) (v : Z)
    : ndarray :=
  mkArr (shape A)
    (map (fun e : nat * Z =>
            let idx := fst e in
            let r := (idx / (cols A * depth A))%nat in
            let c := ((idx / depth A) mod cols A)%nat in
            if (r0 <=? r)%nat && (r <? r1)%nat
               && (c0 <=? c)%nat && (c <? c1)%nat
            then v else snd e)
       (combine (seq 0 (length (data A))) (data A))).

(** The array part of [blackDots]: under the guard [npImage.size > 0],
    [for i in range(0, w, 10): for j in range(0, h, 10):
     npImage[j:j+3, i:i+3] = 0] with [(w, h)] the second and the first
    entry of the shape. *)
Definition blackDots_array (A : ndarray) : result ndarray :=
  if (0 <? size A)%nat then
    w <- shape_at A 1 ;;
    h <- shape_at A 0 ;;
    Ok (fold_left
          (fun A i =>
             fold_left (fun A j => assign_block A j (j + 3) i (i + 3) 0)
               (range_step h 10) A)
          (range_step w 10) A)
  else Ok A.

(** Whether some start of [starts] has [x] among its three positions. *)
Definition dotted (starts : list nat) (x : nat) : bool :=
  existsb (fun i => (i <=? x)%nat && (x <? i + 3)%nat) starts.

(** ** The conversions between the representations *)

(** Case analysis on the innermost tests of the goal. *)
Ltac break_if :=
  match goal with
  | |- context [if ?c then _ else _] =>
      lazymatch c with
      | context [if _ then _ else _] => fail
      | _ => destruct c eqn:?
      end
  end.

Ltac by_cases :=
  repeat (cbn in *; unfold pm_isNull, img_isNull in *; cbn in *; break_if);
  cbn in *; try discriminate; try congruence.

Section Conversions.

Context `{L : Libs}.

Lemma setMenuItems_images (s : MainWindow) :
  pixmap (setMenuItems s) = pixmap s
  /\ prevPixmap (setMenuItems s) = prevPixmap s
  /\ image (setMenuItems s) = image s
  /\ npImage (setMenuItems s) = npImage s
  /\ cropActive (setMenuItems s) = cropActive s
  /\ isAllGray (setMenuItems s) = isAllGray s.
Proof. repeat split. Qed.

Lemma np2image2pixmap_image (s : MainWindow) (B : ndarray) (also : bool) :
  image (np2image2pixmap s B also) = np2qimage B.
Proof. unfold np2image2pixmap; by_cases; reflexivity. Qed.

Lemma np2image2pixmap_pixmap (s : MainWindow) (B : ndarray) (also : bool) :
  pixmap (np2image2pixmap s B also)
  = if img_isNull (np2qimage B) then pixmap s else fromImage (np2qimage B).
Proof. unfold np2image2pixmap; by_cases; reflexivity. Qed.

Lemma np2image2pixmap_npImage (s : MainWindow) (B : ndarray) (also : bool) :
  npImage (np2image2pixmap s B also) = if also then B else npImage s.
Proof. unfold np2image2pixmap; by_cases; reflexivity. Qed.

Lemma np2image2pixmap_prevPixmap (s : MainWindow) (B : ndarray) (also : bool) :
  prevPixmap (np2image2pixmap s B also) = prevPixmap s.
Proof. unfold np2image2pixmap; by_cases; reflexivity. Qed.

Lemma np2image2pixmap_frame (s : MainWindow) (B : ndarray) :
  preview_frame s (np2image2pixmap s B false).
Proof. unfold preview_frame, np2image2pixmap; by_cases; repeat split. Qed.

Lemma pixmap2image2np_pixmap (s : MainWindow) :
  pixmap (pixmap2image2np s) = pixmap s
  /\ prevPixmap (pixmap2image2np s) = prevPixmap s
  /\ cropActive (pixmap2image2np s) = cropActive s.
Proof. unfold pixmap2image2np, scaleOne; by_cases; repeat split. Qed.

Lemma pixmap2image2np_image (s : MainWindow) :
  image (pixmap2image2np s) = toImage (pixmap s).
Proof. unfold pixmap2image2np, scaleOne; by_cases; reflexivity. Qed.

Lemma pixmap2image2np_npImage (s : MainWindow) :
  npImage (pixmap2image2np s) = array_of (toImage (pixmap s)).
Proof.
  unfold pixmap2image2np, scaleOne, array_of; by_cases;
    try reflexivity; congruence.
Qed.

(** All that the edit operations need of the two conversions. *)
Lemma pixmap2image2np_spec (s : MainWindow) :
  pixmap (pixmap2image2np s) = pixmap s
  /\ prevPixmap (pixmap2image2np s) = prevPixmap s
  /\ cropActive (pixmap2image2np s) = cropActive s
  /\ image (pixmap2image2np s) = toImage (pixmap s)
  /\ npImage (pixmap2image2np s) = array_of (toImage (pixmap s)).
Proof.
  destruct (pixmap2image2np_pixmap s) as (H1 & H2 & H3).
  repeat split; auto using pixmap2image2np_image, pixmap2image2np_npImage.
Qed.

Lemma np2image2pixmap_cropActive (s : MainWindow) (B : ndarray)
    (also : bool) :
  cropActive (np2image2pixmap s B also) = cropActive s.
Proof. unfold np2image2pixmap; by_cases; reflexivity. Qed.

Lemma np2image2pixmap_spec (s : MainWindow) (B : ndarray) (also : bool) :
  image (np2image2pixmap s B also) = np2qimage B
  /\ pixmap (np2image2pixmap s B also)
     = (if img_isNull (np2qimage B) then pixmap s
        else fromImage (np2qimage B))
  /\ npImage (np2image2pixmap s B also) = (if also then B else npImage s)
  /\ prevPixmap (np2image2pixmap s B also) = prevPixmap s
  /\ cropActive (np2image2pixmap s B also) = cropActive s.
Proof.
  repeat split;
    auto using np2image2pixmap_image, np2image2pixmap_pixmap,
      np2image2pixmap_npImage, np2image2pixmap_prevPixmap,
      np2image2pixmap_cropActive.
Qed.

End Conversions.

(** Replace the result of a conversion by a variable that carries what is
    known of it. *)
Ltac name_conversions :=
  repeat match goal with
    | |- context [pixmap2image2np ?x] =>
        let P := fresh "P" in
        let HP := fresh "HP" in
        pose proof (pixmap2image2np_spec x) as HP;
        set (P := pixmap2image2np x) in *; clearbody P
    | |- context [np2image2pixmap ?x ?B ?b] =>
        let P := fresh "P" in
        let HP := fresh "HP" in
        pose proof (np2image2pixmap_spec x B b) as HP;
        set (P := np2image2pixmap x B b) in *; clearbody P
    end.

(** ** Previews *)

Section Previews.

Context `{L : Libs}.

Lemma tryEdges_frame (s : MainWindow) (valK valS : Z) :
  preview_frame s (tryEdges s valK valS).
Proof. apply np2image2pixmap_frame. Qed.

Lemma tryFilter_frame (s : MainWindow) (h : kernel) (valS : Z) :
  preview_frame s (tryFilter s h valS).
Proof. apply np2image2pixmap_frame. Qed.

Lemma tryBinary_frame (s : MainWindow) (t : Z) :
  preview_frame s (tryBinary s t).
Proof. apply np2image2pixmap_frame. Qed.

Lemma preview_frame_refl (s : MainWindow) : preview_frame s s.
Proof. repeat split. Qed.

Lemma preview_frame_trans (s1 s2 s3 : MainWindow) :
  preview_frame s1 s2 -> preview_frame s2 s3 -> preview_frame s1 s3.
Proof. unfold preview_frame; intuition congruence. Qed.

(** Any number of previews leaves the frame alone. *)
Lemma previews_frame {A : Type} (f : MainWindow -> A -> MainWindow) :
  (forall s a, preview_frame s (f s a)) ->
  forall l s, preview_frame s (fold_left f l s).
Proof.
  intros Hf l; induction l as [| a l IH]; intros s; cbn.
  - apply preview_frame_refl.
  - eapply preview_frame_trans; [ apply Hf | apply IH ].
Qed.

Lemma tryEdges_shows (s : MainWindow) (valK valS : Z) :
  tryEdges s valK valS
  = np2image2pixmap s (edge_array (npImage s) valK valS) false.
Proof.
  unfold tryEdges, edge_array. destruct (1 <? valS); reflexivity.
Qed.

Lemma tryFilter_shows (s : MainWindow) (h : kernel) (valS : Z) :
  tryFilter s h valS
  = np2image2pixmap s (filtered_array (npImage s) h valS) false.
Proof.
  unfold tryFilter, filtered_array.
  destruct (1 <? kernel_len h); destruct (1 <? valS); reflexivity.
Qed.

Lemma tryBinary_shows (s : MainWindow) (t : Z) :
  tryBinary s t = np2image2pixmap s (binary_array (npImage s) t) false.
Proof. unfold tryBinary, binary_array. destruct (t <? 2); reflexivity. Qed.

(** C6.  The preview routines [tryEdges], [tryFilter] and [tryBinary]
    leave [self.npImage] unchanged whatever their arguments.  They put the
    array they compute into [self.image] and, when that image is valid,
    into [self.pixmap] (a null image leaves the pixmap as it was).  The
    undo slot, the crop flag, the view transform, the status line and the
    window title stay as they were. *)
Theorem previews_leave_npImage (s : MainWindow) (valK valS t : Z)
    (h : kernel) :
  (let B := edge_array (npImage s) valK valS in
   let s' := tryEdges s valK valS in
   npImage s' = npImage s
   /\ image s' = np2qimage B
   /\ pixmap s'
      = (if img_isNull (np2qimage B) then pixmap s
         else fromImage (np2qimage B))
   /\ preview_frame s s')
  /\ (let B := filtered_array (npImage s) h valS in
      let s' := tryFilter s h valS in
      npImage s' = npImage s
      /\ image s' = np2qimage B
      /\ pixmap s'
         = (if img_isNull (np2qimage B) then pixmap s
            else fromImage (np2qimage B))
      /\ preview_frame s s')
  /\ (let B := binary_array (npImage s) t in
      let s' := tryBinary s t in
      npImage s' = npImage s
      /\ image s' = np2qimage B
      /\ pixmap s'
         = (if img_isNull (np2qimage B) then pixmap s
            else fromImage (np2qimage B))
      /\ preview_frame s s').
Proof.
  cbv zeta. rewrite tryEdges_shows, tryFilter_shows, tryBinary_shows.
  repeat split;
    first [ apply np2image2pixmap_npImage
          | apply np2image2pixmap_image
          | apply np2image2pixmap_pixmap
          | apply np2image2pixmap_frame ].
Qed.

End Previews.

(** ** Undo and the null checks *)

Section Undo.

Context `{L : Libs}.

Lemma undoLast_null (s : MainWindow) :
  pm_isNull (prevPixmap s) = true -> undoLast s = setMenuItems s.
Proof.
  unfold pm_isNull; intros Hn.
  assert (Hc : (0 <? pm_width (prevPixmap s))
               && (0 <? pm_height (prevPixmap s)) = false).
  { apply orb_true_iff in Hn; destruct Hn as [Hn | Hn];
      apply Z.leb_le in Hn.
    - apply andb_false_intro1, Z.ltb_ge; exact Hn.
    - apply andb_false_intro2, Z.ltb_ge; exact Hn. }
  unfold undoLast; cbv beta iota zeta. rewrite Hc. reflexivity.
Qed.

Lemma undoLast_valid (s : MainWindow) :
  0 < pm_width (prevPixmap s) -> 0 < pm_height (prevPixmap s) ->
  pixmap (undoLast s) = prevPixmap s
  /\ prevPixmap (undoLast s) = pixmap s
  /\ image (undoLast s) = toImage (prevPixmap s)
  /\ npImage (undoLast s) = array_of (toImage (prevPixmap s)).
Proof.
  intros Hw Hh. unfold undoLast; cbv beta iota zeta.
  apply Z.ltb_lt in Hw, Hh. rewrite Hw, Hh. cbn [andb].
  name_conversions. cbn in *. intuition congruence.
Qed.

(** C2.  When [prevPixmap] has positive width and height, [undoLast]
    exchanges the current and the previous pixmap and rebuilds [image] and
    [npImage] from the restored pixmap; when [prevPixmap] is null the
    pixmap, the image, the array and [prevPixmap] stay as they are. *)
Theorem undoLast_swaps (s : MainWindow) :
  (0 < pm_width (prevPixmap s) -> 0 < pm_height (prevPixmap s) ->
   pixmap (undoLast s) = prevPixmap s
   /\ prevPixmap (undoLast s) = pixmap s
   /\ image (undoLast s) = toImage (prevPixmap s)
   /\ npImage (undoLast s) = array_of (toImage (prevPixmap s)))
  /\ (pm_isNull (prevPixmap s) = true -> same_images s (undoLast s)).
Proof.
  split.
  - apply undoLast_valid.
  - intros Hn. rewrite (undoLast_null s Hn). repeat split.
Qed.

(** C9.  On the empty state the guarded operations do nothing: with a
    null [pixmap], [scaleOne], [scaleUp] and [scaleDown] return the window
    as it is, view transform included; with a null [prevPixmap],
    [undoLast] leaves pixmap, image and array as they are.  All four are
    total functions of the window: there is no input on which they
    raise. *)
Theorem null_checks_are_noops (s : MainWindow) :
  (pm_isNull (pixmap s) = true ->
   scaleOne s = s /\ scaleUp s = s /\ scaleDown s = s
   /\ viewTransform (scaleOne s) = viewTransform s
   /\ viewTransform (scaleUp s) = viewTransform s
   /\ viewTransform (scaleDown s) = viewTransform s)
  /\ (pm_isNull (prevPixmap s) = true ->
      pixmap (undoLast s) = pixmap s
      /\ image (undoLast s) = image s
      /\ npImage (undoLast s) = npImage s).
Proof.
  split.
  - intros Hn. unfold scaleOne, scaleUp, scaleDown. rewrite Hn. cbn.
    repeat split.
  - intros Hn. rewrite (undoLast_null s Hn). repeat split.
Qed.

End Undo.

Lemma undoLast_swaps_witness :
  pixmap (@undoLast Reference.RefLibs Reference.grayed)
  = Reference.colour_pixmap
  /\ same_images initial (@undoLast Reference.RefLibs initial).
Proof.
  split.
  - refine (proj1
      (proj1 (@undoLast_swaps Reference.RefLibs Reference.grayed) _ _));
      vm_compute; reflexivity.
  - apply (proj2 (@undoLast_swaps Reference.RefLibs initial)).
    reflexivity.
Defined.

Lemma null_checks_are_noops_witness :
  scaleUp initial = initial
  /\ npImage (@undoLast Reference.RefLibs initial) = empty_array.
Proof.
  split.
  - apply (proj1 (@null_checks_are_noops Reference.RefLibs initial)).
    reflexivity.
  - apply (proj2 (@null_checks_are_noops Reference.RefLibs initial)).
    reflexivity.
Defined.

(** ** The edit operations *)

Section Edits.

Context `{L : Libs}.

(** The attributes an accepted or cancelled dialog starts from, after any
    number of previews. *)
Lemma edge_previews_frame (l : list (Z * Z)) (s : MainWindow) :
  preview_frame s (fold_left (fun s v => tryEdges s (fst v) (snd v)) l s).
Proof. apply previews_frame; intros; apply tryEdges_frame. Qed.

Lemma filter_previews_frame (l : list (kernel * Z)) (s : MainWindow) :
  preview_frame s (fold_left (fun s v => tryFilter s (fst v) (snd v)) l s).
Proof. apply previews_frame; intros; apply tryFilter_frame. Qed.

Lemma threshold_previews_frame (l : list Z) (s : MainWindow) :
  preview_frame s (fold_left tryBinary l s).
Proof. apply previews_frame; intros; apply tryBinary_frame. Qed.

Ltac name_previews :=
  match goal with
  | |- context [fold_left ?f ?l ?x] =>
      let s2 := fresh "s2" in
      let Hf := fresh "Hf" in
      first [ pose proof (edge_previews_frame l x) as Hf
            | pose proof (filter_previews_frame l x) as Hf
            | pose proof (threshold_previews_frame l x) as Hf ];
      set (s2 := fold_left f l x) in *; clearbody s2;
      unfold preview_frame in Hf
  end.

Ltac finish_images :=
  name_conversions; cbn in *;
  intuition
    (repeat match goal with
            | H : img_isNull ?i = false |- _ => rewrite H in *
            end;
     try congruence).

Lemma is_color_channels (A : ndarray) :
  ndim A = 3%nat ->
  (nth 2 (shape A) 0 = 3 \/ nth 2 (shape A) 0 = 4)%nat ->
  is_color A = true.
Proof.
  unfold is_color; intros Hd [Hc | Hc]; rewrite Hd, Hc; reflexivity.
Qed.

Lemma toGray_commits (s : MainWindow) :
  ndim (npImage s) = 3%nat ->
  (nth 2 (shape (npImage s)) 0 = 3 \/ nth 2 (shape (npImage s)) 0 = 4)%nat ->
  exists s', toGray s = Ok s'
             /\ committed (gray_array (npImage s)) (pixmap s) s'.
Proof.
  intros Hd Hc. unfold toGray, gray_array, committed.
  rewrite (is_color_channels _ Hd Hc); cbv beta iota zeta.
  cbn [npImage set_prevPixmap].
  destruct Hc as [Hc | Hc]; rewrite Hc; cbn [Nat.eqb bind];
    (eexists; split; [ reflexivity | ]); finish_images.
Qed.

Lemma toGray_gray (s : MainWindow) :
  ndim (npImage s) = 2%nat -> toGray s = Ok (setMenuItems s).
Proof.
  intros Hd. unfold toGray, is_color. rewrite Hd. reflexivity.
Qed.

Lemma cropEnd_inactive (s : MainWindow) (r : QRect) :
  cropActive s = false -> cropEnd s r = Ok s.
Proof. intros Hc. unfold cropEnd. rewrite Hc. reflexivity. Qed.

Lemma cropEnd_large (s : MainWindow) (r : QRect) :
  cropActive s = true -> 5 < rect_width r -> 5 < rect_height r ->
  exists s', cropEnd s r = Ok s'
             /\ pixmap s'
                = pm_copy (pixmap s) (rect_x r) (rect_y r) (rect_width r)
                    (rect_height r)
             /\ prevPixmap s' = pixmap s
             /\ cropActive s' = false
             /\ image s' = toImage (pixmap s')
             /\ npImage s' = array_of (toImage (pixmap s')).
Proof.
  intros Hc Hw Hh. unfold cropEnd. rewrite Hc; cbv beta iota zeta.
  apply Z.ltb_lt in Hw, Hh. cbn [negb]. rewrite Hw, Hh. cbn [andb].
  eexists; split; [ reflexivity | ].
  name_conversions; cbn in *.
  destruct HP as (H1 & H2 & H3 & H4 & H5).
  rewrite H1, H2, H3, H4, H5. repeat split.
Qed.

Lemma toEdges_accepted (s : MainWindow) (d : EdgeRun) :
  edge_result d = true ->
  committed (edge_array (npImage s) (fst (edge_values d)) (snd (edge_values d)))
    (pixmap s) (toEdges s d).
Proof.
  intros Ha. unfold toEdges, edge_array, committed; cbv beta iota zeta.
  destruct (edge_values d) as [valK valS]; cbn [fst snd].
  rewrite Ha. name_previews. finish_images.
Qed.

Lemma toEdges_cancelled (s : MainWindow) (d : EdgeRun) :
  edge_result d = false -> restored s (toEdges s d).
Proof.
  intros Ha. unfold toEdges, restored; cbv beta iota zeta.
  destruct (edge_values d) as [valK valS].
  rewrite Ha. name_previews. finish_images.
Qed.

Lemma filterImage_accepted (s : MainWindow) (d : FilterRun) :
  filter_result d = true ->
  committed
    (filtered_array (npImage s) (fst (filter_values d))
       (snd (filter_values d)))
    (pixmap s) (filterImage s d).
Proof.
  intros Ha. unfold filterImage, filtered_array, committed;
    cbv beta iota zeta.
  destruct (filter_values d) as [h valS]; cbn [fst snd].
  rewrite Ha. name_previews.
  rewrite (proj1 Hf). finish_images.
Qed.

Lemma filterImage_cancelled (s : MainWindow) (d : FilterRun) :
  filter_result d = false -> restored s (filterImage s d).
Proof.
  intros Ha. unfold filterImage, restored; cbv beta iota zeta.
  destruct (filter_values d) as [h valS].
  rewrite Ha. name_previews. finish_images.
Qed.

Lemma toBinary_accepted (s : MainWindow) (d : ThresholdRun) :
  threshold_result d = true ->
  committed (binary_array (npImage s) (threshold_value d)) (pixmap s)
    (toBinary s d).
Proof.
  intros Ha. unfold toBinary, binary_array, committed; cbv beta iota zeta.
  rewrite Ha. name_previews. finish_images.
Qed.

Lemma toBinary_cancelled (s : MainWindow) (d : ThresholdRun) :
  threshold_result d = false -> restored s (toBinary s d).
Proof.
  intros Ha. unfold toBinary, restored; cbv beta iota zeta.
  rewrite Ha. name_previews. finish_images.
Qed.

Lemma resizeImage_accepted (s : MainWindow) (d : ResizeRun) :
  resize_result d = true ->
  committed
    (cv2_resize (npImage s) (fst (resize_values d)) (snd (resize_values d)))
    (pixmap s) (resizeImage s d).
Proof.
  intros Ha. unfold resizeImage, committed; cbv beta iota zeta.
  destruct (resize_values d) as [newWidth newHight]; cbn [fst snd].
  rewrite Ha. finish_images.
Qed.

Lemma resizeImage_cancelled (s : MainWindow) (d : ResizeRun) :
  resize_result d = false -> resizeImage s d = setMenuItems s.
Proof.
  intros Ha. unfold resizeImage; cbv beta iota zeta.
  destruct (resize_values d) as [newWidth newHight].
  rewrite Ha. destruct s; reflexivity.
Qed.

End Edits.

(** ** Gray conversion *)

(** C7.  For an array with three axes and 3 or 4 channels, [toGray]
    commits the gray conversion of the array (OpenCV's BGR-to-gray map for
    3 channels, BGRA-to-gray for 4): the array and the image are the gray
    array, the pixmap is made from that image (which is assumed valid),
    and [prevPixmap] holds the pixmap from before.  For an array with two
    axes [toGray] returns with pixmap, image, array and [prevPixmap]
    unchanged. *)
Theorem toGray_converts `{L : Libs} (s : MainWindow) :
  (ndim (npImage s) = 3%nat ->
   (nth 2 (shape (npImage s)) 0 = 3 \/ nth 2 (shape (npImage s)) 0 = 4)%nat ->
   img_isNull (np2qimage (gray_array (npImage s))) = false ->
   exists s',
     toGray s = Ok s'
     /\ npImage s' = gray_array (npImage s)
     /\ image s' = np2qimage (gray_array (npImage s))
     /\ pixmap s' = fromImage (np2qimage (gray_array (npImage s)))
     /\ prevPixmap s' = pixmap s)
  /\ (nth 2 (shape (npImage s)) 0%nat = 3%nat ->
      gray_array (npImage s) = cv2_cvtColor (npImage s) COLOR_BGR2GRAY)
  /\ (nth 2 (shape (npImage s)) 0%nat = 4%nat ->
      gray_array (npImage s) = cv2_cvtColor (npImage s) COLOR_BGRA2GRAY)
  /\ (ndim (npImage s) = 2%nat ->
      exists s', toGray s = Ok s' /\ same_images s s').
Proof.
  split; [ | split; [ | split ] ].
  - intros Hd Hc Hv.
    destruct (toGray_commits s Hd Hc) as (s' & Hs & Hi & Hp & Hn & Hq).
    exists s'. split; [ exact Hs | ]. split; [ exact Hn | ].
    split; [ exact Hi | ]. split; [ exact (Hp Hv) | exact Hq ].
  - intros Hc. unfold gray_array. rewrite Hc. reflexivity.
  - intros Hc. unfold gray_array. rewrite Hc. reflexivity.
  - intros Hd. exists (setMenuItems s). split.
    + apply toGray_gray, Hd.
    + repeat split.
Qed.

Lemma toGray_converts_witness :
  (exists s',
     @toGray Reference.RefLibs (Reference.opened Reference.colour_pixmap)
     = Ok s'
     /\ npImage s' = mkArr [2%nat; 2%nat] [29; 150; 76; 255]
     /\ prevPixmap s' = Reference.colour_pixmap)
  /\ (exists s',
        @toGray Reference.RefLibs Reference.grayed = Ok s'
        /\ same_images Reference.grayed s').
Proof.
  split.
  - destruct (proj1 (@toGray_converts Reference.RefLibs
                       (Reference.opened Reference.colour_pixmap)))
      as (s' & Hs & Hn & _ & _ & Hq).
    + reflexivity.
    + right; reflexivity.
    + reflexivity.
    + exists s'. split; [ exact Hs | ]. split; [ exact Hn | exact Hq ].
  - apply (@toGray_converts Reference.RefLibs Reference.grayed).
    reflexivity.
Defined.

(** ** The undo slot *)

Section UndoSlot.

Context `{L : Libs}.

Lemma set_prevPixmap_twice (s : MainWindow) (q : QPixmap) :
  set_prevPixmap (set_prevPixmap s q) (pixmap (set_prevPixmap s q))
  = set_prevPixmap s (pixmap s).
Proof. reflexivity. Qed.

Lemma toGray_forgets (s : MainWindow) (q : QPixmap) :
  is_color (npImage s) = true -> toGray (set_prevPixmap s q) = toGray s.
Proof.
  intros Hc. unfold toGray.
  change (npImage (set_prevPixmap s q)) with (npImage s).
  rewrite Hc; cbv beta iota zeta.
  rewrite set_prevPixmap_twice. reflexivity.
Qed.

Lemma cropEnd_forgets (s : MainWindow) (q : QPixmap) (r : QRect) :
  cropActive s = true -> 5 < rect_width r -> 5 < rect_height r ->
  cropEnd (set_prevPixmap s q) r = cropEnd s r.
Proof.
  intros Hc Hw Hh. unfold cropEnd.
  change (cropActive (set_prevPixmap s q)) with (cropActive s).
  rewrite Hc; cbv beta iota zeta.
  apply Z.ltb_lt in Hw, Hh. cbn [negb]. rewrite Hw, Hh. cbn [andb].
  reflexivity.
Qed.

Lemma toEdges_forgets (s : MainWindow) (q : QPixmap) (d : EdgeRun) :
  edge_result d = true -> toEdges (set_prevPixmap s q) d = toEdges s d.
Proof.
  intros Ha. unfold toEdges; cbv beta iota zeta.
  destruct (edge_values d) as [valK valS].
  rewrite Ha, set_prevPixmap_twice. reflexivity.
Qed.

Lemma filterImage_forgets (s : MainWindow) (q : QPixmap) (d : FilterRun) :
  filter_result d = true -> filterImage (set_prevPixmap s q) d = filterImage s d.
Proof.
  intros Ha. unfold filterImage; cbv beta iota zeta.
  destruct (filter_values d) as [h valS].
  rewrite Ha, set_prevPixmap_twice. reflexivity.
Qed.

Lemma toBinary_forgets (s : MainWindow) (q : QPixmap) (d : ThresholdRun) :
  threshold_result d = true -> toBinary (set_prevPixmap s q) d = toBinary s d.
Proof.
  intros Ha. unfold toBinary; cbv beta iota zeta.
  rewrite Ha, set_prevPixmap_twice. reflexivity.
Qed.

Lemma resizeImage_forgets (s : MainWindow) (q : QPixmap) (d : ResizeRun) :
  resize_result d = true -> resizeImage (set_prevPixmap s q) d = resizeImage s d.
Proof.
  intros Ha. unfold resizeImage; cbv beta iota zeta.
  destruct (resize_values d) as [newWidth newHight].
  rewrite Ha, set_prevPixmap_twice. reflexivity.
Qed.

(** C3.  The undo history is one slot.  Every edit that commits a new
    image ([toGray] of a colour array, [cropEnd] with a large rectangle,
    and the accepted dialogs of [toEdges], [filterImage], [toBinary],
    [resizeImage]) leaves in [prevPixmap] the pixmap that was current
    before the edit, and its result is the same whatever pixmap [q] the
    slot held before: what was stored there is overwritten and cannot be
    reached any more. *)
Theorem undo_slot_is_single (s : MainWindow) (q : QPixmap) (r : QRect)
    (de : EdgeRun) (df : FilterRun) (dt : ThresholdRun) (dr : ResizeRun) :
  (ndim (npImage s) = 3%nat ->
   (nth 2 (shape (npImage s)) 0 = 3 \/ nth 2 (shape (npImage s)) 0 = 4)%nat ->
   exists s', toGray s = Ok s' /\ prevPixmap s' = pixmap s
              /\ toGray (set_prevPixmap s q) = Ok s')
  /\ (cropActive s = true -> 5 < rect_width r -> 5 < rect_height r ->
      exists s', cropEnd s r = Ok s' /\ prevPixmap s' = pixmap s
                 /\ cropEnd (set_prevPixmap s q) r = Ok s')
  /\ (edge_result de = true ->
      prevPixmap (toEdges s de) = pixmap s
      /\ toEdges (set_prevPixmap s q) de = toEdges s de)
  /\ (filter_result df = true ->
      prevPixmap (filterImage s df) = pixmap s
      /\ filterImage (set_prevPixmap s q) df = filterImage s df)
  /\ (threshold_result dt = true ->
      prevPixmap (toBinary s dt) = pixmap s
      /\ toBinary (set_prevPixmap s q) dt = toBinary s dt)
  /\ (resize_result dr = true ->
      prevPixmap (resizeImage s dr) = pixmap s
      /\ resizeImage (set_prevPixmap s q) dr = resizeImage s dr).
Proof.
  split; [ | split; [ | split; [ | split; [ | split ] ] ] ].
  - intros Hd Hc.
    destruct (toGray_commits s Hd Hc) as (s' & Hs & _ & _ & _ & Hq).
    exists s'. split; [ exact Hs | ]. split; [ exact Hq | ].
    rewrite toGray_forgets; [ exact Hs | apply is_color_channels; assumption ].
  - intros Hc Hw Hh.
    destruct (cropEnd_large s r Hc Hw Hh) as (s' & Hs & _ & Hq & _).
    exists s'. split; [ exact Hs | ]. split; [ exact Hq | ].
    rewrite cropEnd_forgets; assumption.
  - intros Ha. split; [ apply (toEdges_accepted s de Ha) | ].
    apply toEdges_forgets, Ha.
  - intros Ha. split; [ apply (filterImage_accepted s df Ha) | ].
    apply filterImage_forgets, Ha.
  - intros Ha. split; [ apply (toBinary_accepted s dt Ha) | ].
    apply toBinary_forgets, Ha.
  - intros Ha. split; [ apply (resizeImage_accepted s dr Ha) | ].
    apply resizeImage_forgets, Ha.
Qed.

End UndoSlot.

Lemma undo_slot_is_single_witness :
  prevPixmap
    (@toBinary Reference.RefLibs Reference.grayed (mkThresholdRun [90] 100 true))
  = pixmap Reference.grayed
  /\ @toBinary Reference.RefLibs
       (set_prevPixmap Reference.grayed Reference.ramp_pixmap)
       (mkThresholdRun [90] 100 true)
     = @toBinary Reference.RefLibs Reference.grayed
         (mkThresholdRun [90] 100 true).
Proof.
  refine (proj1 (proj2 (proj2 (proj2 (proj2
    (@undo_slot_is_single Reference.RefLibs Reference.grayed
       Reference.ramp_pixmap (mkRect 0 0 8 8) (mkEdgeRun [] (3, 1) true)
       (@mkFilterRun Reference.RefLibs [] ([1], 1) true)
       (mkThresholdRun [90] 100 true) (mkResizeRun (4, 4) true)))))) _).
  reflexivity.
Defined.

(** ** Crop *)

Section Crop.

Context `{L : Libs}.

Lemma pm_copy_clipped (p : QPixmap) (x y w h : Z) :
  pm_isNull p = false -> 0 < w -> 0 < h ->
  Z.max 0 x < Z.min (pm_width p) (x + w) ->
  Z.max 0 y < Z.min (pm_height p) (y + h) ->
  pm_copy p x y w h
  = mkPixmap (Z.min (pm_width p) (x + w) - Z.max 0 x)
      (Z.min (pm_height p) (y + h) - Z.max 0 y)
      (window (pm_width p) (pm_data p) (Z.max 0 x) (Z.max 0 y)
         (Z.min (pm_width p) (x + w) - Z.max 0 x)
         (Z.min (pm_height p) (y + h) - Z.max 0 y)).
Proof.
  intros Hn Hw Hh Hx Hy. unfold pm_copy. rewrite Hn.
  replace ((w <=? 0) || (h <=? 0)) with false
    by (symmetry; apply orb_false_intro; apply Z.leb_gt; assumption).
  cbv zeta.
  replace ((Z.min (pm_width p) (x + w) <=? Z.max 0 x)
           || (Z.min (pm_height p) (y + h) <=? Z.max 0 y)) with false
    by (symmetry; apply orb_false_intro; apply Z.leb_gt; assumption).
  reflexivity.
Qed.

Lemma pm_copy_inside (p : QPixmap) (x y w h : Z) :
  0 < w -> 0 < h -> 0 <= x -> 0 <= y ->
  x + w <= pm_width p -> y + h <= pm_height p ->
  pm_copy p x y w h
  = mkPixmap w h (window (pm_width p) (pm_data p) x y w h).
Proof.
  intros Hw Hh Hx Hy Hxw Hyh.
  rewrite pm_copy_clipped; try assumption; try lia.
  - rewrite (Z.max_r 0 x), (Z.max_r 0 y) by assumption.
    rewrite (Z.min_r (pm_width p)), (Z.min_r (pm_height p)) by assumption.
    replace (x + w - x) with w by lia. replace (y + h - y) with h by lia.
    reflexivity.
  - unfold pm_isNull. apply orb_false_intro; apply Z.leb_gt; lia.
Qed.

(** C4 (as amended).  With [cropActive] set and a rectangle wider and
    higher than 5, [cropEnd] replaces the pixmap by [copy(x, y, w, h)] of
    the pixmap from before, stores that pixmap in [prevPixmap] and clears
    [cropActive].  The copy is the part of the rectangle that lies inside
    the pixmap: it has the rectangle's width and height when the rectangle
    lies inside the pixmap, and the width and height of the intersection
    when the rectangle overlaps the pixmap.  With [cropActive] unset
    [cropEnd] changes nothing. *)
Theorem cropEnd_crops (s : MainWindow) (r : QRect) :
  (cropActive s = true -> 5 < rect_width r -> 5 < rect_height r ->
   exists s',
     cropEnd s r = Ok s'
     /\ pixmap s'
        = pm_copy (pixmap s) (rect_x r) (rect_y r) (rect_width r)
            (rect_height r)
     /\ prevPixmap s' = pixmap s
     /\ cropActive s' = false
     /\ (0 <= rect_x r -> 0 <= rect_y r ->
         rect_x r + rect_width r <= pm_width (pixmap s) ->
         rect_y r + rect_height r <= pm_height (pixmap s) ->
         pm_width (pixmap s') = rect_width r
         /\ pm_height (pixmap s') = rect_height r
         /\ pm_data (pixmap s')
            = window (pm_width (pixmap s)) (pm_data (pixmap s)) (rect_x r)
                (rect_y r) (rect_width r) (rect_height r))
     /\ (pm_isNull (pixmap s) = false ->
         Z.max 0 (rect_x r)
         < Z.min (pm_width (pixmap s)) (rect_x r + rect_width r) ->
         Z.max 0 (rect_y r)
         < Z.min (pm_height (pixmap s)) (rect_y r + rect_height r) ->
         pm_width (pixmap s')
         = Z.min (pm_width (pixmap s)) (rect_x r + rect_width r)
           - Z.max 0 (rect_x r)
         /\ pm_height (pixmap s')
            = Z.min (pm_height (pixmap s)) (rect_y r + rect_height r)
              - Z.max 0 (rect_y r)))
  /\ (cropActive s = false -> cropEnd s r = Ok s).
Proof.
  split.
  - intros Hc Hw Hh.
    destruct (cropEnd_large s r Hc Hw Hh) as (s' & Hs & Hp & Hq & Ha & _).
    exists s'. split; [ exact Hs | ]. split; [ exact Hp | ].
    split; [ exact Hq | ]. split; [ exact Ha | ]. split.
    + intros Hx Hy Hxw Hyh. rewrite Hp.
      rewrite pm_copy_inside by lia. repeat split.
    + intros Hn Hx Hy. rewrite Hp.
      rewrite pm_copy_clipped by (assumption || lia). split; reflexivity.
  - apply cropEnd_inactive.
Qed.

End Crop.

Lemma cropEnd_crops_witness :
  (exists s',
     @cropEnd Reference.RefLibs
       (cropStart (Reference.opened Reference.ramp_pixmap)) (mkRect 1 1 6 6)
     = Ok s'
     /\ prevPixmap s' = Reference.ramp_pixmap
     /\ pm_width (pixmap s') = 6 /\ pm_height (pixmap s') = 6)
  /\ @cropEnd Reference.RefLibs (Reference.opened Reference.ramp_pixmap)
       (mkRect 1 1 6 6)
     = Ok (Reference.opened Reference.ramp_pixmap).
Proof.
  split.
  - destruct (proj1 (@cropEnd_crops Reference.RefLibs
                       (cropStart (Reference.opened Reference.ramp_pixmap))
                       (mkRect 1 1 6 6)))
      as (s' & Hs & _ & Hq & _ & Hin & _); try reflexivity.
    exists s'. split; [ exact Hs | ]. split; [ exact Hq | ].
    destruct Hin as (Hw & Hh & _); try (vm_compute; discriminate).
    split; [ exact Hw | exact Hh ].
  - apply (proj2 (@cropEnd_crops Reference.RefLibs
                    (Reference.opened Reference.ramp_pixmap)
                    (mkRect 1 1 6 6))).
    reflexivity.
Defined.

(** C4 as stated fails: on the 8 x 8 picture the rubber band
    [QRect(4, 4, 6, 6)] is wider and higher than 5, but the new pixmap is
    4 x 4, the part of the rectangle inside the picture. *)
Lemma cropEnd_beyond_pixmap :
  let s := cropStart (Reference.opened Reference.ramp_pixmap) in
  let r := mkRect 4 4 6 6 in
  cropActive s = true /\ 5 < rect_width r /\ 5 < rect_height r
  /\ exists s',
       @cropEnd Reference.RefLibs s r = Ok s'
       /\ pm_width (pixmap s') = 4 /\ pm_height (pixmap s') = 4
       /\ pm_width (pixmap s') <> rect_width r
       /\ pm_height (pixmap s') <> rect_height r.
Proof.
  cbv zeta. split; [ reflexivity | ]. split; [ reflexivity | ].
  split; [ reflexivity | ].
  eexists. split; [ vm_compute; reflexivity | ].
  cbn. repeat split; discriminate.
Qed.

(** ** Cancelled dialogs *)

Section Cancel.

Context `{L : Libs}.

Lemma restored_same_images (s s' : MainWindow) :
  read_from_pixmap s -> restored s s' -> same_images s s'.
Proof.
  unfold read_from_pixmap, restored, same_images.
  intros (Hi & Hn) (Hp & Hq & Hi' & Hn' & _).
  rewrite Hi in Hn. intuition congruence.
Qed.

(** C5 (as amended).  A cancelled dialog of [toEdges], [filterImage] or
    [toBinary] puts back the pixmap and the undo slot exactly and reads
    image and array again from the pixmap; so all four attributes are as
    before the call when image and array were what [pixmap2image2np] reads
    from the pixmap.  A cancelled [resizeImage] changes none of the
    four. *)
Theorem cancel_restores (s : MainWindow) (de : EdgeRun) (df : FilterRun)
    (dt : ThresholdRun) (dr : ResizeRun) :
  (edge_result de = false ->
   restored s (toEdges s de)
   /\ (read_from_pixmap s -> same_images s (toEdges s de)))
  /\ (filter_result df = false ->
      restored s (filterImage s df)
      /\ (read_from_pixmap s -> same_images s (filterImage s df)))
  /\ (threshold_result dt = false ->
      restored s (toBinary s dt)
      /\ (read_from_pixmap s -> same_images s (toBinary s dt)))
  /\ (resize_result dr = false -> same_images s (resizeImage s dr)).
Proof.
  split; [ | split; [ | split ] ].
  - intros Ha. pose proof (toEdges_cancelled s de Ha) as Hr.
    split; [ exact Hr | ]. intros Hs. exact (restored_same_images _ _ Hs Hr).
  - intros Ha. pose proof (filterImage_cancelled s df Ha) as Hr.
    split; [ exact Hr | ]. intros Hs. exact (restored_same_images _ _ Hs Hr).
  - intros Ha. pose proof (toBinary_cancelled s dt Ha) as Hr.
    split; [ exact Hr | ]. intros Hs. exact (restored_same_images _ _ Hs Hr).
  - intros Ha. rewrite (resizeImage_cancelled s dr Ha). repeat split.
Qed.

End Cancel.

Lemma cancel_restores_witness :
  same_images (Reference.opened Reference.ramp_pixmap)
    (@toBinary Reference.RefLibs (Reference.opened Reference.ramp_pixmap)
       (mkThresholdRun [90; 20] 20 false))
  /\ same_images Reference.grayed
       (@resizeImage Reference.RefLibs Reference.grayed
          (mkResizeRun (4, 4) false)).
Proof.
  pose proof (@cancel_restores Reference.RefLibs
                (Reference.opened Reference.ramp_pixmap)
                (mkEdgeRun [] (3, 1) false)
                (@mkFilterRun Reference.RefLibs [] ([1], 1) false)
                (mkThresholdRun [90; 20] 20 false)
                (mkResizeRun (4, 4) false)) as (_ & _ & Hb & _).
  pose proof (@cancel_restores Reference.RefLibs Reference.grayed
                (mkEdgeRun [] (3, 1) false)
                (@mkFilterRun Reference.RefLibs [] ([1], 1) false)
                (mkThresholdRun [] 20 false)
                (mkResizeRun (4, 4) false)) as (_ & _ & _ & Hr).
  split.
  - apply Hb; [ reflexivity | ]. split; vm_compute; reflexivity.
  - apply Hr. reflexivity.
Defined.

(** C5 as stated fails.  After [drawlines] on a colour picture in which
    no line is found, the display is gray (so "to Binary" is enabled)
    while [npImage] is still the colour array; a cancelled [toBinary]
    then replaces [npImage] by the gray array read from the pixmap. *)
Lemma cancel_after_drawlines :
  let s := Reference.lined in
  let d := mkThresholdRun [] 0 false in
  @drawlines Reference.RefLibs (Reference.opened Reference.colour_pixmap)
  = Ok s
  /\ qaToBinary (menu s) = true
  /\ threshold_result d = false
  /\ npImage s
     = mkArr [2%nat; 2%nat; 4%nat]
         [255; 0; 0; 255; 0; 255; 0; 255; 0; 0; 255; 255; 255; 255; 255; 255]
  /\ npImage (@toBinary Reference.RefLibs s d)
     = mkArr [2%nat; 2%nat] [29; 150; 76; 255]
  /\ npImage (@toBinary Reference.RefLibs s d) <> npImage s.
Proof.
  cbv zeta. split; [ vm_compute; reflexivity | ].
  split; [ reflexivity | ]. split; [ reflexivity | ].
  split; [ vm_compute; reflexivity | ]. split; [ vm_compute; reflexivity | ].
  vm_compute. discriminate.
Qed.

(** ** The Homework menu *)

(** Case analysis on the statements of a block, from the first on. *)
Ltac split_block :=
  repeat (cbv beta iota zeta;
          match goal with
          | |- context [match ?r with Ok _ => _ | Raise _ => _ end] =>
              lazymatch r with
              | context [match _ with _ => _ end] => fail
              | context [if _ then _ else _] => fail
              | _ => destruct r
              end
          | |- context [if ?c then _ else _] =>
              lazymatch c with
              | context [match _ with _ => _ end] => fail
              | context [if _ then _ else _] => fail
              | _ => destruct c
              end
          end).

Section Homework.

Context `{L : Libs}.

(** Either the [try] block of [detectCornersHarris] completes, and the
    window shows the array the block left in [self.npImage]; or it raises,
    and nothing but [self.npImage] can have changed. *)
Lemma detect_try_cases (s : MainWindow) :
  (snd (detect_try s) = Ok tt
   /\ exists A,
        detectCornersHarris s
        = setMenuItems
            (setWindowTitle (np2image2pixmap (set_npImage s A) A false)
               TitleHarris))
  \/ (exists e,
        snd (detect_try s) = Raise e
        /\ (detectCornersHarris s = s
            \/ exists A, detectCornersHarris s = set_npImage s A)).
Proof.
  unfold detectCornersHarris, detect_try, and_then, eval, attr, assign, ret.
  split_block;
    first [ left; split; [ reflexivity | eexists; reflexivity ]
          | right; eexists; split;
            [ reflexivity
            | first [ left; reflexivity | right; eexists; reflexivity ] ] ].
Qed.

Lemma detect_try_done (s : MainWindow) :
  snd (detect_try s) = Ok tt ->
  exists A,
    detectCornersHarris s
    = setMenuItems
        (setWindowTitle (np2image2pixmap (set_npImage s A) A false)
           TitleHarris).
Proof.
  intros Hok. destruct (detect_try_cases s) as [(_ & H) | (e & He & _)].
  - exact H.
  - rewrite He in Hok. discriminate Hok.
Qed.

Lemma detect_try_raised (s : MainWindow) (e : exn) :
  snd (detect_try s) = Raise e ->
  detectCornersHarris s = s
  \/ exists A, detectCornersHarris s = set_npImage s A.
Proof.
  intros Hr. destruct (detect_try_cases s) as [(Hok & _) | (e' & _ & H)].
  - rewrite Hok in Hr. discriminate Hr.
  - exact H.
Qed.

(** [drawlines] returns exactly when the calls that compute the picture
    with the lines return. *)
Lemma drawlines_cases (s : MainWindow) :
  match lines_array (npImage s) with
  | Ok B =>
      drawlines s
      = Ok (setWindowTitle (np2image2pixmap s B false) TitleLines)
  | Raise e => drawlines s = Raise e
  end.
Proof.
  unfold drawlines, lines_array.
  destruct (cvtColor (npImage s) COLOR_BGR2GRAY) as [gray | e];
    cbn [bind]; [ | reflexivity ].
  destruct (hough_segments gray) as [lines | e]; cbn [bind];
    [ | reflexivity ].
  destruct (cvtColor gray COLOR_GRAY2BGR) as [img_bgr | e]; cbn [bind];
    [ | reflexivity ].
  destruct (draw_lines lines img_bgr) as [B | e]; reflexivity.
Qed.

Lemma lines_array_rejected (A : ndarray) (e : exn) :
  cv2_cvtColor_error A COLOR_BGR2GRAY = Some e -> lines_array A = Raise e.
Proof.
  intros He. unfold lines_array, cvtColor. rewrite He. reflexivity.
Qed.

End Homework.

(** ** The three representations stay in step *)

Section InSync.

Context `{L : Libs}.

Hypothesis sizes : conversions_keep_size.

Lemma fromImage_toImage (p : QPixmap) : fromImage (toImage p) = p.
Proof. destruct p; reflexivity. Qed.

Lemma array_of_size (i : QImage) :
  img_isNull i = false ->
  Z.of_nat (cols (array_of i)) = img_width i
  /\ Z.of_nat (rows (array_of i)) = img_height i.
Proof.
  intros Hn. destruct sizes as (_ & Hq). specialize (Hq i Hn).
  unfold array_of.
  destruct ((negb (img_isNull i) && allGray i)
            && (ndim (qimage2np i) =? 3)%nat); exact Hq.
Qed.

(** A window whose image and array were read from a valid pixmap. *)
Lemma read_in_sync (s : MainWindow) :
  pm_isNull (pixmap s) = false ->
  image s = toImage (pixmap s) ->
  npImage s = array_of (toImage (pixmap s)) ->
  in_sync s.
Proof.
  intros Hn Hi Ha.
  destruct (array_of_size (toImage (pixmap s)) Hn) as (Hc & Hr).
  unfold in_sync, same_size, same_content.
  rewrite Hi, Ha, Hc, Hr, fromImage_toImage. cbn. auto 10.
Qed.

(** A window to which an array with a valid image was committed. *)
Lemma committed_in_sync (B : ndarray) (p : QPixmap) (s : MainWindow) :
  committed B p s -> img_isNull (image s) = false -> in_sync s.
Proof.
  intros (Hi & Hp & Ha & _) Hn. rewrite Hi in Hn.
  destruct sizes as (Hs & _). destruct (Hs B Hn) as (Hw & Hh).
  unfold in_sync, same_size, same_content.
  rewrite (Hp Hn), Hi, Ha. cbn. rewrite Hw, Hh. auto 10.
Qed.

Lemma detectCornersHarris_shows_array (s : MainWindow) :
  snd (detect_try s) = Ok tt ->
  committed (npImage (detectCornersHarris s)) (prevPixmap s)
    (detectCornersHarris s).
Proof.
  intros Hok. destruct (detect_try_done s Hok) as (A & E).
  rewrite E. clear E. unfold committed.
  name_conversions. cbn [image pixmap npImage prevPixmap setMenuItems
                         set_menu setWindowTitle set_npImage] in *.
  destruct HP as (Hi & Hp & Hn & Hq & _).
  rewrite Hi, Hp, Hn, Hq. repeat split.
  intros Hv. rewrite Hv. reflexivity.
Qed.

Lemma detectCornersHarris_keeps_display (s : MainWindow) (e : exn) :
  snd (detect_try s) = Raise e ->
  pixmap (detectCornersHarris s) = pixmap s
  /\ image (detectCornersHarris s) = image s
  /\ prevPixmap (detectCornersHarris s) = prevPixmap s.
Proof.
  intros Hr. destruct (detect_try_raised s e Hr) as [E | (A & E)];
    rewrite E; repeat split.
Qed.

Lemma drawlines_shows_lines (s : MainWindow) (B : ndarray) :
  lines_array (npImage s) = Ok B ->
  exists s',
    drawlines s = Ok s'
    /\ npImage s' = npImage s
    /\ prevPixmap s' = prevPixmap s
    /\ image s' = np2qimage B
    /\ (img_isNull (image s') = false -> pixmap s' = fromImage (image s')).
Proof.
  intros HB. pose proof (drawlines_cases s) as E. rewrite HB in E.
  eexists. split; [ exact E | ].
  name_conversions. cbn [image pixmap npImage prevPixmap setWindowTitle] in *.
  destruct HP as (Hi & Hp & Hn & Hq & _).
  rewrite Hi, Hp, Hn, Hq. repeat split.
  intros Hv. rewrite Hv. reflexivity.
Qed.

Lemma drawlines_raises (s : MainWindow) (e : exn) :
  lines_array (npImage s) = Raise e -> drawlines s = Raise e.
Proof.
  intros HB. pose proof (drawlines_cases s) as E. rewrite HB in E. exact E.
Qed.

(** C1 (as amended).  Assume the helper conversions keep width and height.
    After every edit that commits a new, valid image the pixmap, the image
    and the array depict the same picture (same width and height, same
    content up to the conversions): [toGray] of a colour array, [cropEnd]
    with a large rectangle, the accepted dialogs of
    [toEdges], [filterImage], [toBinary] and [resizeImage], [undoLast]
    with a valid previous pixmap, and [detectCornersHarris] when its
    [try] block completes.  When the block raises, the [except] branch
    leaves pixmap, image and undo slot as they were.  [drawlines] returns
    when the calls that compute the picture with the lines return, and
    then has called [np2image2pixmap] with [numpyAlso=False]: image and
    pixmap show the gray picture with the lines drawn, and the array is
    left as it was.  When one of the calls raises, [drawlines] raises; the
    first call is [cv2.cvtColor(img, cv2.COLOR_BGR2GRAY)]. *)
Theorem edits_keep_in_sync (s : MainWindow) (r : QRect) (de : EdgeRun)
    (df : FilterRun) (dt : ThresholdRun) (dr : ResizeRun) :
  (ndim (npImage s) = 3%nat ->
   (nth 2 (shape (npImage s)) 0 = 3 \/ nth 2 (shape (npImage s)) 0 = 4)%nat ->
   exists s', toGray s = Ok s'
              /\ (img_isNull (image s') = false -> in_sync s'))
  /\ (cropActive s = true -> 5 < rect_width r -> 5 < rect_height r ->
      exists s', cropEnd s r = Ok s'
                 /\ (pm_isNull (pixmap s') = false -> in_sync s'))
  /\ (edge_result de = true ->
      img_isNull (image (toEdges s de)) = false -> in_sync (toEdges s de))
  /\ (filter_result df = true ->
      img_isNull (image (filterImage s df)) = false ->
      in_sync (filterImage s df))
  /\ (threshold_result dt = true ->
      img_isNull (image (toBinary s dt)) = false -> in_sync (toBinary s dt))
  /\ (resize_result dr = true ->
      img_isNull (image (resizeImage s dr)) = false ->
      in_sync (resizeImage s dr))
  /\ (0 < pm_width (prevPixmap s) -> 0 < pm_height (prevPixmap s) ->
      in_sync (undoLast s))
  /\ (snd (detect_try s) = Ok tt ->
      img_isNull (image (detectCornersHarris s)) = false ->
      in_sync (detectCornersHarris s))
  /\ (forall e, snd (detect_try s) = Raise e ->
      pixmap (detectCornersHarris s) = pixmap s
      /\ image (detectCornersHarris s) = image s
      /\ prevPixmap (detectCornersHarris s) = prevPixmap s)
  /\ (forall B, lines_array (npImage s) = Ok B ->
      exists s',
        drawlines s = Ok s'
        /\ npImage s' = npImage s
        /\ image s' = np2qimage B
        /\ (img_isNull (image s') = false ->
            pixmap s' = fromImage (image s')))
  /\ (forall e, lines_array (npImage s) = Raise e -> drawlines s = Raise e)
  /\ (forall e, cv2_cvtColor_error (npImage s) COLOR_BGR2GRAY = Some e ->
      drawlines s = Raise e).
Proof.
  split; [ | split; [ | split; [ | split; [ | split; [ | split;
    [ | split; [ | split; [ | split; [ | split; [ | split ] ] ] ] ] ] ] ] ] ].
  - intros Hd Hc. destruct (toGray_commits s Hd Hc) as (s' & Hs & Hk).
    exists s'. split; [ exact Hs | ]. apply (committed_in_sync _ _ _ Hk).
  - intros Hc Hw Hh.
    destruct (cropEnd_large s r Hc Hw Hh) as (s' & Hs & _ & _ & _ & Hi & Ha).
    exists s'. split; [ exact Hs | ].
    intros Hn. apply read_in_sync; assumption.
  - intros Ha. apply (committed_in_sync _ _ _ (toEdges_accepted s de Ha)).
  - intros Ha. apply (committed_in_sync _ _ _ (filterImage_accepted s df Ha)).
  - intros Ha. apply (committed_in_sync _ _ _ (toBinary_accepted s dt Ha)).
  - intros Ha. apply (committed_in_sync _ _ _ (resizeImage_accepted s dr Ha)).
  - intros Hw Hh.
    destruct (undoLast_valid s Hw Hh) as (Hp & _ & Hi & Ha).
    apply read_in_sync.
    + rewrite Hp. unfold pm_isNull.
      apply orb_false_intro; apply Z.leb_gt; assumption.
    + rewrite Hp. exact Hi.
    + rewrite Hp. exact Ha.
  - intros Hok.
    apply (committed_in_sync _ _ _ (detectCornersHarris_shows_array s Hok)).
  - intros e. apply detectCornersHarris_keeps_display.
  - intros B HB.
    destruct (drawlines_shows_lines s B HB) as (s' & Hs & Hn & _ & Hi & Hp).
    exists s'. auto.
  - intros e. apply drawlines_raises.
  - intros e He. apply drawlines_raises, lines_array_rejected, He.
Qed.

End InSync.

Lemma reference_keeps_size : @conversions_keep_size Reference.RefLibs.
Proof.
  split.
  - intros B. cbn. unfold Reference.ref_np2qimage.
    destruct ((2 <=? ndim B)%nat && (ndim B <=? 3)%nat && (0 <? rows B)%nat
              && (0 <? cols B)%nat
              && ((depth B =? 1)%nat || (depth B =? 3)%nat
                  || (depth B =? 4)%nat)).
    + intros _. split; reflexivity.
    + intros Hn. discriminate Hn.
  - intros i Hn. unfold img_isNull in Hn.
    apply orb_false_elim in Hn. destruct Hn as (Hw & Hh).
    apply Z.leb_gt in Hw, Hh. cbn.
    unfold cols, rows; cbn. split; apply Z2Nat.id; lia.
Qed.

Lemma edits_keep_in_sync_witness :
  @in_sync Reference.RefLibs (@undoLast Reference.RefLibs Reference.grayed)
  /\ @in_sync Reference.RefLibs
       (@toBinary Reference.RefLibs Reference.grayed
          (mkThresholdRun [90] 100 true))
  /\ @in_sync Reference.RefLibs
       (@detectCornersHarris Reference.RefLibs
          (Reference.opened Reference.colour_pixmap))
  /\ pixmap (@detectCornersHarris Reference.RefLibs initial) = null_pixmap
  /\ (exists s',
        @drawlines Reference.RefLibs
          (Reference.opened Reference.colour_pixmap) = Ok s'
        /\ npImage s' = npImage (Reference.opened Reference.colour_pixmap))
  /\ @drawlines Reference.RefLibs Reference.grayed = Raise Cv2Error.
Proof.
  pose proof (@edits_keep_in_sync Reference.RefLibs reference_keeps_size
                Reference.grayed (mkRect 0 0 8 8) (mkEdgeRun [] (3, 1) true)
                (@mkFilterRun Reference.RefLibs [] ([1], 1) true)
                (mkThresholdRun [90] 100 true) (mkResizeRun (4, 4) true))
    as (_ & _ & _ & _ & Hb & _ & Hu & _).
  pose proof (@edits_keep_in_sync Reference.RefLibs reference_keeps_size
                (Reference.opened Reference.colour_pixmap) (mkRect 0 0 8 8)
                (mkEdgeRun [] (3, 1) true)
                (@mkFilterRun Reference.RefLibs [] ([1], 1) true)
                (mkThresholdRun [90] 100 true) (mkResizeRun (4, 4) true))
    as (_ & _ & _ & _ & _ & _ & _ & Hc & _ & Hd & _).
  pose proof (@edits_keep_in_sync Reference.RefLibs reference_keeps_size
                initial (mkRect 0 0 8 8) (mkEdgeRun [] (3, 1) true)
                (@mkFilterRun Reference.RefLibs [] ([1], 1) true)
                (mkThresholdRun [90] 100 true) (mkResizeRun (4, 4) true))
    as (_ & _ & _ & _ & _ & _ & _ & _ & He & _).
  pose proof (@edits_keep_in_sync Reference.RefLibs reference_keeps_size
                Reference.grayed (mkRect 0 0 8 8) (mkEdgeRun [] (3, 1) true)
                (@mkFilterRun Reference.RefLibs [] ([1], 1) true)
                (mkThresholdRun [90] 100 true) (mkResizeRun (4, 4) true))
    as (_ & _ & _ & _ & _ & _ & _ & _ & _ & _ & _ & Hg).
  split; [ | split; [ | split; [ | split; [ | split ] ] ] ].
  - apply Hu; reflexivity.
  - apply Hb; reflexivity.
  - apply Hc; reflexivity.
  - apply (He Cv2Error). reflexivity.
  - destruct (Hd (mkArr [2%nat; 2%nat; 3%nat]
                    [29; 29; 29; 150; 150; 150; 76; 76; 76; 255; 255; 255]))
      as (s' & Hs & Hn & _).
    + reflexivity.
    + exists s'. split; [ exact Hs | exact Hn ].
  - apply (Hg Cv2Error). reflexivity.
Defined.

(** C1 as stated fails for [drawlines]: on the opened 2 x 2 colour picture
    the image shows the gray version while [npImage] is still the colour
    array, so image and array differ under both conversions. *)
Lemma drawlines_out_of_sync :
  let s := Reference.lined in
  @drawlines Reference.RefLibs (Reference.opened Reference.colour_pixmap)
  = Ok s
  /\ img_data (image s) = [4280098077; 4288059030; 4283190348; 4294967295]
  /\ npImage s
     = mkArr [2%nat; 2%nat; 4%nat]
         [255; 0; 0; 255; 0; 255; 0; 255; 0; 0; 255; 255; 255; 255; 255; 255]
  /\ ~ @same_content Reference.RefLibs s
  /\ ~ @in_sync Reference.RefLibs s.
Proof.
  cbv zeta.
  assert (Hc : ~ @same_content Reference.RefLibs Reference.lined).
  { intros (_ & [H | H]); vm_compute in H; discriminate H. }
  split; [ vm_compute; reflexivity | ].
  split; [ vm_compute; reflexivity | ]. split; [ vm_compute; reflexivity | ].
  split; [ exact Hc | ]. intros (_ & H). exact (Hc H).
Qed.

(** ** The black frame *)

Lemma slice2_size (A : ndarray) (top_ left_ w : nat) :
  rows (slice2 A top_ (top_ + w) left_ (left_ + w))
  = Nat.min w (rows A - top_)
  /\ cols (slice2 A top_ (top_ + w) left_ (left_ + w))
     = Nat.min w (cols A - left_).
Proof. unfold slice2, rows at 1, cols at 1; cbn. split; lia. Qed.

(** C10.  The special case of [cropEnd] slices the rows with the width:
    [A[top:top+w, left:left+w]].  It commits [min(w, rows - top)] rows,
    not [rows - top - bottom].  On the gray picture that is 2 wide and 4
    high with a black first row, the frame found is
    [(left, right, top, bottom) = (0, 0, 1, 0)], so [w = 2] and
    [h = 4 - 1 - 0 = 3], and the committed array and pixmap are 2 high. *)
Theorem black_frame_crop_height :
  (forall (A : ndarray) (top_ left_ w : nat),
     rows (slice2 A top_ (top_ + w) left_ (left_ + w))
     = Nat.min w (rows A - top_))
  /\ (let s := cropStart (Reference.opened Reference.framed_pixmap) in
      let r := mkRect 0 0 0 0 in
      cropActive s = true
      /\ shape (npImage s) = [4%nat; 2%nat]
      /\ black_frame (npImage s) = Ok (0%nat, 0%nat, 1%nat, 0%nat)
      /\ exists s',
           @cropEnd Reference.RefLibs s r = Ok s'
           /\ shape (npImage s') = [2%nat; 2%nat]
           /\ pm_height (pixmap s') = 2
           /\ pm_width (pixmap s') = 2
           /\ prevPixmap s' = Reference.framed_pixmap).
Proof.
  split.
  - intros A top_ left_ w. apply slice2_size.
  - cbv zeta. split; [ reflexivity | ]. split; [ reflexivity | ].
    split; [ vm_compute; reflexivity | ].
    eexists. split; [ vm_compute; reflexivity | ].
    cbn. repeat split.
Qed.

(** ** The camera *)

Lemma sdk_sound_app (calls more : list SdkCall) (on : bool) :
  sdk_sound on (calls ++ more)
  = sdk_sound on calls && sdk_sound (sdk_on on calls) more.
Proof.
  revert on; induction calls as [| c calls IH]; intros on; cbn.
  - reflexivity.
  - destruct c; rewrite IH, ?andb_assoc; reflexivity.
Qed.

Lemma sdk_on_app (calls more : list SdkCall) (on : bool) :
  sdk_on on (calls ++ more) = sdk_on (sdk_on on calls) more.
Proof.
  revert on; induction calls as [| c calls IH]; intros on; cbn.
  - reflexivity.
  - destruct c; apply IH.
Qed.

Lemma plain_calls (calls : list SdkCall) :
  forallb plain calls = true ->
  sdk_sound true calls = true /\ sdk_on true calls = true.
Proof.
  induction calls as [| c calls IH]; cbn; intros Hp.
  - split; reflexivity.
  - apply andb_true_iff in Hp. destruct Hp as (Hc & Hp).
    destruct c; try discriminate Hc; cbn; apply IH, Hp.
Qed.

Section CameraProofs.

Variable ueyeOK : bool.

Context `{L : Libs}.

Lemma camera_inv_plain (s s' : MainWindow2) (calls : list SdkCall) :
  camera_inv s -> camOn s = true ->
  camOn s' = true -> sdk s' = sdk s ++ calls -> forallb plain calls = true ->
  camera_inv s'.
Proof.
  intros (Hs & Ho) Hon Hon' Hsdk Hp. rewrite Hon in Ho.
  destruct (plain_calls calls Hp) as (Hs' & Ho').
  unfold camera_inv. rewrite Hsdk, sdk_sound_app, sdk_on_app, Hs, Ho, Hon'.
  rewrite Hs', Ho'. split; reflexivity.
Qed.

Lemma copy_image_calls (s : MainWindow2) (A : ndarray) :
  camOn (fst (copy_image s A)) = camOn s
  /\ (sdk (fst (copy_image s A)) = sdk s
      \/ sdk (fst (copy_image s A)) = sdk s ++ [ImageUnlock]).
Proof.
  unfold copy_image.
  destruct (amin (data A)) as [lo | e]; [ | cbn; auto ].
  destruct (amax (data A)) as [hi | e]; [ | cbn; auto ].
  destruct (negb (lo =? hi)); [ | cbn; auto ].
  destruct ((3 <=? ndim A)%nat && (3 <=? nth 2 (shape A) 0)%nat); cbn; auto.
Qed.

Lemma capture_calls (s : MainWindow2) (r : CaptureReply) :
  camOn (fst (capture ueyeOK s r)) = camOn s
  /\ exists calls,
       sdk (fst (capture ueyeOK s r)) = sdk s ++ calls
       /\ forallb plain calls = true.
Proof.
  unfold capture.
  set (s1 := call (call (set_base s (set_mouseTracking (base s) false))
                     CamFreezeVideo) IsWaitForNextImage).
  assert (H1 : camOn s1 = camOn s) by reflexivity.
  assert (H2 : sdk s1 = sdk s ++ [CamFreezeVideo; IsWaitForNextImage])
    by (cbn; rewrite <- app_assoc; reflexivity).
  clearbody s1.
  destruct (retVal_success r).
  - destruct (copy_image_calls s1 (tempBilde r)) as (Hc & Hk).
    destruct (copy_image s1 (tempBilde r)) as [s2 [e |]]; cbn in Hc, Hk; cbn.
    + split; [ congruence | ].
      destruct Hk as [Hk | Hk]; rewrite Hk, H2.
      * eexists; split; reflexivity.
      * rewrite <- app_assoc. eexists; split; reflexivity.
    + split; [ congruence | ].
      destruct Hk as [Hk | Hk]; rewrite Hk, H2.
      * eexists; split; reflexivity.
      * rewrite <- app_assoc. eexists; split; reflexivity.
  - cbn. split; [ exact H1 | ]. rewrite H2. eexists; split; reflexivity.
Qed.

Lemma cameraOn_starts (s : MainWindow2) :
  ueyeOK && negb (camOn s) = true ->
  camOn (cameraOn ueyeOK s) = true
  /\ sdk (cameraOn ueyeOK s)
     = sdk s ++ [CamInit; CamSetColormode; CamSetAoi 0 0 720 1280; CamAlloc 3].
Proof.
  intros Hg. unfold cameraOn. rewrite Hg. cbn.
  rewrite <- !app_assoc. split; reflexivity.
Qed.

Lemma cameraOff_stops (s : MainWindow2) :
  ueyeOK && camOn s = true ->
  camOn (cameraOff ueyeOK s) = false
  /\ sdk (cameraOff ueyeOK s) = sdk s ++ [CamExit].
Proof.
  intros Hg. unfold cameraOff. rewrite Hg. cbn. split; reflexivity.
Qed.

Lemma printCameraInfo_calls (s : MainWindow2) :
  ueyeOK && camOn s = true ->
  camOn (printCameraInfo ueyeOK s) = camOn s
  /\ exists calls,
       sdk (printCameraInfo ueyeOK s) = sdk s ++ calls
       /\ forallb plain calls = true.
Proof.
  intros Hg. unfold printCameraInfo. rewrite Hg. cbn.
  split; [ reflexivity | ].
  rewrite <- !app_assoc. eexists; split; reflexivity.
Qed.

Lemma step_keeps_inv (s : MainWindow2) (a : CameraAction) :
  camera_inv s -> camera_inv (fst (step ueyeOK s a)).
Proof.
  intros Hinv.
  assert (Hguard : forall b, ueyeOK && b = true -> b = true)
    by (intros b Hb; apply andb_true_iff in Hb; apply Hb).
  destruct a as [ | | r | r | ]; cbn [step fst].
  - destruct (ueyeOK && negb (camOn s)) eqn:Hg.
    + destruct (cameraOn_starts s Hg) as (Hon & Hsdk).
      destruct Hinv as (Hs & Ho). apply Hguard in Hg.
      apply negb_true_iff in Hg. rewrite Hg in Ho.
      unfold camera_inv.
      rewrite Hsdk, sdk_sound_app, sdk_on_app, Hs, Ho, Hon.
      split; reflexivity.
    + unfold cameraOn. rewrite Hg. exact Hinv.
  - destruct (ueyeOK && camOn s) eqn:Hg.
    + destruct (printCameraInfo_calls s Hg) as (Hon & calls & Hsdk & Hp).
      apply Hguard in Hg.
      apply (camera_inv_plain s _ calls); try assumption. congruence.
    + unfold printCameraInfo. rewrite Hg. exact Hinv.
  - unfold getOneImage. destruct (ueyeOK && camOn s) eqn:Hg; [ | exact Hinv ].
    destruct (capture_calls s r) as (Hon & calls & Hsdk & Hp).
    apply Hguard in Hg.
    apply (camera_inv_plain s _ calls); try assumption. congruence.
  - unfold getOneImageV2.
    destruct (ueyeOK && camOn s) eqn:Hg; cbn [negb]; [ | exact Hinv ].
    destruct (capture_calls s r) as (Hon & calls & Hsdk & Hp).
    apply Hguard in Hg.
    apply (camera_inv_plain s _ calls); try assumption. congruence.
  - destruct (ueyeOK && camOn s) eqn:Hg.
    + destruct (cameraOff_stops s Hg) as (Hon & Hsdk).
      destruct Hinv as (Hs & Ho). apply Hguard in Hg. rewrite Hg in Ho.
      unfold camera_inv.
      rewrite Hsdk, sdk_sound_app, sdk_on_app, Hs, Ho, Hon.
      split; reflexivity.
    + unfold cameraOff. rewrite Hg. exact Hinv.
Qed.

Lemma run_keeps_inv (actions : list CameraAction) (s : MainWindow2) :
  camera_inv s -> camera_inv (fst (run ueyeOK s actions)).
Proof.
  revert s; induction actions as [| a actions IH]; intros s Hinv; cbn.
  - exact Hinv.
  - pose proof (step_keeps_inv s a Hinv) as Hstep.
    destruct (step ueyeOK s a) as [s' [e |]]; cbn in *.
    + exact Hstep.
    + apply IH, Hstep.
Qed.

(** C8.  The camera is never used while it is off.  While the SDK is
    missing or [camOn] is false, [getOneImage], [getOneImageV2],
    [printCameraInfo] and [cameraOff] return the window unchanged, the
    record of SDK calls included.  [cameraOn] does nothing unless the SDK
    is there and [camOn] is false; then it initialises the camera and sets
    [camOn].  [cameraOff], when it acts, calls [exit] and clears [camOn].
    For every session of camera actions from the initial window the
    record of SDK calls is sound: the camera is initialised only while
    off, every capture happens between an [init] and the next [exit], and
    [camOn] says whether the camera is on. *)
Theorem camera_guarded (s : MainWindow2) (r : CaptureReply)
    (actions : list CameraAction) :
  (ueyeOK && camOn s = false ->
   getOneImage ueyeOK s r = (s, None)
   /\ getOneImageV2 ueyeOK s r = (s, None)
   /\ printCameraInfo ueyeOK s = s
   /\ cameraOff ueyeOK s = s)
  /\ (ueyeOK && negb (camOn s) = false -> cameraOn ueyeOK s = s)
  /\ (ueyeOK && negb (camOn s) = true ->
      camOn (cameraOn ueyeOK s) = true
      /\ sdk (cameraOn ueyeOK s)
         = sdk s
           ++ [CamInit; CamSetColormode; CamSetAoi 0 0 720 1280; CamAlloc 3])
  /\ (ueyeOK && camOn s = true ->
      camOn (cameraOff ueyeOK s) = false
      /\ sdk (cameraOff ueyeOK s) = sdk s ++ [CamExit])
  /\ (sdk_sound false (sdk (fst (run ueyeOK (initial2 ueyeOK) actions))) = true
      /\ sdk_on false (sdk (fst (run ueyeOK (initial2 ueyeOK) actions)))
         = camOn (fst (run ueyeOK (initial2 ueyeOK) actions))).
Proof.
  split; [ | split; [ | split; [ | split ] ] ].
  - intros Hg.
    unfold getOneImage, getOneImageV2, printCameraInfo, cameraOff.
    rewrite Hg. cbn [negb]. repeat split.
  - intros Hg. unfold cameraOn. rewrite Hg. reflexivity.
  - apply cameraOn_starts.
  - apply cameraOff_stops.
  - apply run_keeps_inv. split; reflexivity.
Qed.

End CameraProofs.

Lemma camera_guarded_witness :
  @getOneImage true Reference.RefLibs (@initial2 true)
    (mkCaptureReply true (mkArr [1%nat; 2%nat; 3%nat] [1; 2; 3; 4; 5; 6]))
  = (@initial2 true, None)
  /\ camOn (cameraOn true (@initial2 true)) = true
  /\ camOn (cameraOff true (cameraOn true (@initial2 true))) = false
  /\ sdk_sound false
       (sdk
          (fst
             (@run true Reference.RefLibs (@initial2 true)
                [DoGetOneImage
                   (mkCaptureReply true
                      (mkArr [1%nat; 2%nat; 3%nat] [1; 2; 3; 4; 5; 6]));
                 DoCameraOn;
                 DoGetOneImageV2
                   (mkCaptureReply true
                      (mkArr [1%nat; 2%nat; 3%nat] [1; 2; 3; 4; 5; 6]));
                 DoCameraOff; DoPrintCameraInfo])))
     = true.
Proof.
  split; [ | split; [ | split ] ].
  - apply (proj1 (@camera_guarded true Reference.RefLibs (@initial2 true)
                    (mkCaptureReply true
                       (mkArr [1%nat; 2%nat; 3%nat] [1; 2; 3; 4; 5; 6]))
                    [])).
    reflexivity.
  - apply (proj1 (proj2 (proj2
             (@camera_guarded true Reference.RefLibs (@initial2 true)
                (mkCaptureReply true empty_array) [])))).
    reflexivity.
  - apply (proj1 (proj2 (proj2 (proj2
             (@camera_guarded true Reference.RefLibs
                (cameraOn true (@initial2 true))
                (mkCaptureReply true empty_array) []))))).
    reflexivity.
  - apply (proj2 (proj2 (proj2 (proj2
             (@camera_guarded true Reference.RefLibs (@initial2 true)
                (mkCaptureReply true empty_array) _))))).
Defined.

(** ** More on the black frame *)

Lemma count_black_from (bright : nat -> result bool) (idxs : list nat)
    (acc n : nat) :
  count_black bright idxs acc = Ok n ->
  (acc <= n)%nat /\ black_run bright idxs (n - acc).
Proof.
  revert acc; induction idxs as [| i idxs IH]; intros acc; cbn.
  - intros E; injection E as <-. split; [ lia | ].
    rewrite Nat.sub_diag. split; [ cbn; lia | ]. split; intros; cbn in *; lia.
  - destruct (bright i) as [[|] | e] eqn:Hb; cbn; try discriminate.
    + intros E; injection E as <-. split; [ lia | ].
      rewrite Nat.sub_diag. split; [ cbn; lia | ].
      split; [ intros; lia | intros _; exact Hb ].
    + intros E. destruct (IH _ E) as (Hle & Hlen & Hblack & Hstop).
      split; [ lia | ].
      replace (n - acc)%nat with (S (n - S acc)) by lia.
      split; [ cbn; lia | ]. split.
      * intros [| j] Hj; cbn; [ exact Hb | apply Hblack; lia ].
      * intros Hn. cbn. apply Hstop. cbn in Hn. lia.
Qed.

Lemma count_black_from_zero (bright : nat -> result bool)
    (idxs : list nat) (n : nat) :
  count_black bright idxs 0 = Ok n -> black_run bright idxs n.
Proof.
  intros E. destruct (count_black_from bright idxs 0 n E) as (_ & H).
  rewrite Nat.sub_0_r in H. exact H.
Qed.

(** X1.  The loop of the special case counts the leading run of black
    entries: a result [n] means that the first [n] indices are black and
    that index [n], if there is one, is bright. *)
Theorem count_black_counts_run (bright : nat -> result bool)
    (idxs : list nat) (n : nat) :
  count_black bright idxs 0 = Ok n -> black_run bright idxs n.
Proof. apply count_black_from_zero. Qed.

Lemma count_black_counts_run_witness :
  black_run (fun c => bright_gray (column_all (mkArr [1; 3]%nat [0; 0; 7]) c))
    [0; 1; 2]%nat 2.
Proof.
  apply (count_black_counts_run
           (fun c => bright_gray (column_all (mkArr [1; 3]%nat [0; 0; 7]) c))
           [0; 1; 2]%nat 2).
  reflexivity.
Defined.

Lemma nth_rev_seq (n i : nat) :
  (i < n)%nat -> nth i (rev (seq 0 n)) 0%nat = (n - 1 - i)%nat.
Proof.
  intros Hi. rewrite rev_nth by (rewrite length_seq; exact Hi).
  rewrite length_seq, seq_nth by lia. lia.
Qed.

(** The two counts over the same indices, from the left and from the
    right: both are the whole length (all black), or they do not meet. *)
Lemma two_sided_counts (bright : nat -> result bool) (n l r : nat) :
  black_run bright (seq 0 n) l -> black_run bright (rev (seq 0 n)) r ->
  (l = n /\ r = n) \/ (l + r < n)%nat.
Proof.
  intros (Hl & Hlb & Hls) (Hr & Hrb & Hrs).
  rewrite length_rev in Hr, Hrs. rewrite length_seq in *.
  destruct (Nat.eq_dec l n) as [-> | Hln].
  - left. split; [ reflexivity | ].
    destruct (Nat.eq_dec r n) as [-> | Hrn]; [ reflexivity | exfalso ].
    assert (Hr' : (r < n)%nat) by lia.
    specialize (Hrs Hr'). rewrite nth_rev_seq in Hrs by exact Hr'.
    specialize (Hlb (n - 1 - r)%nat). rewrite seq_nth in Hlb by lia.
    cbn in Hlb. rewrite Hlb in Hrs by lia. discriminate.
  - right. assert (Hl' : (l < n)%nat) by lia.
    specialize (Hls Hl'). rewrite seq_nth in Hls by exact Hl'. cbn in Hls.
    destruct (Nat.lt_ge_cases (l + r) n) as [H | H]; [ exact H | exfalso ].
    specialize (Hrb (n - 1 - l)%nat).
    rewrite nth_rev_seq in Hrb by lia.
    replace (n - 1 - (n - 1 - l))%nat with l in Hrb by lia.
    rewrite Hrb in Hls by lia. discriminate.
Qed.

Lemma black_frame_runs (A : ndarray) (left_ right_ top_ bottom_ : nat) :
  black_frame A = Ok (left_, right_, top_, bottom_) ->
  black_run (bright_column A) (seq 0 (cols A)) left_
  /\ black_run (bright_column A) (rev (seq 0 (cols A))) right_
  /\ black_run (bright_row A) (seq 0 (rows A)) top_
  /\ black_run (bright_row A) (rev (seq 0 (rows A))) bottom_.
Proof.
  unfold black_frame, bright_column, bright_row.
  destruct (is_color A).
  - destruct (count_black _ (seq 0 (cols A)) 0) as [l |] eqn:El;
      [ | discriminate ]; cbn [bind].
    destruct (count_black _ (rev (seq 0 (cols A))) 0) as [r |] eqn:Er;
      [ | discriminate ]; cbn [bind].
    destruct (count_black _ (seq 0 (rows A)) 0) as [t |] eqn:Et;
      [ | discriminate ]; cbn [bind].
    destruct (count_black _ (rev (seq 0 (rows A))) 0) as [b |] eqn:Eb;
      [ | discriminate ]; cbn [bind].
    intros E; injection E as <- <- <- <-.
    auto using count_black_from_zero.
  - unfold shape_at, cols, rows.
    destruct (nth_error (shape A) 1) as [n1 |] eqn:E1; [ | discriminate ].
    cbn [bind].
    destruct (count_black _ (seq 0 n1) 0) as [l |] eqn:El;
      [ | discriminate ]; cbn [bind].
    destruct (count_black _ (rev (seq 0 n1)) 0) as [r |] eqn:Er;
      [ | discriminate ]; cbn [bind].
    destruct (nth_error (shape A) 0) as [n0 |] eqn:E0; [ | discriminate ].
    cbn [bind].
    destruct (count_black _ (seq 0 n0) 0) as [t |] eqn:Et;
      [ | discriminate ]; cbn [bind].
    destruct (count_black _ (rev (seq 0 n0)) 0) as [b |] eqn:Eb;
      [ | discriminate ]; cbn [bind].
    intros E; injection E as <- <- <- <-.
    rewrite (nth_error_nth _ _ 0%nat E1), (nth_error_nth _ _ 0%nat E0).
    auto using count_black_from_zero.
Qed.

(** X2.  What [cropEnd] finds as the black frame: [left] and [right] are
    the runs of black columns at the two sides and [top] and [bottom] the
    runs of black rows.  Either every column is black (both counts are the
    number of columns) or the two runs do not meet, so the width
    [columns - left - right] is positive exactly when some column is not
    black; the same holds for the rows. *)
Theorem black_frame_finds_margins (A : ndarray)
    (left_ right_ top_ bottom_ : nat) :
  black_frame A = Ok (left_, right_, top_, bottom_) ->
  (black_run (bright_column A) (seq 0 (cols A)) left_
   /\ black_run (bright_column A) (rev (seq 0 (cols A))) right_
   /\ black_run (bright_row A) (seq 0 (rows A)) top_
   /\ black_run (bright_row A) (rev (seq 0 (rows A))) bottom_)
  /\ ((left_ = cols A /\ right_ = cols A) \/ (left_ + right_ < cols A)%nat)
  /\ ((top_ = rows A /\ bottom_ = rows A) \/ (top_ + bottom_ < rows A)%nat).
Proof.
  intros E. pose proof (black_frame_runs A _ _ _ _ E) as H.
  split; [ exact H | ]. destruct H as (Hl & Hr & Ht & Hb).
  split; eapply two_sided_counts; eassumption.
Qed.

Lemma black_frame_finds_margins_witness :
  black_run (bright_column (mkArr [2%nat; 3%nat] [0; 5; 0; 0; 0; 9]))
    (seq 0 3) 1
  /\ Nat.lt (1 + 0)%nat (cols (mkArr [2%nat; 3%nat] [0; 5; 0; 0; 0; 9])).
Proof.
  destruct (black_frame_finds_margins
              (mkArr [2%nat; 3%nat] [0; 5; 0; 0; 0; 9]) 1 0 0 0)
    as ((Hl & _) & [(H & _) | H] & _).
  - reflexivity.
  - discriminate H.
  - split; [ exact Hl | exact H ].
Defined.

Section SmallCrop.

Context `{L : Libs}.

Lemma small_rectangle (r : QRect) :
  rect_width r <= 5 \/ rect_height r <= 5 ->
  (5 <? rect_width r) && (5 <? rect_height r) = false.
Proof.
  intros [H | H]; apply Z.ltb_ge in H; rewrite H;
    [ reflexivity | apply andb_false_r ].
Qed.

(** X3.  The special case of [cropEnd] (crop active, a rubber band that is
    at most 5 wide or at most 5 high) with the frame
    [(left, right, top, bottom)]: when no side has a black run, or the
    runs cover all columns or all rows, only [cropActive] is cleared and
    the menu refreshed; otherwise the array
    [A[top:top+w, left:left+w]] with [w = columns - left - right] is
    committed, it is [w] wide and [min(w, rows - top)] high, and
    [prevPixmap] holds the pixmap from before. *)
Theorem small_crop_outcome (s : MainWindow) (r : QRect)
    (left_ right_ top_ bottom_ : nat) :
  cropActive s = true ->
  rect_width r <= 5 \/ rect_height r <= 5 ->
  black_frame (npImage s) = Ok (left_, right_, top_, bottom_) ->
  ((left_ + right_ + top_ + bottom_ = 0
    \/ cols (npImage s) <= left_ + right_
    \/ rows (npImage s) <= top_ + bottom_)%nat ->
   cropEnd s r = Ok (setMenuItems (set_cropActive s false)))
  /\ ((0 < left_ + right_ + top_ + bottom_)%nat ->
      (left_ + right_ < cols (npImage s))%nat ->
      (top_ + bottom_ < rows (npImage s))%nat ->
      let w := (cols (npImage s) - left_ - right_)%nat in
      exists s',
        cropEnd s r = Ok s'
        /\ committed (slice2 (npImage s) top_ (top_ + w) left_ (left_ + w))
             (pixmap s) s'
        /\ cropActive s' = false
        /\ cols (npImage s') = w
        /\ rows (npImage s') = Nat.min w (rows (npImage s) - top_)).
Proof.
  intros Hc Hsmall Hf. split.
  - intros Hno. unfold cropEnd. rewrite Hc; cbn [negb]; cbv beta iota zeta.
    rewrite (small_rectangle r Hsmall).
    change (npImage (set_cropActive s false)) with (npImage s).
    rewrite Hf; cbn [bind].
    destruct (0 <? Nat.max (Nat.max left_ right_) (Nat.max top_ bottom_))%nat
      eqn:Hm; [ | reflexivity ].
    apply Nat.ltb_lt in Hm.
    replace ((Z.of_nat (cols (npImage s)) - Z.of_nat left_
              - Z.of_nat right_ <=? 0)
             || (Z.of_nat (rows (npImage s)) - Z.of_nat top_
                 - Z.of_nat bottom_ <=? 0)) with true; [ reflexivity | ].
    symmetry. apply orb_true_iff.
    destruct Hno as [H | [H | H]];
      [ lia | left; apply Z.leb_le; lia | right; apply Z.leb_le; lia ].
  - intros Hsome Hw Hh w. unfold cropEnd.
    rewrite Hc; cbn [negb]; cbv beta iota zeta.
    rewrite (small_rectangle r Hsmall).
    change (npImage (set_cropActive s false)) with (npImage s).
    rewrite Hf; cbn [bind].
    replace (0 <? Nat.max (Nat.max left_ right_) (Nat.max top_ bottom_))%nat
      with true by (symmetry; apply Nat.ltb_lt; lia).
    replace ((Z.of_nat (cols (npImage s)) - Z.of_nat left_
              - Z.of_nat right_ <=? 0)
             || (Z.of_nat (rows (npImage s)) - Z.of_nat top_
                 - Z.of_nat bottom_ <=? 0)) with false
      by (symmetry; apply orb_false_intro; apply Z.leb_gt; lia).
    replace (Z.to_nat (Z.of_nat (cols (npImage s)) - Z.of_nat left_
                       - Z.of_nat right_)) with w by (unfold w; lia).
    eexists. split; [ reflexivity | ].
    destruct (slice2_size (npImage s) top_ left_ w) as (Hr & Hcl).
    set (B := slice2 (npImage s) top_ (top_ + w) left_ (left_ + w)) in *.
    clearbody B.
    name_conversions. unfold committed. cbn in *.
    destruct HP as (Hi & Hp & Hn & Hq & Ha).
    rewrite Hi, Hp, Hn, Hq, Ha, Hr, Hcl.
    repeat split; try (unfold w; lia).
    intros Hv. rewrite Hv. reflexivity.
Qed.

(** X4.  The special case of [cropEnd] raises on arrays that are not
    pictures: [IndexError] (from [A.shape[1]]) when the array has fewer
    than two axes, as the empty array [np.array([])] has, and
    [ValueError] (from [.max()] of an empty slice) when a two-axis array
    has columns but no row. *)
Theorem small_crop_raises (s : MainWindow) (r : QRect) :
  cropActive s = true ->
  rect_width r <= 5 \/ rect_height r <= 5 ->
  ((ndim (npImage s) < 2)%nat -> cropEnd s r = Raise IndexError)
  /\ (ndim (npImage s) = 2%nat -> rows (npImage s) = 0%nat ->
      (0 < cols (npImage s))%nat -> cropEnd s r = Raise ValueError).
Proof.
  intros Hc Hsmall. split.
  - intros Hd. unfold cropEnd. rewrite Hc; cbn [negb]; cbv beta iota zeta.
    rewrite (small_rectangle r Hsmall).
    change (npImage (set_cropActive s false)) with (npImage s).
    unfold black_frame, is_color, shape_at.
    replace (ndim (npImage s) =? 3)%nat with false
      by (symmetry; apply Nat.eqb_neq; lia).
    cbn [andb].
    replace (nth_error (shape (npImage s)) 1) with (@None nat)
      by (symmetry; apply nth_error_None; unfold ndim in Hd; lia).
    reflexivity.
  - intros Hd Hr Hcl. unfold cropEnd.
    rewrite Hc; cbn [negb]; cbv beta iota zeta.
    rewrite (small_rectangle r Hsmall).
    change (npImage (set_cropActive s false)) with (npImage s).
    unfold black_frame, is_color, shape_at. rewrite Hd. cbn [Nat.eqb andb].
    unfold ndim, cols, rows in *.
    destruct (shape (npImage s)) as [| n0 [| n1 [| n2 sh]]] eqn:Hsh;
      try discriminate Hd.
    cbn in Hr, Hcl. subst n0. cbn [nth_error bind].
    destruct n1 as [| n1]; [ lia | ].
    cbn [seq count_black]. unfold bright_gray, column_all, rows.
    rewrite Hsh. cbn [nth seq flat_map amax bind]. reflexivity.
Qed.

End SmallCrop.

Lemma small_crop_outcome_witness :
  exists s',
    @cropEnd Reference.RefLibs
      (cropStart (Reference.opened Reference.framed_pixmap)) (mkRect 3 3 2 9)
    = Ok s'
    /\ cols (npImage s') = 2%nat /\ rows (npImage s') = 2%nat
    /\ prevPixmap s' = Reference.framed_pixmap.
Proof.
  assert (Hsmall : rect_width (mkRect 3 3 2 9) <= 5
                   \/ rect_height (mkRect 3 3 2 9) <= 5)
    by (left; cbn; lia).
  destruct (proj2 (@small_crop_outcome Reference.RefLibs
                     (cropStart (Reference.opened Reference.framed_pixmap))
                     (mkRect 3 3 2 9) 0 0 1 0 eq_refl Hsmall eq_refl))
    as (s' & Hs & Hk & _ & Hc & Hr); try (vm_compute; lia).
  exists s'. split; [ exact Hs | ]. split; [ exact Hc | ].
  split; [ exact Hr | ]. apply Hk.
Defined.

Lemma small_crop_raises_witness :
  @cropEnd Reference.RefLibs (cropStart initial) (mkRect 0 0 0 0)
  = Raise IndexError.
Proof.
  assert (Hsmall : rect_width (mkRect 0 0 0 0) <= 5
                   \/ rect_height (mkRect 0 0 0 0) <= 5)
    by (left; cbn; lia).
  apply (proj1 (@small_crop_raises Reference.RefLibs (cropStart initial)
                  (mkRect 0 0 0 0) eq_refl Hsmall)).
  vm_compute. lia.
Defined.

(** ** Gray conversion, undo and zoom *)

Section MoreEdits.

Context `{L : Libs}.

(** X5.  [toGray] on an array with three axes and five or more channels
    raises [UnboundLocalError]: a conversion is chosen only for 3 and for
    4 channels, so [B] is unbound when [np2image2pixmap] is to be called.
    On an array that is no colour array (not three axes, or fewer than 3
    channels) no library is called: [toGray] returns after
    [setMenuItems], with pixmap, image, array and undo slot as they
    were. *)
Theorem toGray_unbound (s : MainWindow) :
  (ndim (npImage s) = 3%nat -> (5 <= nth 2 (shape (npImage s)) 0)%nat ->
   toGray s = Raise UnboundLocalError)
  /\ (ndim (npImage s) <> 3%nat \/ (nth 2 (shape (npImage s)) 0 < 3)%nat ->
      toGray s = Ok (setMenuItems s) /\ same_images s (setMenuItems s)).
Proof.
  unfold toGray, is_color. split.
  - intros Hd Hc. rewrite Hd. cbn [Nat.eqb andb].
    replace (3 <=? nth 2 (shape (npImage s)) 0)%nat with true
      by (symmetry; apply Nat.leb_le; lia).
    cbv beta iota zeta. cbn [npImage set_prevPixmap].
    replace (nth 2 (shape (npImage s)) 0 =? 4)%nat with false
      by (symmetry; apply Nat.eqb_neq; lia).
    replace (nth 2 (shape (npImage s)) 0 =? 3)%nat with false
      by (symmetry; apply Nat.eqb_neq; lia).
    reflexivity.
  - intros [Hd | Hc].
    + apply Nat.eqb_neq in Hd. rewrite Hd. repeat split.
    + apply Nat.leb_gt in Hc. rewrite Hc, andb_false_r. repeat split.
Qed.

Lemma valid_pixmap (p : QPixmap) :
  pm_isNull p = false -> 0 < pm_width p /\ 0 < pm_height p.
Proof.
  unfold pm_isNull. intros H. apply orb_false_elim in H.
  destruct H as (Hw & Hh). apply Z.leb_gt in Hw, Hh. auto.
Qed.

(** Undo after a window [s'] whose undo slot holds the valid pixmap
    [p]. *)
Lemma undo_restores (s' : MainWindow) (p : QPixmap) :
  prevPixmap s' = p -> pm_isNull p = false ->
  pixmap (undoLast s') = p
  /\ prevPixmap (undoLast s') = pixmap s'
  /\ image (undoLast s') = toImage p
  /\ npImage (undoLast s') = array_of (toImage p).
Proof.
  intros Hq Hv. destruct (valid_pixmap p Hv) as (Hw & Hh).
  rewrite <- Hq in Hw, Hh.
  destruct (undoLast_valid s' Hw Hh) as (H1 & H2 & H3 & H4).
  rewrite Hq in *. auto.
Qed.

(** X6.  Undo after an edit brings the picture from before the edit back.
    For a window with a valid pixmap, after [toGray] of a colour array,
    [cropEnd] with a large rectangle, or an accepted [toEdges],
    [filterImage], [toBinary] or [resizeImage], [undoLast] makes the
    pixmap the one from before the edit and reads image and array from
    it; the undo slot then holds the edited pixmap, so a second undo
    shows the edit again. *)
Theorem undo_after_edit (s : MainWindow) (r : QRect) (de : EdgeRun)
    (df : FilterRun) (dt : ThresholdRun) (dr : ResizeRun) :
  pm_isNull (pixmap s) = false ->
  (ndim (npImage s) = 3%nat ->
   (nth 2 (shape (npImage s)) 0 = 3 \/ nth 2 (shape (npImage s)) 0 = 4)%nat ->
   exists s', toGray s = Ok s'
              /\ pixmap (undoLast s') = pixmap s
              /\ prevPixmap (undoLast s') = pixmap s'
              /\ image (undoLast s') = toImage (pixmap s)
              /\ npImage (undoLast s') = array_of (toImage (pixmap s)))
  /\ (cropActive s = true -> 5 < rect_width r -> 5 < rect_height r ->
      exists s', cropEnd s r = Ok s'
                 /\ pixmap (undoLast s') = pixmap s
                 /\ prevPixmap (undoLast s') = pixmap s'
                 /\ image (undoLast s') = toImage (pixmap s)
                 /\ npImage (undoLast s') = array_of (toImage (pixmap s)))
  /\ (edge_result de = true ->
      pixmap (undoLast (toEdges s de)) = pixmap s
      /\ prevPixmap (undoLast (toEdges s de)) = pixmap (toEdges s de)
      /\ image (undoLast (toEdges s de)) = toImage (pixmap s)
      /\ npImage (undoLast (toEdges s de)) = array_of (toImage (pixmap s)))
  /\ (filter_result df = true ->
      pixmap (undoLast (filterImage s df)) = pixmap s
      /\ prevPixmap (undoLast (filterImage s df)) = pixmap (filterImage s df)
      /\ image (undoLast (filterImage s df)) = toImage (pixmap s)
      /\ npImage (undoLast (filterImage s df))
         = array_of (toImage (pixmap s)))
  /\ (threshold_result dt = true ->
      pixmap (undoLast (toBinary s dt)) = pixmap s
      /\ prevPixmap (undoLast (toBinary s dt)) = pixmap (toBinary s dt)
      /\ image (undoLast (toBinary s dt)) = toImage (pixmap s)
      /\ npImage (undoLast (toBinary s dt)) = array_of (toImage (pixmap s)))
  /\ (resize_result dr = true ->
      pixmap (undoLast (resizeImage s dr)) = pixmap s
      /\ prevPixmap (undoLast (resizeImage s dr)) = pixmap (resizeImage s dr)
      /\ image (undoLast (resizeImage s dr)) = toImage (pixmap s)
      /\ npImage (undoLast (resizeImage s dr))
         = array_of (toImage (pixmap s))).
Proof.
  intros Hv.
  split; [ | split; [ | split; [ | split; [ | split ] ] ] ].
  - intros Hd Hc.
    destruct (toGray_commits s Hd Hc) as (s' & Hs & _ & _ & _ & Hq).
    exists s'. split; [ exact Hs | ]. apply undo_restores; assumption.
  - intros Hc Hw Hh.
    destruct (cropEnd_large s r Hc Hw Hh) as (s' & Hs & _ & Hq & _).
    exists s'. split; [ exact Hs | ]. apply undo_restores; assumption.
  - intros Ha. apply undo_restores; [ | exact Hv ].
    apply (toEdges_accepted s de Ha).
  - intros Ha. apply undo_restores; [ | exact Hv ].
    apply (filterImage_accepted s df Ha).
  - intros Ha. apply undo_restores; [ | exact Hv ].
    apply (toBinary_accepted s dt Ha).
  - intros Ha. apply undo_restores; [ | exact Hv ].
    apply (resizeImage_accepted s dr Ha).
Qed.

(** X7.  With a valid pixmap in both slots, two undos in a row put both
    pixmaps back where they were; image and array are then the ones
    [pixmap2image2np] reads from the pixmap. *)
Theorem undo_twice (s : MainWindow) :
  pm_isNull (pixmap s) = false -> pm_isNull (prevPixmap s) = false ->
  pixmap (undoLast (undoLast s)) = pixmap s
  /\ prevPixmap (undoLast (undoLast s)) = prevPixmap s
  /\ read_from_pixmap (undoLast (undoLast s)).
Proof.
  intros Hv Hq. destruct (valid_pixmap _ Hq) as (Hw & Hh).
  destruct (undoLast_valid s Hw Hh) as (H1 & H2 & _).
  destruct (undo_restores (undoLast s) (pixmap s) H2 Hv)
    as (G1 & G2 & G3 & G4).
  unfold read_from_pixmap. rewrite G1, G2, G3, G4, H1. auto.
Qed.

End MoreEdits.

Lemma toGray_unbound_witness :
  @toGray Reference.RefLibs
    (set_npImage initial (mkArr [1; 1; 5]%nat [1; 2; 3; 4; 5]))
  = Raise UnboundLocalError
  /\ @toGray Reference.RefLibs Reference.grayed
     = Ok (setMenuItems Reference.grayed).
Proof.
  split.
  - apply (proj1 (@toGray_unbound Reference.RefLibs
                    (set_npImage initial
                       (mkArr [1; 1; 5]%nat [1; 2; 3; 4; 5])))).
    + reflexivity.
    + cbn. lia.
  - apply (proj2 (@toGray_unbound Reference.RefLibs Reference.grayed)).
    left. vm_compute. discriminate.
Defined.

Lemma undo_after_edit_witness :
  pixmap
    (@undoLast Reference.RefLibs
       (@toBinary Reference.RefLibs (Reference.opened Reference.ramp_pixmap)
          (mkThresholdRun [90] 100 true)))
  = Reference.ramp_pixmap.
Proof.
  refine (proj1 (proj1 (proj2 (proj2 (proj2 (proj2
    (@undo_after_edit Reference.RefLibs
       (Reference.opened Reference.ramp_pixmap) (mkRect 0 0 8 8)
       (mkEdgeRun [] (3, 1) true)
       (@mkFilterRun Reference.RefLibs [] ([1], 1) true)
       (mkThresholdRun [90] 100 true) (mkResizeRun (4, 4) true) _))))) _));
    reflexivity.
Defined.

Lemma undo_twice_witness :
  pixmap (@undoLast Reference.RefLibs
            (@undoLast Reference.RefLibs Reference.grayed))
  = pixmap Reference.grayed.
Proof.
  apply (@undo_twice Reference.RefLibs Reference.grayed); reflexivity.
Defined.

(** ** What every action keeps *)

Section Sessions.

Context `{L : Libs}.

(** The two conversions leave image, gray flag and menu in order whatever
    the window was, and touch neither the crop flag nor the rubber
    band. *)
Lemma np2image2pixmap_display (s : MainWindow) (B : ndarray) (also : bool) :
  image_fits (np2image2pixmap s B also)
  /\ gray_current (np2image2pixmap s B also)
  /\ menu_current (np2image2pixmap s B also)
  /\ rubberBandActive (np2image2pixmap s B also) = rubberBandActive s
  /\ cropActive (np2image2pixmap s B also) = cropActive s
  /\ prevPixmap (np2image2pixmap s B also) = prevPixmap s.
Proof.
  unfold image_fits, gray_current, menu_current, np2image2pixmap.
  by_cases; repeat split; auto; try discriminate;
    intros Hn; rewrite Hn in *; discriminate.
Qed.

Lemma pixmap2image2np_display (s : MainWindow) :
  image_fits (pixmap2image2np s)
  /\ gray_current (pixmap2image2np s)
  /\ menu_current (pixmap2image2np s)
  /\ rubberBandActive (pixmap2image2np s) = rubberBandActive s
  /\ cropActive (pixmap2image2np s) = cropActive s
  /\ prevPixmap (pixmap2image2np s) = prevPixmap s.
Proof.
  unfold image_fits, gray_current, menu_current, pixmap2image2np, scaleOne.
  by_cases; repeat split; auto; try discriminate;
    try (intros Hn; rewrite Hn in *; discriminate).
Qed.

Ltac name_display :=
  repeat match goal with
    | |- context [pixmap2image2np ?x] =>
        let P := fresh "P" in
        let HP := fresh "HP" in
        pose proof (pixmap2image2np_display x) as HP;
        set (P := pixmap2image2np x) in *; clearbody P
    | |- context [np2image2pixmap ?x ?B ?b] =>
        let P := fresh "P" in
        let HP := fresh "HP" in
        pose proof (np2image2pixmap_display x B b) as HP;
        set (P := np2image2pixmap x B b) in *; clearbody P
    end.

Ltac name_previews :=
  match goal with
  | |- context [fold_left ?f ?l ?x] =>
      let s2 := fresh "s2" in
      let Hf := fresh "Hf" in
      first [ pose proof (edge_previews_frame l x) as Hf
            | pose proof (filter_previews_frame l x) as Hf
            | pose proof (threshold_previews_frame l x) as Hf ];
      set (s2 := fold_left f l x) in *; clearbody s2;
      unfold preview_frame in Hf
  end.

Ltac ok_now :=
  unfold window_ok, image_fits, gray_current, menu_current in *;
  cbn in *; intuition (try congruence).

Lemma setMenuItems_keeps (s : MainWindow) :
  window_ok s -> window_ok (setMenuItems s).
Proof. intros Hs. ok_now. Qed.

Lemma scale_keeps (s : MainWindow) :
  window_ok s ->
  window_ok (scaleOne s) /\ window_ok (scaleUp s) /\ window_ok (scaleDown s).
Proof.
  intros Hs. unfold scaleOne, scaleUp, scaleDown.
  destruct (negb (pm_isNull (pixmap s))); ok_now.
Qed.

Lemma cropStart_keeps (s : MainWindow) :
  window_ok s -> window_ok (cropStart s).
Proof. intros Hs. unfold cropStart. ok_now. Qed.

Lemma removePixmapItem_keeps (s : MainWindow) :
  window_ok s -> window_ok (removePixmapItem s).
Proof.
  intros Hs. unfold removePixmapItem. destruct (curItem s); ok_now.
Qed.

Lemma openFile_keeps (s : MainWindow) (same_object : bool)
    (fName : String.string) (loaded : QPixmap) :
  window_ok s ->
  window_ok (opened_window (openFile s same_object fName loaded)).
Proof.
  intros Hs. pose proof (removePixmapItem_keeps s Hs) as Hr.
  unfold openFile. destruct (String.eqb fName String.EmptyString).
  - cbn [opened_window]. apply setMenuItems_keeps, Hs.
  - cbv beta iota zeta.
    set (s1 := removePixmapItem s) in *. clearbody s1.
    destruct (match curItem s with Some _ => true | None => same_object end);
      cbn [pixmap set_pixmap set_prevPixmap];
      destruct (pm_isNull loaded) eqn:Hn; cbn [opened_window];
      try (name_display; ok_now); ok_now.
Qed.

Lemma resizeImage_keeps (s : MainWindow) (d : ResizeRun) :
  window_ok s -> window_ok (resizeImage s d).
Proof.
  intros Hs. destruct (resize_result d) eqn:Ha.
  - unfold resizeImage; cbv beta iota zeta.
    destruct (resize_values d) as [newWidth newHight]. rewrite Ha.
    name_display. ok_now.
  - rewrite (resizeImage_cancelled s d Ha). apply setMenuItems_keeps, Hs.
Qed.

Lemma toGray_keeps (s s' : MainWindow) :
  window_ok s -> toGray s = Ok s' -> window_ok s'.
Proof.
  intros Hs. unfold toGray. destruct (is_color (npImage s)).
  - cbv beta iota zeta. cbn [npImage set_prevPixmap].
    destruct (nth 2 (shape (npImage s)) 0 =? 4)%nat;
      [ | destruct (nth 2 (shape (npImage s)) 0 =? 3)%nat ];
      cbn [bind]; intros E; try discriminate E;
      injection E as <-; name_display; ok_now.
  - intros E; injection E as <-. apply setMenuItems_keeps, Hs.
Qed.

Lemma toEdges_keeps (s : MainWindow) (d : EdgeRun) :
  window_ok s -> window_ok (toEdges s d).
Proof.
  intros Hs. unfold toEdges; cbv beta iota zeta.
  destruct (edge_values d) as [valK valS]. name_previews.
  destruct (edge_result d); name_display; ok_now.
Qed.

Lemma filterImage_keeps (s : MainWindow) (d : FilterRun) :
  window_ok s -> window_ok (filterImage s d).
Proof.
  intros Hs. unfold filterImage; cbv beta iota zeta.
  destruct (filter_values d) as [h valS]. name_previews.
  destruct (filter_result d); name_display; ok_now.
Qed.

Lemma toBinary_keeps (s : MainWindow) (d : ThresholdRun) :
  window_ok s -> window_ok (toBinary s d).
Proof.
  intros Hs. unfold toBinary; cbv beta iota zeta. name_previews.
  destruct (threshold_result d); name_display; ok_now.
Qed.

Lemma undoLast_keeps (s : MainWindow) :
  window_ok s -> window_ok (undoLast s).
Proof.
  intros Hs. unfold undoLast; cbv beta iota zeta.
  destruct ((0 <? pm_width (prevPixmap s)) && (0 <? pm_height (prevPixmap s))).
  - name_display. ok_now.
  - apply setMenuItems_keeps, Hs.
Qed.

Lemma detectCornersHarris_keeps (s : MainWindow) :
  window_ok s -> window_ok (detectCornersHarris s).
Proof.
  intros Hs.
  destruct (detect_try_cases s) as [(_ & A & E) | (e & _ & [E | (A & E)])];
    rewrite E; clear E.
  - name_display. ok_now.
  - exact Hs.
  - ok_now.
Qed.

Lemma drawlines_keeps (s s' : MainWindow) :
  window_ok s -> drawlines s = Ok s' -> window_ok s'.
Proof.
  intros Hs E. pose proof (drawlines_cases s) as C.
  destruct (lines_array (npImage s)) as [B | e]; rewrite C in E;
    [ | discriminate E ].
  injection E as <-. name_display. ok_now.
Qed.

Lemma cropEnd_keeps (s s' : MainWindow) (r : QRect) :
  image_fits s -> gray_current s ->
  cropActive s = true -> rubberBandActive s = false ->
  cropEnd s r = Ok s' -> window_ok s'.
Proof.
  intros Hfit Hgray Hc Hb. unfold cropEnd.
  rewrite Hc; cbn [negb]; cbv beta iota zeta.
  destruct ((5 <? rect_width r) && (5 <? rect_height r)).
  - intros E; injection E as <-. name_display. ok_now.
  - change (npImage (set_cropActive s false)) with (npImage s).
    destruct (black_frame (npImage s)) as [[[[l r'] t] b] | e];
      cbn [bind]; [ | discriminate ].
    destruct (0 <? Nat.max (Nat.max l r') (Nat.max t b))%nat;
      [ destruct ((Z.of_nat (cols (npImage s)) - Z.of_nat l - Z.of_nat r'
                   <=? 0)
                  || (Z.of_nat (rows (npImage s)) - Z.of_nat t - Z.of_nat b
                      <=? 0)) | ];
      intros E; injection E as <-; try (name_display; ok_now); ok_now.
Qed.

Lemma mouseReleaseEvent_keeps (s s' : MainWindow) (leftButton : bool)
    (r : QRect) :
  window_ok s -> mouseReleaseEvent s leftButton r = Ok s' -> window_ok s'.
Proof.
  intros Hs. unfold mouseReleaseEvent.
  destruct (leftButton && rubberBandActive s) eqn:Hg.
  - apply andb_true_iff in Hg. destruct Hg as (_ & Hb).
    destruct Hs as (Hfit & Hgray & _ & Hrc).
    apply cropEnd_keeps; try assumption; cbn; congruence.
  - intros E; injection E as <-. exact Hs.
Qed.

Lemma perform_keeps (s s' : MainWindow) (a : Action) :
  window_ok s -> perform s a = Ok s' -> window_ok s'.
Proof.
  intros Hs. unfold perform.
  destruct (negb (enabled s a)); [ intros E; injection E as <-; exact Hs | ].
  destruct (library_error s a); [ discriminate | ].
  destruct (scale_keeps s Hs) as (H1 & H2 & H3).
  destruct a; intros E;
    try (injection E as <-);
    eauto using openFile_keeps, removePixmapItem_keeps, cropStart_keeps,
      mouseReleaseEvent_keeps, resizeImage_keeps, toGray_keeps,
      toEdges_keeps, filterImage_keeps, toBinary_keeps, undoLast_keeps,
      detectCornersHarris_keeps, drawlines_keeps.
Qed.

Lemma initial_ok : window_ok initial.
Proof. ok_now. Qed.

(** X8.  Every session of user actions from the initial window that does
    not raise, in a method or in a library call, ends in a window in
    order (an action whose menu item is disabled does nothing): a valid
    image is as large as the pixmap unless the pixmap is null,
    [isAllGray] is [allGray()] of the image, the menu items are enabled
    as [setMenuItems] would enable them, and the rubber band is active
    exactly while a crop is.  So the
    pixel the mouse read-out asks the image for (a position inside the
    pixmap) lies inside the image, and "to Gray" is never enabled
    together with "to Edges", "Filter image" or "to Binary". *)
Theorem session_keeps_order (actions : list Action) (s' : MainWindow) :
  session initial actions = Ok s' ->
  window_ok s'
  /\ (forall x y,
        0 <= x < pm_width (pixmap s') -> 0 <= y < pm_height (pixmap s') ->
        img_isNull (image s') = false ->
        0 <= x < img_width (image s') /\ 0 <= y < img_height (image s'))
  /\ (qaToGray (menu s') = true ->
      qaToEdges (menu s') = false /\ qaFilter (menu s') = false
      /\ qaToBinary (menu s') = false).
Proof.
  assert (Hgen : forall s, window_ok s -> session s actions = Ok s' ->
                           window_ok s').
  { induction actions as [| a actions IH]; intros s Hs; cbn.
    - intros E; injection E as <-. exact Hs.
    - destruct (perform s a) as [s1 | e] eqn:Hp; cbn [bind];
        [ | discriminate ].
      apply IH. exact (perform_keeps s s1 a Hs Hp). }
  intros E. pose proof (Hgen initial initial_ok E) as Hok.
  split; [ exact Hok | ]. destruct Hok as (Hfit & _ & Hmenu & _). split.
  - intros x y Hx Hy Hn. destruct (Hfit Hn) as [Hnull | (Hw & Hh)].
    + unfold pm_isNull in Hnull. apply orb_true_iff in Hnull.
      destruct Hnull as [H | H]; apply Z.leb_le in H; lia.
    + rewrite Hw, Hh. split; assumption.
  - unfold menu_current in Hmenu. rewrite Hmenu. cbn.
    destruct (isAllGray s'); rewrite ?andb_false_r, ?andb_true_r; cbn;
      [ discriminate | auto ].
Qed.

End Sessions.

Lemma session_keeps_order_witness :
  exists s',
    @session Reference.RefLibs initial
      [ActDetectCorners;
       ActOpenFile false (String.String (Ascii.ascii_of_nat 97) String.EmptyString)
         Reference.colour_pixmap;
       ActDetectCorners; ActToGray; ActCropStart;
       ActMouseRelease true (mkRect 0 0 1 1);
       ActToBinary (mkThresholdRun [90] 100 true); ActUndoLast]
    = Ok s'
    /\ window_ok s'.
Proof.
  eexists. split; [ vm_compute; reflexivity | ].
  refine (proj1 (@session_keeps_order Reference.RefLibs
                   [ActDetectCorners;
                    ActOpenFile false
                      (String.String (Ascii.ascii_of_nat 97) String.EmptyString)
                      Reference.colour_pixmap;
                    ActDetectCorners; ActToGray; ActCropStart;
                    ActMouseRelease true (mkRect 0 0 1 1);
                    ActToBinary (mkThresholdRun [90] 100 true); ActUndoLast]
                   _ _)).
  vm_compute. reflexivity.
Defined.

(** ** Opening and clearing *)

Section FileMenu.

Context `{L : Libs}.

Lemma pixmap2image2np_curItem (s : MainWindow) :
  curItem (pixmap2image2np s) = Some (pixmap s)
  /\ viewTransform (pixmap2image2np s)
     = (if pm_isNull (pixmap s) then viewTransform s else Identity).
Proof. unfold pixmap2image2np, scaleOne; by_cases; split; reflexivity. Qed.

Lemma removePixmapItem_images (s : MainWindow) :
  pixmap (removePixmapItem s) = pixmap s
  /\ image (removePixmapItem s) = image s
  /\ npImage (removePixmapItem s) = npImage s
  /\ curItem (removePixmapItem s) = None
  /\ prevPixmap (removePixmapItem s)
     = match curItem s with Some _ => pixmap s | None => prevPixmap s end.
Proof.
  unfold removePixmapItem.
  destruct (curItem s) eqn:E; cbn; auto 10.
Qed.

(** X9.  [openFile] with a file name that is not empty, when a picture is
    on the scene (or the two pixmap attributes already name one object):
    [removePixmapItem] binds [prevPixmap] to the pixmap object and
    [load] then fills that object, so afterwards [prevPixmap] is the
    newly loaded pixmap as well.  The picture shown before is not kept,
    and [undoLast] leaves the new picture in place.  When the file cannot
    be read both pixmaps are null, the title is the error message, and
    image and array still hold the old picture. *)
Theorem openFile_shares_undo_slot (s : MainWindow) (same_object : bool)
    (fName : String.string) (loaded : QPixmap) :
  String.eqb fName String.EmptyString = false ->
  curItem s <> None \/ same_object = true ->
  pixmap (opened_window (openFile s same_object fName loaded)) = loaded
  /\ prevPixmap (opened_window (openFile s same_object fName loaded)) = loaded
  /\ pixmap (undoLast (opened_window (openFile s same_object fName loaded)))
     = loaded
  /\ (pm_isNull loaded = false ->
      open_error (openFile s same_object fName loaded) = false
      /\ read_from_pixmap
           (opened_window (openFile s same_object fName loaded))
      /\ curItem (opened_window (openFile s same_object fName loaded))
         = Some loaded)
  /\ (pm_isNull loaded = true ->
      open_error (openFile s same_object fName loaded) = true
      /\ image (opened_window (openFile s same_object fName loaded))
         = image s
      /\ npImage (opened_window (openFile s same_object fName loaded))
         = npImage s
      /\ curItem (opened_window (openFile s same_object fName loaded))
         = None).
Proof.
  intros Hname Hshared.
  assert (Hso : match curItem s with Some _ => true | None => same_object end
                = true).
  { destruct (curItem s); [ reflexivity | ].
    destruct Hshared as [H | H]; [ contradiction | exact H ]. }
  destruct (removePixmapItem_images s) as (_ & Hi & Hn & Hc & _).
  assert (Hopen :
            pixmap (opened_window (openFile s same_object fName loaded))
            = loaded
            /\ prevPixmap (opened_window (openFile s same_object fName loaded))
               = loaded
            /\ (pm_isNull loaded = false ->
                open_error (openFile s same_object fName loaded) = false
                /\ read_from_pixmap
                     (opened_window (openFile s same_object fName loaded))
                /\ curItem
                     (opened_window (openFile s same_object fName loaded))
                   = Some loaded)
            /\ (pm_isNull loaded = true ->
                open_error (openFile s same_object fName loaded) = true
                /\ image (opened_window (openFile s same_object fName loaded))
                   = image s
                /\ npImage
                     (opened_window (openFile s same_object fName loaded))
                   = npImage s
                /\ curItem
                     (opened_window (openFile s same_object fName loaded))
                   = None)).
  { unfold openFile. rewrite Hname; cbv beta iota zeta. rewrite Hso.
    set (s1 := removePixmapItem s) in *. clearbody s1.
    cbn [pixmap set_pixmap set_prevPixmap].
    destruct (pm_isNull loaded) eqn:Hnull; cbn [opened_window open_error].
    - cbn. repeat split; try congruence; intros; discriminate.
    - pose proof (pixmap2image2np_curItem
                    (setWindowTitle
                       (set_prevPixmap (set_pixmap s1 loaded) loaded)
                       TitleFile)) as (Hcur & _).
      name_conversions. unfold read_from_pixmap. cbn in *.
      destruct HP as (H1 & H2 & _ & H4 & H5).
      rewrite H1, H2, H4, H5, Hcur.
      repeat split; try reflexivity; intros; discriminate. }
  destruct Hopen as (Hp & Hq & Hgood & Hbad).
  split; [ exact Hp | ]. split; [ exact Hq | ].
  split; [ | split; assumption ].
  set (s' := opened_window (openFile s same_object fName loaded)) in *.
  clearbody s'.
  destruct (pm_isNull loaded) eqn:Hnull.
  - rewrite undoLast_null by (rewrite Hq; exact Hnull). exact Hp.
  - destruct (valid_pixmap loaded Hnull) as (Hw & Hh).
    rewrite <- Hq in Hw, Hh.
    destruct (undoLast_valid s' Hw Hh) as (H1 & _). rewrite H1. exact Hq.
Qed.

(** X10.  "Clear image" takes the item off the scene and stores the
    pixmap in the undo slot, but keeps pixmap, image and array; with a
    valid pixmap "Undo last" is then enabled, and it puts the same picture
    back on the scene. *)
Theorem clear_then_undo (s : MainWindow) :
  curItem s <> None -> pm_isNull (pixmap s) = false ->
  (curItem (removePixmapItem s) = None
   /\ same_images (set_prevPixmap s (pixmap s)) (removePixmapItem s)
   /\ qaUndoLast (menu (removePixmapItem s)) = true
   /\ qaSaveFileDlg (menu (removePixmapItem s)) = false)
  /\ (curItem (undoLast (removePixmapItem s)) = Some (pixmap s)
      /\ pixmap (undoLast (removePixmapItem s)) = pixmap s
      /\ read_from_pixmap (undoLast (removePixmapItem s))).
Proof.
  intros Hcur Hv.
  assert (Hclear : removePixmapItem s
                   = setMenuItems
                       (set_status
                          (setWindowTitle
                             (clear_curItem (set_prevPixmap s (pixmap s)))
                             TitleApp)
                          StatusNoPixmap)).
  { unfold removePixmapItem. destruct (curItem s);
      [ reflexivity | contradiction ]. }
  split.
  - rewrite Hclear. unfold same_images. cbn. rewrite Hv. cbn.
    repeat split.
  - destruct (valid_pixmap _ Hv) as (Hw & Hh).
    rewrite Hclear. unfold undoLast; cbv beta iota zeta.
    cbn [prevPixmap setMenuItems set_menu set_status setWindowTitle
         clear_curItem set_prevPixmap pixmap].
    apply Z.ltb_lt in Hw, Hh. rewrite Hw, Hh. cbn [andb].
    match goal with
    | |- context [pixmap2image2np ?x] =>
        pose proof (pixmap2image2np_curItem x) as (Hc & _)
    end.
    name_conversions. unfold read_from_pixmap. cbn in *.
    destruct HP as (H1 & _ & _ & H4 & H5).
    rewrite Hc, H1, H4, H5. repeat split.
Qed.

End FileMenu.

Lemma openFile_shares_undo_slot_witness :
  prevPixmap
    (opened_window
       (@openFile Reference.RefLibs (Reference.opened Reference.colour_pixmap)
          false (String.String (Ascii.ascii_of_nat 97) String.EmptyString)
          Reference.ramp_pixmap))
  = Reference.ramp_pixmap.
Proof.
  refine (proj1 (proj2
    (@openFile_shares_undo_slot Reference.RefLibs
       (Reference.opened Reference.colour_pixmap) false
       (String.String (Ascii.ascii_of_nat 97) String.EmptyString)
       Reference.ramp_pixmap _ _))).
  - reflexivity.
  - left. vm_compute. discriminate.
Defined.

Lemma clear_then_undo_witness :
  curItem
    (@undoLast Reference.RefLibs
       (removePixmapItem (Reference.opened Reference.ramp_pixmap)))
  = Some Reference.ramp_pixmap.
Proof.
  refine (proj1 (proj2
    (@clear_then_undo Reference.RefLibs
       (Reference.opened Reference.ramp_pixmap) _ _))).
  - vm_compute. discriminate.
  - reflexivity.
Defined.

(** ** What a capture leaves *)

Section Capture.

Variable ueyeOK : bool.

Context `{L : Libs}.

(** X11.  [getOneImage] with the camera on.  It never touches the undo
    slot or the crop flag.  If [is_WaitForNextImage] fails, pixmap, image
    and array stay as they are.  If the frame is uniform (its smallest
    element equals its largest) the array becomes [np.array([])] and
    image and pixmap become null.  If the frame is not uniform, has three
    axes, at least 3 channels and at least one pixel, and [np2qimage]
    gives a valid image, the array is the first three channels of the
    frame, image and pixmap show it and the view is scaled to 1.  Mouse
    tracking, switched off at the start, is on again only in this last
    case.  An empty frame raises [ValueError]. *)
Theorem capture_outcomes (s : MainWindow2) (r : CaptureReply) :
  ueyeOK && camOn s = true ->
  (prevPixmap (base (fst (getOneImage ueyeOK s r))) = prevPixmap (base s)
   /\ cropActive (base (fst (getOneImage ueyeOK s r))) = cropActive (base s))
  /\ (retVal_success r = false ->
      snd (getOneImage ueyeOK s r) = None
      /\ pixmap (base (fst (getOneImage ueyeOK s r))) = pixmap (base s)
      /\ image (base (fst (getOneImage ueyeOK s r))) = image (base s)
      /\ npImage (base (fst (getOneImage ueyeOK s r))) = npImage (base s)
      /\ mouseTracking (base (fst (getOneImage ueyeOK s r))) = false)
  /\ (retVal_success r = true ->
      forall v, amin (data (tempBilde r)) = Ok v ->
                amax (data (tempBilde r)) = Ok v ->
      snd (getOneImage ueyeOK s r) = None
      /\ pixmap (base (fst (getOneImage ueyeOK s r))) = null_pixmap
      /\ image (base (fst (getOneImage ueyeOK s r))) = null_image
      /\ npImage (base (fst (getOneImage ueyeOK s r))) = empty_array
      /\ mouseTracking (base (fst (getOneImage ueyeOK s r))) = false)
  /\ (retVal_success r = true ->
      forall lo hi, amin (data (tempBilde r)) = Ok lo ->
                    amax (data (tempBilde r)) = Ok hi -> lo <> hi ->
      ndim (tempBilde r) = 3%nat ->
      (3 <= nth 2 (shape (tempBilde r)) 0)%nat ->
      (0 < rows (tempBilde r) * cols (tempBilde r))%nat ->
      img_isNull (np2qimage (chans012 (tempBilde r))) = false ->
      snd (getOneImage ueyeOK s r) = None
      /\ npImage (base (fst (getOneImage ueyeOK s r)))
         = chans012 (tempBilde r)
      /\ image (base (fst (getOneImage ueyeOK s r)))
         = np2qimage (chans012 (tempBilde r))
      /\ pixmap (base (fst (getOneImage ueyeOK s r)))
         = fromImage (np2qimage (chans012 (tempBilde r)))
      /\ viewTransform (base (fst (getOneImage ueyeOK s r))) = Identity
      /\ mouseTracking (base (fst (getOneImage ueyeOK s r))) = true)
  /\ (retVal_success r = true -> data (tempBilde r) = [] ->
      snd (getOneImage ueyeOK s r) = Some ValueError).
Proof.
  intros Hg. unfold getOneImage. rewrite Hg.
  split; [ | split; [ | split; [ | split ] ] ].
  - unfold capture, copy_image.
    destruct (retVal_success r); [ | cbn; split; reflexivity ].
    destruct (amin (data (tempBilde r))) as [lo | e];
      [ | cbn; split; reflexivity ].
    destruct (amax (data (tempBilde r))) as [hi | e];
      [ | cbn; split; reflexivity ].
    destruct (negb (lo =? hi));
      [ destruct ((3 <=? ndim (tempBilde r))%nat
                  && (3 <=? nth 2 (shape (tempBilde r)) 0)%nat) | ];
      cbn; unfold scaleOne; cbn;
      repeat match goal with
             | |- context [if ?c then _ else _] => destruct c; cbn
             end; split; reflexivity.
  - intros Hr. unfold capture. rewrite Hr. cbn. repeat split.
  - intros Hr v Hlo Hhi. unfold capture, copy_image.
    rewrite Hr, Hlo, Hhi, Z.eqb_refl. cbn. repeat split.
  - intros Hr lo hi Hlo Hhi Hne Hd Hc Hsz Hv. unfold capture, copy_image.
    rewrite Hr, Hlo, Hhi.
    replace (lo =? hi) with false by (symmetry; apply Z.eqb_neq; exact Hne).
    assert (Hsk : skipn 3 (shape (tempBilde r)) = []).
    { unfold ndim in Hd.
      destruct (shape (tempBilde r)) as [| a [| b [| c [| d sh]]]];
        cbn in Hd; try discriminate Hd; reflexivity. }
    rewrite Hd. apply Nat.leb_le in Hc. rewrite Hc.
    cbn [Nat.leb andb negb].
    cbn [base set_base fst npImage set_npImage call].
    replace (0 <? size (chans012 (tempBilde r)))%nat with true
      by (symmetry; apply Nat.ltb_lt; unfold size, chans012; rewrite Hsk;
          cbn; lia).
    cbn [image set_image]. rewrite Hv. cbn [negb].
    unfold scaleOne, pm_isNull; cbn.
    unfold img_isNull in Hv. rewrite Hv. cbn. repeat split.
  - intros Hr He. unfold capture, copy_image. rewrite Hr, He. reflexivity.
Qed.

End Capture.

Lemma capture_outcomes_witness :
  mouseTracking
    (base
       (fst
          (@getOneImage true Reference.RefLibs (cameraOn true (initial2 true))
             (mkCaptureReply false empty_array))))
  = false
  /\ npImage
       (base
          (fst
             (@getOneImage true Reference.RefLibs
                (cameraOn true (initial2 true))
                (mkCaptureReply true
                   (mkArr [1%nat; 2%nat; 3%nat] [7; 7; 7; 7; 7; 7])))))
     = empty_array.
Proof.
  split.
  - destruct (@capture_outcomes true Reference.RefLibs
                (cameraOn true (initial2 true))
                (mkCaptureReply false empty_array))
      as (_ & Hfail & _); [ reflexivity | ].
    apply Hfail. reflexivity.
  - destruct (@capture_outcomes true Reference.RefLibs
                (cameraOn true (initial2 true))
                (mkCaptureReply true
                   (mkArr [1%nat; 2%nat; 3%nat] [7; 7; 7; 7; 7; 7])))
      as (_ & _ & Huniform & _); [ reflexivity | ].
    apply (Huniform eq_refl 7); reflexivity.
Defined.

(** ** Zoom *)

Section Zoom.

Context `{L : Libs}.

Lemma np2image2pixmap_view (s : MainWindow) (B : ndarray) (also : bool) :
  viewTransform (np2image2pixmap s B also) = viewTransform s.
Proof. unfold np2image2pixmap; by_cases; reflexivity. Qed.

Lemma toEdges_form (s : MainWindow) (d : EdgeRun) :
  toEdges s d
  = setMenuItems
      (if edge_result d
       then setWindowTitle
              (np2image2pixmap
                 (fold_left (fun s v => tryEdges s (fst v) (snd v))
                    (edge_previews d) (set_prevPixmap s (pixmap s)))
                 (edge_array (npImage s) (fst (edge_values d))
                    (snd (edge_values d))) true)
              TitleEdge
       else set_prevPixmap
              (pixmap2image2np
                 (set_pixmap
                    (fold_left (fun s v => tryEdges s (fst v) (snd v))
                       (edge_previews d) (set_prevPixmap s (pixmap s)))
                    (prevPixmap
                       (fold_left (fun s v => tryEdges s (fst v) (snd v))
                          (edge_previews d) (set_prevPixmap s (pixmap s))))))
              (prevPixmap s)).
Proof.
  unfold toEdges, edge_array.
  destruct (edge_values d) as [valK valS]. cbn [fst snd].
  destruct (edge_result d); [ destruct (1 <? valS) | ]; reflexivity.
Qed.

Lemma filterImage_form (s : MainWindow) (d : FilterRun) :
  exists B,
    filterImage s d
    = setMenuItems
        (if filter_result d
         then setWindowTitle
                (np2image2pixmap
                   (fold_left (fun s v => tryFilter s (fst v) (snd v))
                      (filter_previews d) (set_prevPixmap s (pixmap s)))
                   B true)
                TitleFiltered
         else set_prevPixmap
                (pixmap2image2np
                   (set_pixmap
                      (fold_left (fun s v => tryFilter s (fst v) (snd v))
                         (filter_previews d) (set_prevPixmap s (pixmap s)))
                      (prevPixmap
                         (fold_left (fun s v => tryFilter s (fst v) (snd v))
                            (filter_previews d)
                            (set_prevPixmap s (pixmap s))))))
                (prevPixmap s)).
Proof.
  unfold filterImage.
  destruct (filter_values d) as [h valS].
  destruct (filter_result d).
  - exists (let B :=
              if 1 <? kernel_len h then cv2_filter2D (npImage s) h
              else np_astype_float32
                     (npImage
                        (fold_left (fun s v => tryFilter s (fst v) (snd v))
                           (filter_previews d)
                           (set_prevPixmap s (pixmap s)))) in
            let B :=
              if 1 <? valS
              then cv2_sepFilter2D B (smoothFilter valS) (smoothFilter valS)
              else B in
            np_scale_uint8 (np_sub_min B)).
    reflexivity.
  - exists (npImage s). reflexivity.
Qed.

Lemma toBinary_form (s : MainWindow) (d : ThresholdRun) :
  toBinary s d
  = setMenuItems
      (if threshold_result d
       then setWindowTitle
              (np2image2pixmap
                 (fold_left tryBinary (threshold_previews d)
                    (set_prevPixmap s (pixmap s)))
                 (binary_array (npImage s) (threshold_value d)) true)
              TitleBinary
       else set_prevPixmap
              (pixmap2image2np
                 (set_pixmap
                    (fold_left tryBinary (threshold_previews d)
                       (set_prevPixmap s (pixmap s)))
                    (prevPixmap
                       (fold_left tryBinary (threshold_previews d)
                          (set_prevPixmap s (pixmap s))))))
              (prevPixmap s)).
Proof.
  unfold toBinary, binary_array.
  destruct (threshold_result d); [ destruct (threshold_value d <? 2) | ];
    reflexivity.
Qed.

(** The view after a dialog, from the window [s2] the previews left. *)
Lemma dialog_view (s s2 : MainWindow) (B : ndarray) (t : Title)
    (accepted : bool) :
  preview_frame (set_prevPixmap s (pixmap s)) s2 ->
  viewTransform
    (setMenuItems
       (if accepted then setWindowTitle (np2image2pixmap s2 B true) t
        else set_prevPixmap
               (pixmap2image2np (set_pixmap s2 (prevPixmap s2)))
               (prevPixmap s)))
  = if accepted then viewTransform s
    else if pm_isNull (pixmap s) then viewTransform s else Identity.
Proof.
  intros (_ & Hq & _ & Hv & _). cbn in Hq, Hv.
  destruct accepted.
  - pose proof (np2image2pixmap_view s2 B true) as H.
    set (P := np2image2pixmap s2 B true) in *. clearbody P.
    cbn. congruence.
  - destruct (pixmap2image2np_curItem (set_pixmap s2 (prevPixmap s2)))
      as (_ & H).
    set (P := pixmap2image2np (set_pixmap s2 (prevPixmap s2))) in *.
    clearbody P. cbn in *. rewrite H, Hq, Hv. reflexivity.
Qed.

(** X12.  The zoom after an edit.  An accepted [toEdges], [filterImage]
    or [toBinary] keeps the view transform (the previews keep it too);
    a cancelled one restores through [pixmap2image2np], which ends in
    [scaleOne], so with a valid pixmap the view is back at scale 1.
    [undoLast] with a valid previous pixmap also resets the view to
    scale 1. *)
Theorem zoom_kept_or_reset (s : MainWindow) (de : EdgeRun) (df : FilterRun)
    (dt : ThresholdRun) :
  (viewTransform (toEdges s de)
   = if edge_result de then viewTransform s
     else if pm_isNull (pixmap s) then viewTransform s else Identity)
  /\ (viewTransform (filterImage s df)
      = if filter_result df then viewTransform s
        else if pm_isNull (pixmap s) then viewTransform s else Identity)
  /\ (viewTransform (toBinary s dt)
      = if threshold_result dt then viewTransform s
        else if pm_isNull (pixmap s) then viewTransform s else Identity)
  /\ (0 < pm_width (prevPixmap s) -> 0 < pm_height (prevPixmap s) ->
      viewTransform (undoLast s) = Identity).
Proof.
  split; [ | split; [ | split ] ].
  - rewrite toEdges_form. apply dialog_view, edge_previews_frame.
  - destruct (filterImage_form s df) as (B & E). rewrite E.
    apply dialog_view, filter_previews_frame.
  - rewrite toBinary_form. apply dialog_view, threshold_previews_frame.
  - intros Hw Hh.
    assert (E : undoLast s
                = setMenuItems
                    (setWindowTitle
                       (pixmap2image2np
                          (set_prevPixmap (set_pixmap s (prevPixmap s))
                             (pixmap s)))
                       TitlePrevious)).
    { unfold undoLast; cbv beta iota zeta.
      apply Z.ltb_lt in Hw, Hh. rewrite Hw, Hh. reflexivity. }
    rewrite E.
    destruct (pixmap2image2np_curItem
                (set_prevPixmap (set_pixmap s (prevPixmap s)) (pixmap s)))
      as (_ & H).
    set (P := pixmap2image2np _) in *. clearbody P. cbn in *. rewrite H.
    replace (pm_isNull (prevPixmap s)) with false; [ reflexivity | ].
    symmetry. unfold pm_isNull. apply orb_false_intro; apply Z.leb_gt; lia.
Qed.

End Zoom.

Lemma zoom_kept_or_reset_witness :
  viewTransform
    (@undoLast Reference.RefLibs (scaleUp (scaleUp Reference.grayed)))
  = Identity.
Proof.
  apply (@zoom_kept_or_reset Reference.RefLibs
           (scaleUp (scaleUp Reference.grayed)) (mkEdgeRun [] (3, 1) true)
           (@mkFilterRun Reference.RefLibs [] ([1], 1) true)
           (mkThresholdRun [] 100 true)); reflexivity.
Defined.

(** ** Black dots *)

Lemma nth_indexed_map (f : nat * Z -> Z) (l : list Z) (i : nat) :
  (i < length l)%nat ->
  nth i (map f (combine (seq 0 (length l)) l)) 0 = f (i, nth i l 0).
Proof.
  intros Hi.
  rewrite (nth_indep _ 0 (f (0%nat, 0)))
    by (rewrite length_map, length_combine, length_seq; lia).
  rewrite map_nth, combine_nth by (rewrite length_seq; reflexivity).
  rewrite seq_nth by exact Hi. reflexivity.
Qed.

Lemma flat_index (C K r c k : nat) :
  (c < C)%nat -> (k < K)%nat ->
  (((r * C + c) * K + k) / (C * K) = r
   /\ (((r * C + c) * K + k) / K) mod C = c)%nat.
Proof.
  intros Hc Hk. split.
  - symmetry. apply (Nat.div_unique _ _ _ (c * K + k)); nia.
  - replace (((r * C + c) * K + k) / K)%nat with (r * C + c)%nat
      by (apply (Nat.div_unique _ _ _ k); nia).
    symmetry. apply (Nat.mod_unique _ _ r); lia.
Qed.

(** One slice assignment, element by element. *)
Lemma assign_block_at (A : ndarray) (r0 r1 c0 c1 r c k : nat) :
  (c < cols A)%nat -> (k < depth A)%nat ->
  at3 (assign_block A r0 r1 c0 c1 0) r c k
  = if (r0 <=? r)%nat && (r <? r1)%nat && (c0 <=? c)%nat && (c <? c1)%nat
    then 0 else at3 A r c k.
Proof.
  intros Hc Hk. unfold at3.
  change (cols (assign_block A r0 r1 c0 c1 0)) with (cols A).
  change (depth (assign_block A r0 r1 c0 c1 0)) with (depth A).
  set (idx := ((r * cols A + c) * depth A + k)%nat).
  destruct (Nat.lt_ge_cases idx (length (data A))) as [Hi | Hi].
  - unfold assign_block; cbn [data]. rewrite nth_indexed_map by exact Hi.
    cbn [fst snd].
    destruct (flat_index (cols A) (depth A) r c k Hc Hk) as (Hr & Hcl).
    fold idx in Hr, Hcl. rewrite Hr, Hcl. reflexivity.
  - rewrite !nth_overflow;
      [ destruct ((r0 <=? r)%nat && (r <? r1)%nat && (c0 <=? c)%nat
                  && (c <? c1)%nat); reflexivity
      | exact Hi
      | unfold assign_block; cbn [data];
        rewrite length_map, length_combine, length_seq; lia ].
Qed.

Lemma assign_block_shape (A : ndarray) (r0 r1 c0 c1 : nat) (v : Z) :
  shape (assign_block A r0 r1 c0 c1 v) = shape A
  /\ length (data (assign_block A r0 r1 c0 c1 v)) = length (data A).
Proof.
  split; [ reflexivity | ]. unfold assign_block; cbn [data].
  rewrite length_map, length_combine, length_seq. lia.
Qed.

(** The inner loop: the blocks in column band [i], one per row start. *)
Lemma dots_column_at (starts : list nat) (A : ndarray) (i r c k : nat) :
  (c < cols A)%nat -> (k < depth A)%nat ->
  let B := fold_left (fun A j => assign_block A j (j + 3) i (i + 3) 0)
             starts A in
  shape B = shape A /\ length (data B) = length (data A)
  /\ at3 B r c k
     = if dotted starts r && ((i <=? c)%nat && (c <? i + 3)%nat)
       then 0 else at3 A r c k.
Proof.
  revert A; induction starts as [| j starts IH]; intros A Hc Hk;
    cbn [fold_left].
  - unfold dotted; cbn [existsb andb]. auto.
  - destruct (assign_block_shape A j (j + 3) i (i + 3) 0) as (Hs & Hl).
    destruct (IH (assign_block A j (j + 3) i (i + 3) 0)) as (Hs' & Hl' & Ha).
    + unfold cols. rewrite Hs. exact Hc.
    + unfold depth. rewrite Hs. exact Hk.
    + split; [ congruence | ]. split; [ congruence | ].
      cbn zeta in Ha. rewrite Ha, (assign_block_at A) by assumption.
      unfold dotted. cbn [existsb]. fold (dotted starts r).
      destruct (dotted starts r), (j <=? r)%nat, (r <? j + 3)%nat,
        (i <=? c)%nat, (c <? i + 3)%nat; reflexivity.
Qed.

(** The outer loop over the column starts. *)
Lemma dots_at (cstarts rstarts : list nat) (A : ndarray) (r c k : nat) :
  (c < cols A)%nat -> (k < depth A)%nat ->
  let B := fold_left
             (fun A i =>
                fold_left (fun A j => assign_block A j (j + 3) i (i + 3) 0)
                  rstarts A)
             cstarts A in
  shape B = shape A /\ length (data B) = length (data A)
  /\ at3 B r c k
     = if dotted rstarts r && dotted cstarts c then 0 else at3 A r c k.
Proof.
  revert A; induction cstarts as [| i cstarts IH]; intros A Hc Hk;
    cbn [fold_left].
  - unfold dotted at 2; cbn [existsb]. rewrite andb_false_r. auto.
  - destruct (dots_column_at rstarts A i r c k Hc Hk) as (Hs & Hl & Ha).
    cbn zeta in Hs, Hl, Ha.
    set (A1 := fold_left (fun A j => assign_block A j (j + 3) i (i + 3) 0)
                 rstarts A) in *.
    destruct (IH A1) as (Hs' & Hl' & Ha').
    + unfold cols. rewrite Hs. exact Hc.
    + unfold depth. rewrite Hs. exact Hk.
    + split; [ congruence | ]. split; [ congruence | ].
      cbn zeta in Ha'. rewrite Ha', Ha.
      change (dotted (i :: cstarts) c)
        with ((i <=? c)%nat && (c <? i + 3)%nat || dotted cstarts c).
      destruct (dotted rstarts r), (dotted cstarts c), (i <=? c)%nat,
        (c <? i + 3)%nat; reflexivity.
Qed.

(** The starts [0, 10, 20, ...] below [n] cover [x < n] exactly when
    [x mod 10 < 3]. *)
Lemma dotted_range (n x : nat) :
  (x < n)%nat -> dotted (range_step n 10) x = (x mod 10 <? 3)%nat.
Proof.
  intros Hx. unfold dotted, range_step.
  pose proof (Nat.div_mod_eq x 10) as Hdm.
  pose proof (Nat.mod_upper_bound x 10) as Hm.
  pose proof (Nat.div_mod_eq (n + 10 - 1) 10) as Hdn.
  pose proof (Nat.mod_upper_bound (n + 10 - 1) 10) as Hmn.
  destruct (x mod 10 <? 3)%nat eqn:H3.
  - apply Nat.ltb_lt in H3. apply existsb_exists.
    exists (x / 10 * 10)%nat. split.
    + apply in_map_iff. exists (x / 10)%nat. split; [ reflexivity | ].
      apply in_seq. lia.
    + apply andb_true_iff. split; [ apply Nat.leb_le | apply Nat.ltb_lt ];
        lia.
  - apply Nat.ltb_ge in H3.
    destruct (existsb _ _) eqn:He; [ exfalso | reflexivity ].
    apply existsb_exists in He. destruct He as (i & Hin & Hcov).
    apply in_map_iff in Hin. destruct Hin as (q & <- & _).
    apply andb_true_iff in Hcov. destruct Hcov as (H1 & H2).
    apply Nat.leb_le in H1. apply Nat.ltb_lt in H2.
    assert (x / 10 = q)%nat by (symmetry; apply (Nat.div_unique x 10 q (x - q * 10)); lia).
    lia.
Qed.

Lemma size_three (A : ndarray) :
  (2 <= ndim A)%nat -> size A = (rows A * cols A * depth A)%nat.
Proof.
  unfold ndim, size, rows, cols, depth.
  destruct (shape A) as [| n0 [| n1 sh]]; cbn; intros H; try lia.
Qed.

(** X13.  The loops of [blackDots] on an array with at least two axes
    and at least one element: the shape is kept, and the element at row
    [r], column [c] (any channel) becomes 0 when [r mod 10 < 3] and
    [c mod 10 < 3] and is unchanged otherwise; so the dots are 3 x 3
    squares, 10 apart, from the top left corner on.  An array without
    elements is left alone, and a one-axis array with elements raises
    [IndexError]. *)
Theorem blackDots_pattern (A : ndarray) :
  ((2 <= ndim A)%nat -> (0 < size A)%nat ->
   exists B,
     blackDots_array A = Ok B
     /\ shape B = shape A
     /\ length (data B) = length (data A)
     /\ forall r c k,
          (r < rows A)%nat -> (c < cols A)%nat -> (k < depth A)%nat ->
          at3 B r c k
          = if (r mod 10 <? 3)%nat && (c mod 10 <? 3)%nat then 0
            else at3 A r c k)
  /\ (size A = 0%nat -> blackDots_array A = Ok A)
  /\ (ndim A = 1%nat -> (0 < size A)%nat ->
      blackDots_array A = Raise IndexError).
Proof.
  split; [ | split ].
  - intros Hd Hsz. unfold blackDots_array.
    replace (0 <? size A)%nat with true by (symmetry; apply Nat.ltb_lt; exact Hsz).
    assert (H1 : shape_at A 1 = Ok (cols A)).
    { unfold shape_at, cols, ndim in *.
      destruct (shape A) as [| n0 [| n1 sh]]; cbn in *; try lia.
      reflexivity. }
    assert (H0 : shape_at A 0 = Ok (rows A)).
    { unfold shape_at, rows, ndim in *.
      destruct (shape A) as [| n0 sh]; cbn in *; try lia. reflexivity. }
    rewrite H1, H0. cbn [bind]. eexists. split; [ reflexivity | ].
    split; [ | split ].
    + apply (dots_at (range_step (cols A) 10) (range_step (rows A) 10) A
               0 0 0); rewrite (size_three A Hd) in Hsz; nia.
    + apply (dots_at (range_step (cols A) 10) (range_step (rows A) 10) A
               0 0 0); rewrite (size_three A Hd) in Hsz; nia.
    + intros r c k Hr Hc Hk.
      destruct (dots_at (range_step (cols A) 10) (range_step (rows A) 10) A
                  r c k Hc Hk) as (_ & _ & Ha).
      cbn zeta in Ha. rewrite Ha.
      rewrite (dotted_range _ _ Hr), (dotted_range _ _ Hc). reflexivity.
  - intros Hz. unfold blackDots_array. rewrite Hz. reflexivity.
  - intros Hd Hsz. unfold blackDots_array.
    replace (0 <? size A)%nat with true by (symmetry; apply Nat.ltb_lt; exact Hsz).
    unfold shape_at, ndim in *.
    destruct (shape A) as [| n0 [| n1 sh]]; cbn in *; try discriminate Hd.
    reflexivity.
Qed.

Lemma blackDots_pattern_witness :
  exists B,
    blackDots_array (mkArr [1%nat; 12%nat] [1; 2; 3; 4; 5; 6; 7; 8; 9; 10; 11; 12])
    = Ok B
    /\ data B = [0; 0; 0; 4; 5; 6; 7; 8; 9; 10; 0; 0].
Proof.
  destruct (proj1 (blackDots_pattern
                     (mkArr [1%nat; 12%nat]
                        [1; 2; 3; 4; 5; 6; 7; 8; 9; 10; 11; 12])))
    as (B & HB & _); [ cbn; lia | cbn; lia | ].
  exists B. split; [ exact HB | ].
  vm_compute in HB. injection HB as <-. reflexivity.
Defined.
